(** * FootScan: the scoring models, the combiner and the backtester

    A shallow embedding of the prediction core of the FootScan backend
    ([backend/app/models], [backend/app/backtest/backtest.py] and the
    feature builder of [backend/app/prediction/predict.py]), followed by
    the histories the pipeline reads, the cache, the keyword sentiment and
    the head-to-head statistics.

    Numbers.  Python floats are modelled as exact rationals [Q]; every
    statement below is therefore a statement about the arithmetic the code
    writes down, without binary rounding, infinities or NaN.  The places
    where the source relies on a non-finite value are written out case by
    case where they occur.  Library functions that have no rational value
    ([scipy.stats.*.pmf], [numpy.log], the random source) are Section
    variables; so are the numpy results on whose last bit the code
    branches: [np.mean] and [np.var] in the negative-binomial fit, and the
    edges [np.linspace] returns to the calibration.

    Dictionaries.  A Python [dict] keeps insertion order, so it is an
    association list with unique keys ([Dict]). *)

From Stdlib Require Import String Ascii Bool Arith ZArith Lia.
From Stdlib Require Import QArith Qround Qabs Lqa List.
Import ListNotations.

Open Scope Q_scope.

(** ** Python and numpy arithmetic *)

Module Py.

(** [x < y] on floats. *)
Definition Qltb (x y : Q) : bool := negb (Qle_bool y x).

(** [max(a, b)]: the first of the largest arguments. *)
Definition max (a b : Q) : Q := if Qltb a b then b else a.

(** [min(a, b)]: the first of the smallest arguments. *)
Definition min (a b : Q) : Q := if Qltb b a then b else a.

(** [max(a, b, c)]. *)
Definition max3 (a b c : Q) : Q := max (max a b) c.

(** [sum(xs)]. *)
Definition sum (xs : list Q) : Q := fold_left Qplus xs 0.

Definition len {A} (xs : list A) : Q := inject_Z (Z.of_nat (length xs)).

(** [np.mean(xs)]; only ever called on a non-empty sequence. *)
Definition mean (xs : list Q) : Q := sum xs / len xs.

(** [np.var(xs)], numpy's default, in exact arithmetic: the mean squared
    deviation (ddof = 0). *)
Definition var (xs : list Q) : Q :=
  let m := mean xs in
  mean (map (fun x => (x - m) * (x - m)) xs).

(** [round(x)] with one argument: nearest integer, halves to the even one. *)
Definition round (x : Q) : Z :=
  let f := Qfloor x in
  let r := x - inject_Z f in
  if Qltb r (1 # 2) then f
  else if Qltb (1 # 2) r then (f + 1)%Z
  else if Z.even f then f else (f + 1)%Z.

(** The three-way normalisation every model ends with:
<<
    total = home + draw + away
    if total > 0:
        home /= total; draw /= total; away /= total
>> *)
Definition normalize (home draw away : Q) : Q * Q * Q :=
  let total := home + draw + away in
  if Qltb 0 total
  then (home / total, draw / total, away / total)
  else (home, draw, away).

End Py.

(** ** Strings: [str(int)], [int(str)] and [str.split] *)

Module PyStr.

Open Scope string_scope.

Definition digit_char (n : nat) : ascii := ascii_of_nat (48 + n mod 10).

(** Decimal digits of [n], most significant first, in front of [acc]. *)
Fixpoint to_digits (fuel n : nat) (acc : string) : string :=
  let acc' := String (digit_char n) acc in
  match fuel with
  | O => acc'
  | S fuel' => if (n / 10 =? 0)%nat then acc' else to_digits fuel' (n / 10) acc'
  end.

Definition str_of_nat (n : nat) : string := to_digits n n "".

(** [f"{z}"] for an [int]. *)
Definition str_of_Z (z : Z) : string :=
  if (z <? 0)%Z then String "-" (str_of_nat (Z.to_nat (- z)))
  else str_of_nat (Z.to_nat z).

(** [f"{h}-{a}"]. *)
Definition format_score (h a : Z) : string :=
  str_of_Z h ++ "-" ++ str_of_Z a.

(** [s.split(sep)] for a one-character separator. *)
Fixpoint split (sep : ascii) (s : string) : list string :=
  match s with
  | EmptyString => [EmptyString]
  | String c rest =>
      if Ascii.eqb c sep then EmptyString :: split sep rest
      else match split sep rest with
           | part :: parts => String c part :: parts
           | [] => [String c EmptyString]
           end
  end.

(** White space as [int] and [str.strip] see it, within ASCII:
    tab to carriage return, the four separators 28..31 and the space. *)
Definition is_space (c : ascii) : bool :=
  let n := nat_of_ascii c in
  ((9 <=? n) && (n <=? 13) || (28 <=? n) && (n <=? 32))%nat.

Fixpoint lstrip (s : string) : string :=
  match s with
  | String c rest => if is_space c then lstrip rest else s
  | EmptyString => EmptyString
  end.

Fixpoint rev_onto (s acc : string) : string :=
  match s with
  | EmptyString => acc
  | String c rest => rev_onto rest (String c acc)
  end.

Definition strip (s : string) : string :=
  rev_onto (lstrip (rev_onto (lstrip s) "")) "".

Definition digit_val (c : ascii) : option Z :=
  let n := nat_of_ascii c in
  if ((48 <=? n) && (n <=? 57))%nat then Some (Z.of_nat (n - 48)) else None.

(** The digits of an integer literal: decimal digits, with single
    underscores allowed between two digits. *)
Fixpoint int_digits (s : string) (acc : Z) (after_digit : bool) : option Z :=
  match s with
  | EmptyString => if after_digit then Some acc else None
  | String c rest =>
      match digit_val c with
      | Some d => int_digits rest (10 * acc + d)%Z true
      | None =>
          if Ascii.eqb c "_" && after_digit then int_digits rest acc false
          else None
      end
  end.

(** Strings of decimal digits and the number they denote. *)
Definition is_digit (c : ascii) : bool :=
  match digit_val c with Some _ => true | None => false end.

Fixpoint all_digits (s : string) : bool :=
  match s with
  | EmptyString => true
  | String c rest => is_digit c && all_digits rest
  end.

Fixpoint horner (acc : Z) (s : string) : Z :=
  match s with
  | EmptyString => acc
  | String c rest =>
      horner (10 * acc + match digit_val c with Some d => d | None => 0 end)%Z rest
  end.

(** [int(s)]; [None] stands for [ValueError]. *)
Definition int (s : string) : option Z :=
  match strip s with
  | String "+" rest => int_digits rest 0 false
  | String "-" rest => option_map Z.opp (int_digits rest 0 false)
  | body => int_digits body 0 false
  end.

End PyStr.

(** ** Insertion-ordered dictionaries with string keys *)

Module Dict.

Definition t (V : Type) : Type := list (string * V).

Definition empty {V : Type} : t V := [].

(** [d[k]] / [d.get(k)]. *)
Fixpoint get {V : Type} (d : t V) (k : string) : option V :=
  match d with
  | [] => None
  | (k', v) :: rest => if String.eqb k' k then Some v else get rest k
  end.

(** [d.get(k, default)]. *)
Definition get_or {V : Type} (d : t V) (k : string) (default : V) : V :=
  match get d k with Some v => v | None => default end.

(** [k in d]. *)
Definition contains {V : Type} (d : t V) (k : string) : bool :=
  match get d k with Some _ => true | None => false end.

(** [d[k] = v]: an existing key keeps its position. *)
Fixpoint set {V : Type} (d : t V) (k : string) (v : V) : t V :=
  match d with
  | [] => [(k, v)]
  | (k', v') :: rest =>
      if String.eqb k' k then (k, v) :: rest else (k', v') :: set rest k v
  end.

Definition items {V : Type} (d : t V) : list (string * V) := d.
Definition values {V : Type} (d : t V) : list V := map snd d.

(** Truth value of a dict ([if features:]); [None] and [{}] are both
    false, so an absent feature map is the empty one. *)
Definition truthy {V : Type} (d : t V) : bool :=
  match d with [] => false | _ :: _ => true end.

End Dict.

(** ** Outcome predictions *)

(** The fields every model returns. *)
Record Outcome : Type := mkOutcome {
  home_probability : Q;
  draw_probability : Q;
  away_probability : Q;
  predicted_score : string
}.

(** The double loop of the two count models: the joint mass of every
    scoreline [(i, j)] with [0 <= i, j < max_score] is added to the bucket
    it belongs to.  The result is (home_win, draw, away_win). *)
Definition bucket_masses (home_probs away_probs : nat -> Q) (max_score : nat)
  : Q * Q * Q :=
  fold_left
    (fun acc home_score =>
       fold_left
         (fun '(home_win, draw, away_win) away_score =>
            let prob := home_probs home_score * away_probs away_score in
            if (away_score <? home_score)%nat then (home_win + prob, draw, away_win)
            else if (home_score =? away_score)%nat then (home_win, draw + prob, away_win)
            else (home_win, draw, away_win + prob))
         (seq 0 max_score) acc)
    (seq 0 max_score) (0, 0, 0).

(** ** models/poisson.py *)

Module Poisson.

Record Model : Type := mkModel {
  home_lambda : Q;
  away_lambda : Q;
  max_score : nat
}.

(** [__init__] *)
Definition init : Model :=
  {| home_lambda := 1.5; away_lambda := 1.2; max_score := 10 |}.

Record Prediction : Type := mkPrediction {
  outcome : Outcome;
  pred_home_lambda : Q;
  pred_away_lambda : Q
}.

(** [fit] *)
Definition fit (self : Model) (home_goals away_goals : list Q)
           (features : Dict.t Q) : Model :=
  let hl := if (0 <? length home_goals)%nat
            then Py.max (Py.mean home_goals) 0.1 else 1.5 in
  let al := if (0 <? length away_goals)%nat
            then Py.max (Py.mean away_goals) 0.1 else 1.2 in
  if Dict.truthy features then
    let hl' :=
      let attack_factor := Dict.get_or features "home_attack_strength" 1 in
      let defense_factor := Dict.get_or features "away_defense_strength" 1 in
      hl * (attack_factor * defense_factor) in
    let al' :=
      let attack_factor := Dict.get_or features "away_attack_strength" 1 in
      let defense_factor := Dict.get_or features "home_defense_strength" 1 in
      al * (attack_factor * defense_factor) in
    {| home_lambda := hl'; away_lambda := al'; max_score := max_score self |}
  else
    {| home_lambda := hl; away_lambda := al; max_score := max_score self |}.

(** [_get_most_likely_score] *)
Definition _get_most_likely_score (home_lambda away_lambda : Q) : string :=
  let home_score := Py.round home_lambda in
  let away_score := Py.round away_lambda in
  PyStr.format_score home_score away_score.

(** [_get_default_prediction] *)
Definition _get_default_prediction : Prediction :=
  {| outcome := mkOutcome 0.33 0.34 0.33 "1-1";
     pred_home_lambda := 1.5; pred_away_lambda := 1.2 |}.

Section Predict.

(** [scipy.stats.poisson.pmf(k, mu)] *)
Variable poisson_pmf : nat -> Q -> Q.

(** The rates [predict] works with, after the form adjustment. *)
Definition adjusted_rates (self : Model) (features : Dict.t Q) : Q * Q :=
  if Dict.truthy features then
    let home_form := Dict.get_or features "home_form" 0.5 in
    let away_form := Dict.get_or features "away_form" 0.5 in
    (home_lambda self * (0.5 + home_form), away_lambda self * (0.5 + away_form))
  else (home_lambda self, away_lambda self).

(** home_win, draw and away_win before the normalisation. *)
Definition masses (self : Model) (features : Dict.t Q) : Q * Q * Q :=
  let '(home_lambda, away_lambda) := adjusted_rates self features in
  let home_probs := fun k => poisson_pmf k home_lambda in
  let away_probs := fun k => poisson_pmf k away_lambda in
  bucket_masses home_probs away_probs (max_score self).

(** [predict]; on numeric features the body raises nothing, so the
    [except] branch ([_get_default_prediction]) is not taken. *)
Definition predict (self : Model) (features : Dict.t Q) : Prediction :=
  let '(home_lambda, away_lambda) := adjusted_rates self features in
  let '(home_win, draw, away_win) := masses self features in
  let '(home_win, draw, away_win) := Py.normalize home_win draw away_win in
  let predicted_score := _get_most_likely_score home_lambda away_lambda in
  {| outcome := mkOutcome home_win draw away_win predicted_score;
     pred_home_lambda := home_lambda;
     pred_away_lambda := away_lambda |}.

End Predict.

End Poisson.

(** ** models/negative_binomial.py *)

Module NegativeBinomial.

Record Model : Type := mkModel {
  home_mu : Q;
  home_alpha : Q;
  away_mu : Q;
  away_alpha : Q;
  max_score : nat
}.

(** [__init__] *)
Definition init : Model :=
  {| home_mu := 1.5; home_alpha := 1; away_mu := 1.2; away_alpha := 1;
     max_score := 10 |}.

Record Prediction : Type := mkPrediction {
  outcome : Outcome;
  pred_home_mu : Q;
  pred_away_mu : Q;
  pred_home_alpha : Q;
  pred_away_alpha : Q
}.

Section Fit.

(** [np.mean] and [np.var] as numpy returns them, two doubles.  The test
    [var > mean] turns on their last bit: on the history
    [2, 2, 1, 1, 0, 0, 0, 0, 0] the mean and the variance are both 2/3 in
    exact arithmetic, and numpy returns 0.6666666666666666 for the mean
    and the next double for the variance.  So the two results are taken
    as they come, and not replaced by the exact mean and variance. *)
Variable np_mean : list Q -> Q.
Variable np_var : list Q -> Q.

(** One side of the moment fit: the new (mu, alpha) from the current
    ones and that side's goal history.
<<
    if len(goals) > 1:
        mean = np.mean(goals); var = np.var(goals)
        mu = max(mean, 0.1)
        alpha = max(mean ** 2 / (var - mean), 0.1) if var > mean else 1.0
>> *)
Definition fit_side (mu alpha : Q) (goals : list Q) : Q * Q :=
  if (1 <? length goals)%nat then
    let mean := np_mean goals in
    let var := np_var goals in
    (Py.max mean 0.1,
     if Py.Qltb mean var
     then Py.max (mean * mean / (var - mean)) 0.1
     else 1)
  else (mu, alpha).

(** [fit] *)
Definition fit (self : Model) (home_goals away_goals : list Q)
           (features : Dict.t Q) : Model :=
  let '(hmu, halpha) := fit_side (home_mu self) (home_alpha self) home_goals in
  let '(amu, aalpha) := fit_side (away_mu self) (away_alpha self) away_goals in
  if Dict.truthy features then
    let hmu' :=
      let attack_factor := Dict.get_or features "home_attack_strength" 1 in
      let defense_factor := Dict.get_or features "away_defense_strength" 1 in
      hmu * (attack_factor * defense_factor) in
    let amu' :=
      let attack_factor := Dict.get_or features "away_attack_strength" 1 in
      let defense_factor := Dict.get_or features "home_defense_strength" 1 in
      amu * (attack_factor * defense_factor) in
    {| home_mu := hmu'; home_alpha := halpha; away_mu := amu';
       away_alpha := aalpha; max_score := max_score self |}
  else
    {| home_mu := hmu; home_alpha := halpha; away_mu := amu;
       away_alpha := aalpha; max_score := max_score self |}.

End Fit.

(** [_get_most_likely_score] *)
Definition _get_most_likely_score (home_mu away_mu : Q) : string :=
  let home_score := Py.round home_mu in
  let away_score := Py.round away_mu in
  PyStr.format_score home_score away_score.

(** [_get_default_prediction] *)
Definition _get_default_prediction : Prediction :=
  {| outcome := mkOutcome 0.33 0.34 0.33 "1-1";
     pred_home_mu := 1.5; pred_away_mu := 1.2;
     pred_home_alpha := 1; pred_away_alpha := 1 |}.

Section Predict.

(** [scipy.stats.nbinom.pmf(k, n, p)] *)
Variable nbinom_pmf : nat -> Q -> Q -> Q.

Definition adjusted_means (self : Model) (features : Dict.t Q) : Q * Q :=
  if Dict.truthy features then
    let home_form := Dict.get_or features "home_form" 0.5 in
    let away_form := Dict.get_or features "away_form" 0.5 in
    (home_mu self * (0.5 + home_form), away_mu self * (0.5 + away_form))
  else (home_mu self, away_mu self).

(** home_win, draw and away_win before the normalisation. *)
Definition masses (self : Model) (features : Dict.t Q) : Q * Q * Q :=
  let '(home_mu, away_mu) := adjusted_means self features in
  let home_alpha := home_alpha self in
  let away_alpha := away_alpha self in
  let home_probs :=
    fun k => nbinom_pmf k home_alpha (home_alpha / (home_alpha + home_mu)) in
  let away_probs :=
    fun k => nbinom_pmf k away_alpha (away_alpha / (away_alpha + away_mu)) in
  bucket_masses home_probs away_probs (max_score self).

(** [predict] *)
Definition predict (self : Model) (features : Dict.t Q) : Prediction :=
  let '(home_mu, away_mu) := adjusted_means self features in
  let '(home_win, draw, away_win) := masses self features in
  let '(home_win, draw, away_win) := Py.normalize home_win draw away_win in
  let predicted_score := _get_most_likely_score home_mu away_mu in
  {| outcome := mkOutcome home_win draw away_win predicted_score;
     pred_home_mu := home_mu;
     pred_away_mu := away_mu;
     pred_home_alpha := home_alpha self;
     pred_away_alpha := away_alpha self |}.

End Predict.

End NegativeBinomial.

(** ** models/hawkes.py *)

Module Hawkes.

Record Model : Type := mkModel {
  lambda0_home : Q;
  lambda0_away : Q;
  alpha : Q;
  beta : Q;
  max_score : nat
}.

(** [__init__] *)
Definition init : Model :=
  {| lambda0_home := 0.05; lambda0_away := 0.04; alpha := 0.2; beta := 1;
     max_score := 10 |}.

Record Prediction : Type := mkPrediction {
  outcome : Outcome;
  home_goals : nat;
  away_goals : nat
}.

(** [fit] *)
Definition fit (self : Model) (home_goals away_goals : list Q)
           (features : Dict.t Q) : Model :=
  let l0h := if (0 <? length home_goals)%nat
             then Py.max 0.01 (Py.mean home_goals * 0.05)
             else lambda0_home self in
  let l0a := if (0 <? length away_goals)%nat
             then Py.max 0.01 (Py.mean away_goals * 0.04)
             else lambda0_away self in
  if Dict.truthy features then
    let home_form := Dict.get_or features "home_form" 0.5 in
    let away_form := Dict.get_or features "away_form" 0.5 in
    {| lambda0_home := l0h * (0.5 + home_form);
       lambda0_away := l0a * (0.5 + away_form);
       alpha := alpha self; beta := beta self; max_score := max_score self |}
  else
    {| lambda0_home := l0h; lambda0_away := l0a;
       alpha := alpha self; beta := beta self; max_score := max_score self |}.

(** [_get_default_prediction] *)
Definition _get_default_prediction : Prediction :=
  {| outcome := mkOutcome 0.35 0.32 0.33 "1-1";
     home_goals := 1; away_goals := 1 |}.

(** The outcome probabilities of [predict], from the two simulated
    arrays' lengths: lines 71-91 of the source. *)
Definition probabilities (self : Model) (match_length : Q)
           (num_home_goals num_away_goals : nat) : Q * Q * Q :=
  let total_goals := (num_home_goals + num_away_goals)%nat in
  let '(home_prob, away_prob) :=
    if (0 <? total_goals)%nat then
      let home_intensity := lambda0_home self * match_length in
      let away_intensity := lambda0_away self * match_length in
      let total_intensity := home_intensity + away_intensity in
      (if Py.Qltb 0 total_intensity then home_intensity / total_intensity else 0.45,
       if Py.Qltb 0 total_intensity then away_intensity / total_intensity else 0.45)
    else (0.45, 0.45) in
  let draw_prob := 1 - home_prob - away_prob in
  let draw_prob := Py.max 0 draw_prob in
  Py.normalize home_prob draw_prob away_prob.

(** Computations that draw from the random source and may run out of
    fuel: the state is the number of draws made so far. *)
Definition Sim (A : Type) : Type := nat -> option (A * nat).

Definition ret {A : Type} (a : A) : Sim A := fun s => Some (a, s).

Definition bind {A B : Type} (m : Sim A) (k : A -> Sim B) : Sim B :=
  fun s => match m s with
           | Some (a, s') => k a s'
           | None => None
           end.

Definition out_of_fuel {A : Type} : Sim A := fun _ => None.

Notation "x <- m ;; k" := (bind m (fun x => k))
  (at level 61, m at next level, right associativity).

Section Simulation.

(** [draws n] is the value of the [n]-th call of [np.random.uniform()],
    a number of the open unit interval. *)
Variable draws : nat -> Q.

(** [np.log] *)
Variable np_log : Q -> Q.

(** Iterations allowed to one [while] loop. *)
Variable fuel : nat.

Definition uniform : Sim Q := fun s => Some (draws s, S s).

(** The [while t < match_length] loop of one simulated match.

    [dt = -np.log(u) / intensity] with [intensity = 0] is not a finite
    number in the source (numpy returns inf, with a warning); [t] then
    fails both [t < match_length] tests and the loop ends with the goals
    collected so far.  [np.exp(-self.beta * 0)] is [1.0]. *)
Fixpoint simulate_match (n : nat) (self : Model)
         (base_intensity match_length t intensity : Q) (goals : list Q)
  : Sim (list Q) :=
  if negb (Py.Qltb t match_length) then ret goals
  else match n with
       | O => out_of_fuel
       | S n' =>
           u <- uniform ;;
           if Qeq_bool intensity 0 then ret goals
           else
             let dt := - np_log u / intensity in
             let t := t + dt in
             if Py.Qltb t match_length then
               v <- uniform ;;
               if Py.Qltb v (intensity / (base_intensity * 2)) then
                 simulate_match n' self base_intensity match_length t
                                (base_intensity + alpha self * 1)
                                (goals ++ [t])
               else
                 simulate_match n' self base_intensity match_length t
                                intensity goals
             else
               simulate_match n' self base_intensity match_length t
                              intensity goals
       end.

(** The [for _ in range(simulations)] loop. *)
Fixpoint simulate_runs (self : Model) (base_intensity match_length : Q)
         (simulations : nat) (goal_counts : list nat) : Sim (list nat) :=
  match simulations with
  | O => ret goal_counts
  | S simulations' =>
      goals <- simulate_match fuel self base_intensity match_length
                              0 base_intensity [] ;;
      simulate_runs self base_intensity match_length simulations'
                    (goal_counts ++ [length goals])
  end.

(** [_simulate_goals]: one goal count per simulated match.  Nothing in
    the loop raises on numbers, so the bare [except] is not taken. *)
Definition _simulate_goals (self : Model) (base_intensity match_length : Q)
           (simulations : nat) : Sim (list nat) :=
  simulate_runs self base_intensity match_length simulations [].

(** [predict] *)
Definition predict (self : Model) (features : Dict.t Q) (match_length : Q)
  : Sim Prediction :=
  home_goals_simulated <-
    _simulate_goals self (lambda0_home self) match_length 100 ;;
  away_goals_simulated <-
    _simulate_goals self (lambda0_away self) match_length 100 ;;
  let num_home_goals := length home_goals_simulated in
  let num_away_goals := length away_goals_simulated in
  let '(home_prob, draw_prob, away_prob) :=
    probabilities self match_length num_home_goals num_away_goals in
  let predicted_score :=
    PyStr.format_score (Z.of_nat num_home_goals) (Z.of_nat num_away_goals) in
  ret {| outcome := mkOutcome home_prob draw_prob away_prob predicted_score;
         home_goals := num_home_goals;
         away_goals := num_away_goals |}.

End Simulation.

End Hawkes.

(** ** models/hmm.py *)

Module HMM.

Record Model : Type := mkModel {
  n_states : nat;
  state_probs : list Q
}.

(** The tables [__init__] stores; no method assigns them again. *)
Definition transition_matrix : list (list Q) :=
  [ [0.6; 0.3; 0.1];
    [0.3; 0.5; 0.2];
    [0.2; 0.4; 0.4] ].

(** Rows: good, medium, poor form; columns: win, draw, loss. *)
Definition emission_probs : list (list Q) :=
  [ [0.8; 0.15; 0.05];
    [0.4; 0.4; 0.2];
    [0.1; 0.3; 0.6] ].

(** [__init__] *)
Definition init : Model :=
  {| n_states := 3; state_probs := [0.33; 0.33; 0.34] |}.

Record Prediction : Type := mkPrediction {
  outcome : Outcome;
  home_state : nat;
  away_state : nat
}.

(** [fit] *)
Definition fit (self : Model) (results : list Q) : Model :=
  if (length results <? 5)%nat then self
  else
    let win_rate := Py.mean results in
    if Py.Qltb 0.6 win_rate then
      {| n_states := n_states self; state_probs := [0.7; 0.25; 0.05] |}
    else if Py.Qltb 0.4 win_rate then
      {| n_states := n_states self; state_probs := [0.3; 0.5; 0.2] |}
    else
      {| n_states := n_states self; state_probs := [0.1; 0.3; 0.6] |}.

(** [_get_state_from_form] *)
Definition _get_state_from_form (form : Q) : nat :=
  if Py.Qltb 0.65 form then 0%nat
  else if Py.Qltb 0.35 form then 1%nat
  else 2%nat.

(** [_predict_score] *)
Definition _predict_score (home_state away_state : nat) : string :=
  let state_goals := [1.8; 1.3; 0.8] in
  let home_goals := Py.round (nth home_state state_goals 0) in
  let away_goals := Py.round (nth away_state state_goals 0) in
  PyStr.format_score home_goals away_goals.

(** [_get_default_prediction] *)
Definition _get_default_prediction : Prediction :=
  {| outcome := mkOutcome 0.33 0.34 0.33 "1-1";
     home_state := 1; away_state := 1 |}.

(** [predict]; the states are 0, 1 or 2, so both table rows exist. *)
Definition predict (self : Model) (features : Dict.t Q) : Prediction :=
  let home_form :=
    if Dict.truthy features then Dict.get_or features "home_form" 0.5 else 0.5 in
  let away_form :=
    if Dict.truthy features then Dict.get_or features "away_form" 0.5 else 0.5 in
  let home_state := _get_state_from_form home_form in
  let away_state := _get_state_from_form away_form in
  let home_emissions := nth home_state emission_probs [] in
  let away_emissions := nth away_state emission_probs [] in
  let home_prob := nth 0 home_emissions 0 * (1 - nth 2 away_emissions 0) in
  let away_prob := nth 2 away_emissions 0 * (1 - nth 0 home_emissions 0) in
  let draw_prob := 1 - home_prob - away_prob in
  let '(home_prob, draw_prob, away_prob) :=
    Py.normalize home_prob draw_prob away_prob in
  let predicted_score := _predict_score home_state away_state in
  {| outcome := mkOutcome home_prob draw_prob away_prob predicted_score;
     home_state := home_state;
     away_state := away_state |}.

End HMM.

(** ** models/mixture_expert.py *)

Module MixtureOfExperts.

(** A prediction dict as the combiner reads it, through [pred.get]:
    a field is [None] when the key is absent. *)
Record PredDict : Type := mkPredDict {
  get_home_probability : option Q;
  get_draw_probability : option Q;
  get_away_probability : option Q;
  get_predicted_score : option string;
  get_confidence : option Q
}.

(** The dict a scoring model returns: no ['confidence'] key. *)
Definition of_outcome (o : Outcome) : PredDict :=
  {| get_home_probability := Some (home_probability o);
     get_draw_probability := Some (draw_probability o);
     get_away_probability := Some (away_probability o);
     get_predicted_score := Some (predicted_score o);
     get_confidence := None |}.

Definition or_default {A : Type} (field : option A) (default : A) : A :=
  match field with Some v => v | None => default end.

Record Model : Type := mkModel {
  weights : Dict.t Q;
  model_performances : Dict.t Q
}.

(** [__init__] *)
Definition init : Model :=
  {| weights := [ ("poisson"%string, 0.25);
                  ("negative_binomial"%string, 0.25);
                  ("hawkes"%string, 0.25);
                  ("hmm"%string, 0.25) ];
     model_performances := [] |}.

Record Prediction : Type := mkPrediction {
  outcome : Outcome;
  confidence : Q;
  pred_weights : Dict.t Q;
  ensemble_type : string
}.

(** [fit_weights] *)
Definition fit_weights (self : Model) (performances : Dict.t Q) : Model :=
  let total_perf := Py.sum (Dict.values performances) in
  let weights' :=
    if Py.Qltb 0 total_perf then
      fold_left (fun w '(model, perf) => Dict.set w model (perf / total_perf))
                (Dict.items performances) (weights self)
    else weights self in
  {| weights := weights'; model_performances := performances |}.

(** The weighting loop of [predict]: (weighted_home, weighted_draw,
    weighted_away) before the normalisation. *)
Definition weighted_sums (self : Model) (predictions : Dict.t PredDict)
  : Q * Q * Q :=
  fold_left
    (fun '(weighted_home, weighted_draw, weighted_away) '(model_type, weight) =>
       match Dict.get predictions model_type with
       | Some pred =>
           (weighted_home + weight * or_default (get_home_probability pred) 0,
            weighted_draw + weight * or_default (get_draw_probability pred) 0,
            weighted_away + weight * or_default (get_away_probability pred) 0)
       | None => (weighted_home, weighted_draw, weighted_away)
       end)
    (Dict.items (weights self)) (0, 0, 0).

(** One iteration of the parsing loop of [_combine_scores].  A home
    score is appended before the away part is parsed, as in the source:
<<
    parts = score_str.split('-')
    if len(parts) == 2:
        try:
            home_scores.append(int(parts[0]))
            away_scores.append(int(parts[1]))
        except ValueError:
            pass
>> *)
Definition collect_score (scores : list Z * list Z) (pred : PredDict)
  : list Z * list Z :=
  let '(home_scores, away_scores) := scores in
  let score_str := or_default (get_predicted_score pred) "1-1"%string in
  match PyStr.split "-" score_str with
  | [part0; part1] =>
      match PyStr.int part0 with
      | Some h =>
          match PyStr.int part1 with
          | Some a => (home_scores ++ [h], away_scores ++ [a])
          | None => (home_scores ++ [h], away_scores)
          end
      | None => (home_scores, away_scores)
      end
  | _ => (home_scores, away_scores)
  end.

(** The parsing loop, over [predictions.values()]. *)
Definition parsed_scores (predictions : Dict.t PredDict) : list Z * list Z :=
  fold_left collect_score (Dict.values predictions) ([], []).

(** [_combine_scores] *)
Definition _combine_scores (predictions : Dict.t PredDict) : string :=
  let '(home_scores, away_scores) := parsed_scores predictions in
  match home_scores, away_scores with
  | _ :: _, _ :: _ =>
      let avg_home := Py.round (Py.mean (map inject_Z home_scores)) in
      let avg_away := Py.round (Py.mean (map inject_Z away_scores)) in
      PyStr.format_score avg_home avg_away
  | _, _ => "1-1"%string
  end.

(** The confidence loop of [predict]. *)
Definition confidences (predictions : Dict.t PredDict) : list Q :=
  map (fun pred =>
         match get_confidence pred with
         | Some c => c
         | None =>
             Py.max3 (or_default (get_home_probability pred) 0)
                     (or_default (get_draw_probability pred) 0)
                     (or_default (get_away_probability pred) 0)
         end)
      (Dict.values predictions).

(** [_get_default_prediction] *)
Definition _get_default_prediction (self : Model) : Prediction :=
  {| outcome := mkOutcome 0.33 0.34 0.33 "1-1";
     confidence := 0.5;
     pred_weights := weights self;
     ensemble_type := "mixture_of_experts" |}.

(** [predict] *)
Definition predict (self : Model) (predictions : Dict.t PredDict) : Prediction :=
  let '(weighted_home, weighted_draw, weighted_away) :=
    weighted_sums self predictions in
  let '(weighted_home, weighted_draw, weighted_away) :=
    Py.normalize weighted_home weighted_draw weighted_away in
  let predicted_score := _combine_scores predictions in
  let confidences := confidences predictions in
  let confidence :=
    match confidences with [] => 0.5 | _ :: _ => Py.mean confidences end in
  {| outcome := mkOutcome weighted_home weighted_draw weighted_away predicted_score;
     confidence := confidence;
     pred_weights := weights self;
     ensemble_type := "mixture_of_experts" |}.

End MixtureOfExperts.

(** ** backtest/backtest.py *)

Module Backtest.

(** The two tables the backtester reads. *)
Record MatchRow : Type := mkMatch {
  m_id : Z;
  m_league_id : Z;
  m_match_date : string;
  m_home_score : option Z;      (* NULL until the match is played *)
  m_away_score : option Z
}.

Record PredictionRow : Type := mkPredictionRow {
  p_match_id : Z;
  p_model_type : string;
  p_home_probability : Q;
  p_draw_probability : Q;
  p_away_probability : Q;
  p_predicted_score : string
}.

Record Database : Type := mkDatabase {
  predictions : list PredictionRow;
  matches : list MatchRow
}.

(** A row of the backtest query:
    (home_probability, draw_probability, away_probability,
     predicted_score, home_score, away_score). *)
Record Row : Type := mkRow {
  home_prob : Q;
  draw_prob : Q;
  away_prob : Q;
  score : string;
  home_score : Z;
  away_score : Z
}.

(** [x BETWEEN lo AND hi] on the text of a timestamp. *)
Definition between (x lo hi : string) : bool :=
  String.leb lo x && String.leb x hi.

(** The SELECT of [_backtest_single_model]: predictions joined with their
    match, for one model and league, inside the window, both scores known. *)
Definition select_backtest (db : Database) (league_id : Z)
           (start_date end_date model_type : string) : list Row :=
  flat_map
    (fun p =>
       flat_map
         (fun m =>
            match m_home_score m, m_away_score m with
            | Some hs, Some as_ =>
                if (p_match_id p =? m_id m)%Z
                   && String.eqb (p_model_type p) model_type
                   && (m_league_id m =? league_id)%Z
                   && between (m_match_date m) start_date end_date
                then [ mkRow (p_home_probability p) (p_draw_probability p)
                             (p_away_probability p) (p_predicted_score p) hs as_ ]
                else []
            | _, _ => []
            end)
         (matches db))
    (predictions db).

(** The SELECT of [get_calibration_data]: (home_probability, home_score,
    away_score), no date window. *)
Definition select_calibration (db : Database) (league_id : Z)
           (model_type : string) : list (Q * Z * Z) :=
  flat_map
    (fun p =>
       flat_map
         (fun m =>
            match m_home_score m, m_away_score m with
            | Some hs, Some as_ =>
                if (p_match_id p =? m_id m)%Z
                   && String.eqb (p_model_type p) model_type
                   && (m_league_id m =? league_id)%Z
                then [ (p_home_probability p, hs, as_) ]
                else []
            | _, _ => []
            end)
         (matches db))
    (predictions db).

(** ['home'], ['draw'] or ['away'] from the final score. *)
Definition actual_result (row : Row) : string :=
  if (away_score row <? home_score row)%Z then "home"
  else if (home_score row =? away_score row)%Z then "draw"
  else "away".

(** [max(keys, key=f)]: the first key whose value no later key exceeds;
    [None] is the [ValueError] of an empty sequence. *)
Definition max_by_key (keys : list string) (key : string -> Q) : option string :=
  match keys with
  | [] => None
  | k0 :: rest =>
      Some (fold_left (fun best k => if Py.Qltb (key best) (key k) then k else best)
                      rest k0)
  end.

(** The predicted result of one row:
<<
    probs = {'home': home_prob, 'draw': draw_prob, 'away': away_prob}
    predicted = max(probs, key=probs.get)
>> *)
Definition predicted_result (row : Row) : string :=
  let probs : Dict.t Q :=
    [ ("home"%string, home_prob row);
      ("draw"%string, draw_prob row);
      ("away"%string, away_prob row) ] in
  match max_by_key (map fst (Dict.items probs))
                   (fun k => Dict.get_or probs k 0) with
  | Some k => k
  | None => ""%string
  end.

(** [_calculate_accuracy] *)
Definition _calculate_accuracy (rows : list Row) : Q :=
  let correct :=
    fold_left
      (fun correct row =>
         if String.eqb (actual_result row) (predicted_result row)
         then (correct + 1)%nat else correct)
      rows 0%nat in
  match rows with
  | [] => 0
  | _ :: _ => inject_Z (Z.of_nat correct) / Py.len rows
  end.

Section Metrics.

(** [np.log] *)
Variable np_log : Q -> Q.

(** [_calculate_log_loss] *)
Definition _calculate_log_loss (rows : list Row) : Q :=
  let epsilon := 1 # 1000000000000000 in
  let total_loss :=
    fold_left
      (fun total_loss row =>
         let actual_prob :=
           if (away_score row <? home_score row)%Z then home_prob row
           else if (home_score row =? away_score row)%Z then draw_prob row
           else away_prob row in
         let actual_prob := Py.max (Py.min actual_prob (1 - epsilon)) epsilon in
         total_loss + - np_log actual_prob)
      rows 0 in
  match rows with
  | [] => 0
  | _ :: _ => total_loss / Py.len rows
  end.

(** [_calculate_brier_score] *)
Definition _calculate_brier_score (rows : list Row) : Q :=
  let total_score :=
    fold_left
      (fun total_score row =>
         let actual :=
           if (away_score row <? home_score row)%Z then [1; 0; 0]
           else if (home_score row =? away_score row)%Z then [0; 1; 0]
           else [0; 0; 1] in
         let predicted := [home_prob row; draw_prob row; away_prob row] in
         let sq := map (fun '(p, a) => (p - a) * (p - a)) (combine predicted actual) in
         total_score + Py.mean sq)
      rows 0 in
  match rows with
  | [] => 0
  | _ :: _ => total_score / Py.len rows
  end.

Record Metrics : Type := mkMetrics {
  accuracy : Q;
  log_loss : Q;
  brier_score : Q;
  count : nat;
  model : option string       (* the ['model'] key, when present *)
}.

(** [_backtest_single_model].  The database is [None] when opening the
    connection or running the query raises; the [except] branch then
    answers. *)
Definition _backtest_single_model (db : option Database) (league_id : Z)
           (start_date end_date model_type : string) : Metrics :=
  match db with
  | Some db =>
      let rows := select_backtest db league_id start_date end_date model_type in
      match rows with
      | [] => {| accuracy := 0; log_loss := 0; brier_score := 0;
                 count := 0; model := None |}
      | _ :: _ =>
          {| accuracy := _calculate_accuracy rows;
             log_loss := _calculate_log_loss rows;
             brier_score := _calculate_brier_score rows;
             count := length rows;
             model := Some model_type |}
      end
  | None => {| accuracy := 0; log_loss := 0; brier_score := 0;
               count := 0; model := None |}
  end.

End Metrics.

(** What numpy guarantees of the array [np.linspace(0, 1, num)]: it has
    [num] entries, the first exactly 0, the last exactly 1, in
    non-decreasing order.  The entries between are doubles near k/(num-1),
    not these quotients: for 11 entries the fourth is
    0.30000000000000004. *)
Definition is_linspace01 (edges : list Q) (num : nat) : Prop :=
  length edges = num /\
  nth 0 edges 0 == 0 /\
  ((1 < num)%nat -> nth (num - 1) edges 0 == 1) /\
  (forall i, (i + 1 < num)%nat -> nth i edges 0 <= nth (i + 1) edges 0).

(** The membership test of bin [i]:
    [bin_edges[i] <= row[0] <= bin_edges[i + 1]]. *)
Definition in_bin (bin_edges : list Q) (i : nat) (row : Q * Z * Z) : bool :=
  let p := fst (fst row) in
  Qle_bool (nth i bin_edges 0) p && Qle_bool p (nth (i + 1) bin_edges 0).

(** [bin_rows] of the [i]-th iteration. *)
Definition bin_rows (bin_edges : list Q) (rows : list (Q * Z * Z)) (i : nat)
  : list (Q * Z * Z) :=
  let mask := map (in_bin bin_edges i) rows in
  map fst (filter snd (combine rows mask)).

Record Calibration : Type := mkCalibration {
  cal_confidence : list Q;
  cal_accuracy : list Q;
  cal_bin_edges : list Q
}.

Section Calibration.

(** [np.linspace(0, 1, num)] as numpy returns it. *)
Variable np_linspace01 : nat -> list Q.

(** The loop over the bins, on the rows the query returned; the array of
    edges has [bins + 1] entries, so [bin_edges[i]] and [bin_edges[i + 1]]
    exist for every [i] of the loop. *)
Definition calibration_of_rows (rows : list (Q * Z * Z)) (bins : nat)
  : Calibration :=
  let bin_edges := np_linspace01 (bins + 1) in
  let '(bin_accuracy, bin_confidence) :=
    fold_left
      (fun '(bin_accuracy, bin_confidence) i =>
         let bin_rows := bin_rows bin_edges rows i in
         match bin_rows with
         | [] => (bin_accuracy, bin_confidence)
         | _ :: _ =>
             let wins :=
               filter (fun row => (snd row <? snd (fst row))%Z) bin_rows in
             let accuracy := Py.len wins / Py.len bin_rows in
             let confidence := Py.mean (map (fun row => fst (fst row)) bin_rows) in
             (bin_accuracy ++ [accuracy], bin_confidence ++ [confidence])
         end)
      (seq 0 bins) ([], []) in
  {| cal_confidence := bin_confidence;
     cal_accuracy := bin_accuracy;
     cal_bin_edges := bin_edges |}.

(** [get_calibration_data] *)
Definition get_calibration_data (db : option Database) (league_id : Z)
           (model_type : string) (bins : nat) : Calibration :=
  match db with
  | Some db => calibration_of_rows (select_calibration db league_id model_type) bins
  | None => {| cal_confidence := []; cal_accuracy := []; cal_bin_edges := [] |}
  end.

End Calibration.

End Backtest.

(** ** prediction/predict.py: the feature builder *)

Module Pipeline.

(** A row of [team_stats], as [save_team_stats] writes it. *)
Record TeamStats : Type := mkTeamStats {
  form_rating : Q;
  goals_for : Z;
  goals_against : Z
}.

Definition stat {A : Type} (stats : option TeamStats) (field : TeamStats -> A)
           (default : A) : A :=
  match stats with Some s => field s | None => default end.

Section Features.

(** [news_api.analyze_sentiment(news_api.get_team_news(name) or [])] *)
Variable team_sentiment : string -> Q.

(** [_build_features]; [home_stats] and [away_stats] are what
    [db.get_team_stats] returned ([None] becomes [{}]). *)
Definition _build_features (home_stats away_stats : option TeamStats)
           (home_team_name away_team_name : string) (use_news : bool)
  : Dict.t Q :=
  let features : Dict.t Q := Dict.empty in
  let features := Dict.set features "home_form" (stat home_stats form_rating 0.5) in
  let features := Dict.set features "away_form" (stat away_stats form_rating 0.5) in
  let home_gf := stat home_stats goals_for 0%Z in
  let home_ga := stat home_stats goals_against 1%Z in
  let away_gf := stat away_stats goals_for 0%Z in
  let away_ga := stat away_stats goals_against 1%Z in
  let features :=
    Dict.set features "home_attack_strength"
             (if (0 <? home_gf)%Z then 1 + inject_Z home_gf / 30 else 1) in
  let features :=
    Dict.set features "home_defense_strength"
             (if (0 <? home_ga)%Z then 1 - inject_Z home_ga / 30 else 1) in
  let features :=
    Dict.set features "away_attack_strength"
             (if (0 <? away_gf)%Z then 1 + inject_Z away_gf / 30 else 1) in
  let features :=
    Dict.set features "away_defense_strength"
             (if (0 <? away_ga)%Z then 1 - inject_Z away_ga / 30 else 1) in
  let features := Dict.set features "home_advantage" 1.05 in
  if use_news then
    let features :=
      Dict.set features "home_news_sentiment" (team_sentiment home_team_name) in
    Dict.set features "away_news_sentiment" (team_sentiment away_team_name)
  else
    let features := Dict.set features "home_news_sentiment" 0.5 in
    Dict.set features "away_news_sentiment" 0.5.

End Features.

End Pipeline.

(** ** What the specification says, in its own words *)

Module Spec.

(** "the three probabilities are >= 0 and sum to 1 within 1e-6" *)
Definition is_distribution (o : Outcome) : Prop :=
  0 <= home_probability o /\ 0 <= draw_probability o /\ 0 <= away_probability o /\
  Qabs (home_probability o + draw_probability o + away_probability o - 1)
    <= 1 # 1000000.

Definition total (m : Q * Q * Q) : Q :=
  let '(h, d, a) := m in h + d + a.

(** Un-normalised masses that are all non-negative. *)
Definition nonneg3 (m : Q * Q * Q) : Prop :=
  let '(h, d, a) := m in 0 <= h /\ 0 <= d /\ 0 <= a.

(** Every weight of the combiner is non-negative. *)
Definition weights_nonneg (self : MixtureOfExperts.Model) : Prop :=
  forall name w, In (name, w) (MixtureOfExperts.weights self) -> 0 <= w.

Definition field_nonneg (field : option Q) : Prop :=
  match field with Some v => 0 <= v | None => True end.

(** Every probability present in the input map is non-negative. *)
Definition probabilities_nonneg
           (predictions : Dict.t MixtureOfExperts.PredDict) : Prop :=
  forall name pred, Dict.get predictions name = Some pred ->
    field_nonneg (MixtureOfExperts.get_home_probability pred) /\
    field_nonneg (MixtureOfExperts.get_draw_probability pred) /\
    field_nonneg (MixtureOfExperts.get_away_probability pred).

(** The win and loss emissions of a form state. *)
Definition win_emission (state : nat) : Q :=
  nth 0 (nth state HMM.emission_probs []) 0.
Definition loss_emission (state : nat) : Q :=
  nth 2 (nth state HMM.emission_probs []) 0.

(** The form model's probabilities as the specification words them:
    home is home's win emission times (1 - away's loss emission), away is
    away's win emission times (1 - home's loss emission), draw is the
    residual, clamped at 0; the three are renormalised. *)
Definition form_probabilities_symmetric (home_state away_state : nat)
  : Q * Q * Q :=
  let home := win_emission home_state * (1 - loss_emission away_state) in
  let away := win_emission away_state * (1 - loss_emission home_state) in
  let draw := Py.max 0 (1 - home - away) in
  Py.normalize home draw away.

(** The same with the away line the source has: away's loss emission
    times (1 - home's win emission). *)
Definition form_probabilities_exchanged (home_state away_state : nat)
  : Q * Q * Q :=
  let home := win_emission home_state * (1 - loss_emission away_state) in
  let away := loss_emission away_state * (1 - win_emission home_state) in
  let draw := Py.max 0 (1 - home - away) in
  Py.normalize home draw away.

(** "alpha = mean^2 / (variance - mean), floored at 0.1, when the
    variance exceeds the mean; otherwise alpha = 1.0" *)
Definition dispersion (mean variance : Q) : Q :=
  if Py.Qltb mean variance
  then Py.max (mean * mean / (variance - mean)) 0.1
  else 1.




(** The three outcome buckets. *)
Inductive Bucket : Type := HomeWin | Draw | AwayWin.

Definition bucket_eqb (a b : Bucket) : bool :=
  match a, b with
  | HomeWin, HomeWin | Draw, Draw | AwayWin, AwayWin => true
  | _, _ => false
  end.

(** The dictionary key of a bucket. *)
Definition label (b : Bucket) : string :=
  match b with
  | HomeWin => "home"
  | Draw => "draw"
  | AwayWin => "away"
  end.

(** The bucket of the actual final score. *)
Definition actual_bucket (row : Backtest.Row) : Bucket :=
  match (Backtest.home_score row ?= Backtest.away_score row)%Z with
  | Gt => HomeWin
  | Eq => Draw
  | Lt => AwayWin
  end.

(** The argmax of the three probabilities, ties resolved in the order
    home, draw, away: the first bucket in that order that no other
    bucket's probability exceeds. *)
Definition argmax_bucket (row : Backtest.Row) : Bucket :=
  let h := Backtest.home_prob row in
  let d := Backtest.draw_prob row in
  let a := Backtest.away_prob row in
  if Qle_bool d h && Qle_bool a h then HomeWin
  else if Qle_bool h d && Qle_bool a d then Draw
  else AwayWin.

(** Rows whose argmax is the actual bucket. *)
Definition hits (rows : list Backtest.Row) : list Backtest.Row :=
  filter (fun row => bucket_eqb (argmax_bucket row) (actual_bucket row)) rows.

(** A prediction and a match qualify for a backtest: same match, the
    requested model and league, the date inside the window, both
    scores known. *)
Definition qualifies (league_id : Z) (start_date end_date model_type : string)
           (p : Backtest.PredictionRow) (m : Backtest.MatchRow) : Prop :=
  Backtest.p_match_id p = Backtest.m_id m /\
  Backtest.p_model_type p = model_type /\
  Backtest.m_league_id m = league_id /\
  Backtest.between (Backtest.m_match_date m) start_date end_date = true /\
  Backtest.m_home_score m <> None /\
  Backtest.m_away_score m <> None.

(** The four model names of the combiner. *)
Definition model_names : list string :=
  [ "poisson"; "negative_binomial"; "hawkes"; "hmm" ]%string.

End Spec.

(** ** Sample inputs *)

Module Sample.

(** A mass function that gives each scoreline 0..9 the mass 1/10; it
    stands for the scipy mass functions where a concrete one is needed. *)
Definition flat_poisson_pmf (k : nat) (mu : Q) : Q := 1 # 10.
Definition flat_nbinom_pmf (k : nat) (n p : Q) : Q := 1 # 10.

(** A random source alternating between 1/2 and 1/4. *)
Definition draws (n : nat) : Q := if Nat.even n then 1 # 2 else 1 # 4.

(** The tangent of the logarithm at 1, a rational stand-in for [np.log]. *)
Definition tangent_log (u : Q) : Q := u - 1.

(** A Hawkes model whose two base intensities are zero. *)
Definition silent_hawkes : Hawkes.Model :=
  {| Hawkes.lambda0_home := 0; Hawkes.lambda0_away := 0;
     Hawkes.alpha := 0.2; Hawkes.beta := 1; Hawkes.max_score := 10 |}.

(** The four models' default predictions, keyed as the pipeline does. *)
Definition default_predictions : Dict.t MixtureOfExperts.PredDict :=
  [ ("poisson"%string,
     MixtureOfExperts.of_outcome (Poisson.outcome Poisson._get_default_prediction));
    ("negative_binomial"%string,
     MixtureOfExperts.of_outcome
       (NegativeBinomial.outcome NegativeBinomial._get_default_prediction));
    ("hawkes"%string,
     MixtureOfExperts.of_outcome (Hawkes.outcome Hawkes._get_default_prediction));
    ("hmm"%string,
     MixtureOfExperts.of_outcome (HMM.outcome HMM._get_default_prediction)) ].

(** One prediction, "2-1" with probabilities 0.5 / 0.3 / 0.2, under
    each of the four names. *)
Definition same_outcome : Outcome := mkOutcome 0.5 0.3 0.2 "2-1".

Definition four_identical : Dict.t MixtureOfExperts.PredDict :=
  [ ("hmm"%string, MixtureOfExperts.of_outcome same_outcome);
    ("poisson"%string, MixtureOfExperts.of_outcome same_outcome);
    ("hawkes"%string, MixtureOfExperts.of_outcome same_outcome);
    ("negative_binomial"%string, MixtureOfExperts.of_outcome same_outcome) ].

(** A prediction whose probabilities sum to 0.99999999999999992: what a
    model's own normalisation leaves in double precision. *)
Definition nearly_normalised : Outcome :=
  mkOutcome 0.4228600451646489 0.19455380268361716 0.38258615215173386 "2-1".

Definition four_nearly_normalised : Dict.t MixtureOfExperts.PredDict :=
  [ ("poisson"%string, MixtureOfExperts.of_outcome nearly_normalised);
    ("negative_binomial"%string, MixtureOfExperts.of_outcome nearly_normalised);
    ("hawkes"%string, MixtureOfExperts.of_outcome nearly_normalised);
    ("hmm"%string, MixtureOfExperts.of_outcome nearly_normalised) ].

(** Backtest rows: a tie between home and draw on a home win, a clear
    away call on a draw, and a three-way tie on an away win. *)
Definition backtest_rows : list Backtest.Row :=
  [ Backtest.mkRow 0.4 0.4 0.2 "1-1" 2 1;
    Backtest.mkRow 0.2 0.3 0.5 "0-1" 1 1;
    Backtest.mkRow (1 # 3) (1 # 3) (1 # 3) "1-1" 0 2 ].

(** A database whose only prediction belongs to another model. *)
Definition other_model_db : Backtest.Database :=
  {| Backtest.predictions :=
       [ Backtest.mkPredictionRow 7 "poisson" 0.5 0.3 0.2 "2-1" ];
     Backtest.matches :=
       [ Backtest.mkMatch 7 39 "2024-03-02" (Some 2%Z) (Some 1%Z);
         Backtest.mkMatch 8 39 "2024-03-09" None None ] |}.

(** [np.linspace(0, 1, 11)] as numpy returns it, each double written
    with the decimal text Python prints for it (which keeps the order and
    the equality of doubles); the samples below ask for ten bins only. *)
Definition ten_bin_edges (num : nat) : list Q :=
  [ 0; 0.1; 0.2; 0.30000000000000004; 0.4; 0.5;
    0.6000000000000001; 0.7000000000000001; 0.8; 0.9; 1 ].

(** Calibration rows: a record at one half, which is the edge
    [bin_edges[5]], a record at three tenths, which is just below the
    edge [bin_edges[3]], and a record inside a bin. *)
Definition calibration_rows : list (Q * Z * Z) :=
  [ (1 # 2, 2%Z, 0%Z); (3 # 10, 2%Z, 0%Z); (0.45, 1%Z, 1%Z) ].

(** A history whose mean and variance are both 2/3 in exact arithmetic. *)
Definition tied_history : list Q := [2; 2; 1; 1; 0; 0; 0; 0; 0].

Fixpoint same_history (xs ys : list Q) : bool :=
  match xs, ys with
  | [], [] => true
  | x :: xs', y :: ys' => Qeq_bool x y && same_history xs' ys'
  | _, _ => false
  end.

(** numpy's mean and variance on the histories used below.  On
    [tied_history] they are the doubles numpy returns,
    6004799503160661 / 2^53 (printed 0.6666666666666666) and the next
    double; on the other histories used below the exact mean and variance
    are doubles and numpy returns them. *)
Definition numpy_mean (goals : list Q) : Q :=
  if same_history goals tied_history
  then 6004799503160661 # 9007199254740992
  else Py.mean goals.

Definition numpy_var (goals : list Q) : Q :=
  if same_history goals tied_history
  then 6004799503160662 # 9007199254740992
  else Py.var goals.

(** A team that has conceded 45 goals, and one that has conceded 12. *)
Definition leaky_team : Pipeline.TeamStats :=
  {| Pipeline.form_rating := 0.4; Pipeline.goals_for := 20;
     Pipeline.goals_against := 45 |}.
Definition solid_team : Pipeline.TeamStats :=
  {| Pipeline.form_rating := 0.6; Pipeline.goals_for := 30;
     Pipeline.goals_against := 12 |}.

Definition neutral_sentiment (team_name : string) : Q := 0.5.

End Sample.

(** ** models/hawkes.py: the intensity method *)

Module HawkesIntensity.

Section Kernel.

(** [np.exp] *)
Variable np_exp : Q -> Q.

(** [intensity]: the base intensity plus one exponential kernel term for
    every goal strictly before [t]. *)
Definition intensity (self : Hawkes.Model) (t : Q) (goal_times : list Q)
           (base_intensity : Q) : Q :=
  fold_left
    (fun intensity goal_time =>
       if Py.Qltb goal_time t then
         let time_diff := t - goal_time in
         intensity + Hawkes.alpha self * np_exp (- Hawkes.beta self * time_diff)
       else intensity)
    goal_times base_intensity.

End Kernel.

End HawkesIntensity.

(** ** backtest/backtest.py: the loop over the models *)

Module BacktestRun.

Definition default_models : list string :=
  [ "poisson"; "negative_binomial"; "hawkes"; "hmm"; "ensemble" ]%string.

Section Run.

(** [np.log] *)
Variable np_log : Q -> Q.

(** [backtest_models]; [models] is [None] when the caller gives no list. *)
Definition backtest_models (db : option Backtest.Database) (league_id : Z)
           (start_date end_date : string) (models : option (list string))
  : Dict.t Backtest.Metrics :=
  let models := match models with None => default_models | Some l => l end in
  fold_left
    (fun results model =>
       Dict.set results model
                (Backtest._backtest_single_model np_log db league_id
                                                 start_date end_date model))
    models Dict.empty.

End Run.

End BacktestRun.

(** ** prediction/predict.py: the histories read from the matches table *)

Module History.

(** A row of [matches], listed most recent first, as
    [ORDER BY match_date DESC] returns them. *)
Record Match : Type := mkMatch {
  home_team_id : Z;
  away_team_id : Z;
  league_id : Z;
  home_score : option Z;
  away_score : option Z
}.

Definition known (score : option Z) : bool :=
  match score with Some _ => true | None => false end.

(** [row[0] or 0] *)
Definition or_zero (score : option Z) : Q :=
  match score with Some s => inject_Z s | None => 0 end.

(** [_get_historical_goals]: the home side's goals in its last home
    matches and the away side's goals in its last away matches; a side
    without a match gets the one-entry history 1.5 (home) or 1.2 (away). *)
Definition _get_historical_goals (matches : list Match)
           (home_id away_id league : Z) (num_matches : nat) : list Q * list Q :=
  let home_goals :=
    map (fun m => or_zero (home_score m))
        (firstn num_matches
           (filter (fun m => (home_team_id m =? home_id)%Z
                             && (league_id m =? league)%Z
                             && known (home_score m)) matches)) in
  let away_goals :=
    map (fun m => or_zero (away_score m))
        (firstn num_matches
           (filter (fun m => (away_team_id m =? away_id)%Z
                             && (league_id m =? league)%Z
                             && known (away_score m)) matches)) in
  (match home_goals with [] => [1.5] | _ :: _ => home_goals end,
   match away_goals with [] => [1.2] | _ :: _ => away_goals end).

(** One iteration of the loop of [_get_team_results]; [None] is the
    [TypeError] of comparing a score with a NULL away score. *)
Definition result_of (m : Match) : option Q :=
  match home_score m, away_score m with
  | Some h, Some a =>
      if (a <? h)%Z then Some 1
      else if (h =? a)%Z then Some 0.5
      else Some 0
  | _, _ => None
  end.

Fixpoint results_of (rows : list Match) : option (list Q) :=
  match rows with
  | [] => Some []
  | m :: rest =>
      match result_of m with
      | Some r =>
          match results_of rest with
          | Some rs => Some (r :: rs)
          | None => None
          end
      | None => None
      end
  end.

(** [_get_team_results]: the matches of the team on either side, home
    score known; any failure gives the one-entry history 0.5. *)
Definition _get_team_results (matches : list Match) (team_id league : Z)
           (num_matches : nat) : list Q :=
  let rows :=
    firstn num_matches
      (filter (fun m => ((home_team_id m =? team_id)%Z
                         || (away_team_id m =? team_id)%Z)
                        && (league_id m =? league)%Z
                        && known (home_score m)) matches) in
  match results_of rows with
  | Some (r :: rs) => r :: rs
  | Some [] => [0.5]
  | None => [0.5]
  end.

End History.

(** ** api_clients/news_api.py: the keyword sentiment *)

Module News.

Open Scope string_scope.

(** What [article.get(key, "")] finds: no such key, a JSON null, or text. *)
Inductive Field : Type := Missing | Null | Text (s : string).

Record Article : Type := mkArticle {
  title : Field;
  description : Field
}.

(** [article.get(key, "")]; [None] stands for Python's [None], on which
    the concatenation raises [TypeError]. *)
Definition get_text (f : Field) : option string :=
  match f with
  | Missing => Some ""
  | Null => None
  | Text s => Some s
  end.

(** [str.lower] on ASCII letters. *)
Definition lower_char (c : ascii) : ascii :=
  let n := nat_of_ascii c in
  if ((65 <=? n) && (n <=? 90))%nat then ascii_of_nat (n + 32) else c.

Fixpoint lower (s : string) : string :=
  match s with
  | EmptyString => EmptyString
  | String c rest => String (lower_char c) (lower rest)
  end.

Fixpoint starts_with (prefix s : string) : bool :=
  match prefix, s with
  | EmptyString, _ => true
  | String _ _, EmptyString => false
  | String p prefix', String c s' => Ascii.eqb p c && starts_with prefix' s'
  end.

(** [text.count(keyword)] for a non-empty keyword: occurrences counted
    from the left, without overlap; [skip] characters of the last
    occurrence are still to be passed. *)
Fixpoint count_from (keyword s : string) (skip : nat) : nat :=
  match s with
  | EmptyString => O
  | String _ rest =>
      match skip with
      | S skip' => count_from keyword rest skip'
      | O =>
          if starts_with keyword s
          then S (count_from keyword rest (String.length keyword - 1))
          else count_from keyword rest O
      end
  end.

Definition count (text keyword : string) : nat := count_from keyword text 0.

Definition positive_keywords : list string :=
  [ "win"; "victory"; "strong"; "excellent"; "brilliant"; "great" ].

Definition negative_keywords : list string :=
  [ "loss"; "defeat"; "poor"; "weak"; "injured"; "suspension" ].

(** The text of an article, lower-cased. *)
Definition article_text (a : Article) : option string :=
  match get_text (title a), get_text (description a) with
  | Some t, Some d => Some (lower (t ++ " " ++ d))
  | _, _ => None
  end.

Definition keyword_hits (keywords : list string) (text : string) : nat :=
  fold_left (fun n keyword => (n + count text keyword)%nat) keywords O.

(** The counting loop: (positive_count, negative_count), or [None] when an
    article raises. *)
Fixpoint count_keywords (articles : list Article) (positive negative : nat)
  : option (nat * nat) :=
  match articles with
  | [] => Some (positive, negative)
  | a :: rest =>
      match article_text a with
      | Some text =>
          count_keywords rest
            (positive + keyword_hits positive_keywords text)%nat
            (negative + keyword_hits negative_keywords text)%nat
      | None => None
      end
  end.

(** [analyze_sentiment] *)
Definition analyze_sentiment (articles : list Article) : Q :=
  match articles with
  | [] => 0.5
  | _ :: _ =>
      match count_keywords articles 0 0 with
      | Some (positive_count, negative_count) =>
          let total := (positive_count + negative_count)%nat in
          if (total =? 0)%nat then 0.5
          else
            let sentiment :=
              inject_Z (Z.of_nat positive_count) / inject_Z (Z.of_nat total) in
            Py.min (Py.max sentiment 0) 1
      | None => 0.5
      end
  end.

(** [_get_mock_news]: the two articles, as [analyze_sentiment] reads them. *)
Definition _get_mock_news (team_name : string) : list Article :=
  [ {| title := Text (team_name ++ " secures important victory");
       description :=
         Text ("In a thrilling match, " ++ team_name ++ " defeated their opponents") |};
    {| title := Text (team_name ++ " stars shine in recent performance");
       description :=
         Text ("Key players of " ++ team_name ++ " delivered outstanding performances") |} ].

End News.

(** ** api_clients/football_api.py: head-to-head statistics *)

Module HeadToHead.

(** A match of the API answer, through the nested [.get] calls: a field
    is [None] when it is absent or null. *)
Record ApiMatch : Type := mkApiMatch {
  home_id : option Z;
  away_id : option Z;
  full_time_home : option Z;
  full_time_away : option Z
}.

Record Stats : Type := mkStats {
  home_wins : nat;
  draws : nat;
  away_wins : nat;
  recent_matches : list (option Z * option Z)    (* home_score, away_score *)
}.

(** [m.get("homeTeam", {}).get("id") == team_id] *)
Definition is_team (id : option Z) (team_id : Z) : bool :=
  match id with Some i => (i =? team_id)%Z | None => false end.

(** The list comprehension, cut to the first [matches] entries. *)
Definition h2h_matches (data : list ApiMatch) (home_team_id away_team_id : Z)
           (matches : nat) : list ApiMatch :=
  firstn matches
    (filter (fun m =>
               (is_team (home_id m) home_team_id && is_team (away_id m) away_team_id)
               || (is_team (home_id m) away_team_id && is_team (away_id m) home_team_id))
            data).

(** One iteration of the counting loop. *)
Definition count_match (home_team_id : Z) (stats : Stats) (m : ApiMatch) : Stats :=
  let home_score := full_time_home m in
  let away_score := full_time_away m in
  let stats :=
    match home_score, away_score with
    | Some hs, Some aws =>
        if (aws <? hs)%Z then
          if is_team (home_id m) home_team_id
          then mkStats (home_wins stats + 1) (draws stats) (away_wins stats)
                       (recent_matches stats)
          else mkStats (home_wins stats) (draws stats) (away_wins stats + 1)
                       (recent_matches stats)
        else if (hs <? aws)%Z then
          if is_team (home_id m) home_team_id
          then mkStats (home_wins stats) (draws stats) (away_wins stats + 1)
                       (recent_matches stats)
          else mkStats (home_wins stats + 1) (draws stats) (away_wins stats)
                       (recent_matches stats)
        else mkStats (home_wins stats) (draws stats + 1) (away_wins stats)
                     (recent_matches stats)
    | _, _ => stats
    end in
  mkStats (home_wins stats) (draws stats) (away_wins stats)
          (recent_matches stats ++ [(home_score, away_score)]).

(** The statistics [get_head_to_head] computes from the API answer. *)
Definition h2h_stats (data : list ApiMatch) (home_team_id away_team_id : Z)
           (matches : nat) : Stats :=
  fold_left (count_match home_team_id)
            (h2h_matches data home_team_id away_team_id matches)
            (mkStats 0 0 0 []).

End HeadToHead.

(** ** cache.py, over the [cache] table of database.py *)

Module Cache.

Open Scope string_scope.

(** A row of the [cache] table; [cache_key] is declared UNIQUE. *)
Record Row : Type := mkRow {
  cache_key : string;
  cache_value : string;
  ttl_seconds : option Z;
  expires_at : option string
}.

Definition Table : Type := list Row.

(** A clock reading: the date text [YYYY-MM-DD] and the text of the time
    of day. *)
Record Moment : Type := mkMoment {
  date : string;
  clock : string
}.

(** [datetime.isoformat()]: date and time joined by the letter T. *)
Definition isoformat (m : Moment) : string := date m ++ "T" ++ clock m.

(** SQLite's [datetime('now')]: date and time joined by a space. *)
Definition sql_datetime (m : Moment) : string := date m ++ " " ++ clock m.

(** [expires_at IS NULL OR expires_at > datetime('now')].  The column
    holds the text written by [set_cache], and SQLite compares two texts
    byte by byte. *)
Definition live (now : Moment) (row : Row) : bool :=
  match expires_at row with
  | None => true
  | Some e => String.ltb (sql_datetime now) e
  end.

(** [INSERT OR REPLACE]: a row with the same key is deleted first. *)
Definition insert_or_replace (table : Table) (row : Row) : Table :=
  (filter (fun r => negb (String.eqb (cache_key r) (cache_key row))) table
   ++ [row])%list.

(** [delete_cache] *)
Definition delete_cache (table : Table) (key : string) : bool * Table :=
  (true, filter (fun r => negb (String.eqb (cache_key r) key)) table).

(** [clear_all_cache] *)
Definition clear_all_cache (table : Table) : bool * Table := (true, []).

(** [Database.clean_expired_cache], which [cleanup_expired] calls:
    [DELETE ... WHERE expires_at IS NOT NULL AND expires_at < datetime('now')]. *)
Definition clean_expired_cache (table : Table) (now : Moment) : Table :=
  filter (fun r =>
            negb (match expires_at r with
                  | Some e => String.ltb e (sql_datetime now)
                  | None => false
                  end))
         table.

Section Json.

(** The cached values, with [json.dumps] and [json.loads]; [None] is an
    exception ([TypeError], [JSONDecodeError]). *)
Variable V : Type.
Variable json_dumps : V -> option string.
Variable json_loads : string -> option V.

(** [get_cache], read at the moment [now] of SQLite's clock. *)
Definition get_cache (table : Table) (key : string) (now : Moment) : option V :=
  match find (fun r => String.eqb (cache_key r) key && live now r) table with
  | Some row => json_loads (cache_value row)
  | None => None
  end.

(** [set_cache]; [expiry] is the moment
    [datetime.now() + timedelta(seconds=ttl_seconds)] of Python's clock. *)
Definition set_cache (table : Table) (key : string) (value : V)
           (ttl_seconds : option Z) (expiry : Moment) : bool * Table :=
  match json_dumps value with
  | Some cache_value =>
      let expires_at :=
        match ttl_seconds with
        | Some ttl =>
            if negb (ttl =? 0)%Z && (0 <? ttl)%Z then Some (isoformat expiry)
            else None
        | None => None
        end in
      (true, insert_or_replace table (mkRow key cache_value ttl_seconds expires_at))
  | None => (false, table)
  end.

End Json.

End Cache.

(** ** Sums, for the statements below *)

Module Sums.

(** The sum of [f] over a list of indices. *)
Definition sum_over {A : Type} (f : A -> Q) (l : list A) : Q :=
  fold_right (fun x acc => f x + acc) 0 l.


Definition in_unit (x : Q) : Prop := 0 <= x <= 1.

(** The character [c] does not occur in [s]. *)
Fixpoint without (c : ascii) (s : string) : bool :=
  match s with
  | EmptyString => true
  | String x rest => negb (Ascii.eqb x c) && without c rest
  end.

End Sums.

(** ** More sample inputs *)

Module Sample2.

(** Mass functions that depend on their parameters: the mass
    1/(k+2) - 1/(k+3) at [k], scaled by the rate, or by the two parameters
    of the negative binomial; they stand for the scipy mass functions. *)
Definition scaled_poisson_pmf (k : nat) (mu : Q) : Q :=
  mu * (1 # (Pos.of_nat ((k + 2) * (k + 3)))).
Definition scaled_nbinom_pmf (k : nat) (n p : Q) : Q :=
  n * p * (1 # (Pos.of_nat ((k + 2) * (k + 3)))).

(** A rational stand-in for [np.exp] on the non-positive numbers: 1 at 0,
    falling with the distance from 0, never negative. *)
Definition hyperbolic_exp (x : Q) : Q := 1 / (1 + Qabs x).

(** The performances [train_all_models] reports. *)
Definition trainer_metrics : Dict.t Q :=
  [ ("poisson"%string, 0.75); ("negative_binomial"%string, 0.76);
    ("hawkes"%string, 0.72); ("hmm"%string, 0.71) ].

(** Three clock readings: an expiry one minute past ten, the last second
    of the same day, and a moment years later. *)
Definition morning : Cache.Moment :=
  Cache.mkMoment "2024-03-01" "10:01:00.000000".
Definition midnight : Cache.Moment := Cache.mkMoment "2024-03-01" "23:59:59".
Definition years_later : Cache.Moment := Cache.mkMoment "2031-01-01" "00:00:00".

(** Cached values that are already JSON text. *)
Definition text_dumps (v : string) : option string := Some v.
Definition text_loads (s : string) : option string := Some s.

End Sample2.

(** * Properties *)

(** ** Arithmetic helpers *)

Lemma Qltb_true (x y : Q) : Py.Qltb x y = true <-> x < y.
Proof.
  unfold Py.Qltb. rewrite negb_true_iff.
  split; intro H.
  - apply Qnot_le_lt. intro Hle. apply Qle_bool_iff in Hle. congruence.
  - destruct (Qle_bool y x) eqn:E; [|reflexivity].
    apply Qle_bool_iff in E. exfalso. apply (Qlt_not_le _ _ H E).
Qed.

Lemma Qltb_false (x y : Q) : Py.Qltb x y = false <-> y <= x.
Proof.
  unfold Py.Qltb. rewrite negb_false_iff. apply Qle_bool_iff.
Qed.

Lemma Qltb_spec (x y : Q) : BoolSpec (x < y) (y <= x) (Py.Qltb x y).
Proof.
  destruct (Py.Qltb x y) eqn:E; constructor.
  - now apply Qltb_true.
  - now apply Qltb_false.
Qed.

Lemma py_max_ge_l (a b : Q) : a <= Py.max a b.
Proof. unfold Py.max. destruct (Qltb_spec a b); lra. Qed.

Lemma py_max_ge_r (a b : Q) : b <= Py.max a b.
Proof. unfold Py.max. destruct (Qltb_spec a b); lra. Qed.

Lemma py_max_cases (a b : Q) :
  (a < b /\ Py.max a b = b) \/ (b <= a /\ Py.max a b = a).
Proof. unfold Py.max. destruct (Qltb_spec a b); auto. Qed.

(** Normalising non-negative masses of positive total gives a distribution. *)
Lemma normalize_distribution (h d a : Q) :
  0 <= h -> 0 <= d -> 0 <= a -> 0 < h + d + a ->
  let '(h', d', a') := Py.normalize h d a in
  0 <= h' /\ 0 <= d' /\ 0 <= a' /\ h' + d' + a' == 1.
Proof.
  intros Hh Hd Ha Ht. unfold Py.normalize.
  destruct (Qltb_spec 0 (h + d + a)) as [_|Hle]; [|lra].
  assert (Hinv : 0 < / (h + d + a)) by now apply Qinv_lt_0_compat.
  unfold Qdiv. repeat split.
  - apply Qmult_le_0_compat; lra.
  - apply Qmult_le_0_compat; lra.
  - apply Qmult_le_0_compat; lra.
  - field. lra.
Qed.

(** Masses that already sum to 1 are left as they are (up to [==]). *)
Lemma normalize_total_1 (h d a : Q) :
  h + d + a == 1 ->
  let '(h', d', a') := Py.normalize h d a in
  h' == h /\ d' == d /\ a' == a.
Proof.
  intros Ht. unfold Py.normalize.
  destruct (Qltb_spec 0 (h + d + a)) as [_|Hle]; [|lra].
  repeat split; rewrite Ht; field.
Qed.

Lemma exact_sum_is_distribution (h d a : Q) (s : string) :
  0 <= h -> 0 <= d -> 0 <= a -> h + d + a == 1 ->
  Spec.is_distribution (mkOutcome h d a s).
Proof.
  intros Hh Hd Ha Hs. unfold Spec.is_distribution; simpl.
  repeat split; try assumption.
  assert (E : h + d + a - 1 == 0) by lra.
  rewrite (Qabs_wd _ _ E). vm_compute. discriminate.
Qed.

(** ** Loop invariants *)

Lemma fold_left_invariant {A B : Type} (P : A -> Prop) (f : A -> B -> A)
      (l : list B) (a : A) :
  P a -> (forall x b, In b l -> P x -> P (f x b)) -> P (fold_left f l a).
Proof.
  revert a. induction l as [|b l IH]; intros a Ha Hstep; simpl.
  - exact Ha.
  - apply IH.
    + apply Hstep; [left; reflexivity | exact Ha].
    + intros x b' Hin. apply Hstep. right. exact Hin.
Qed.

(** The three buckets of the double loop are sums of products of masses. *)
Lemma bucket_masses_nonneg (home_probs away_probs : nat -> Q) (n : nat) :
  (forall k, 0 <= home_probs k) -> (forall k, 0 <= away_probs k) ->
  Spec.nonneg3 (bucket_masses home_probs away_probs n).
Proof.
  intros Hh Ha. unfold bucket_masses.
  apply (fold_left_invariant Spec.nonneg3); [simpl; lra|].
  intros acc i _ Hacc.
  apply (fold_left_invariant Spec.nonneg3); [exact Hacc|].
  intros [[h d] a] j _ (H1 & H2 & H3).
  assert (Hp : 0 <= home_probs i * away_probs j)
    by (apply Qmult_le_0_compat; auto).
  destruct (j <? i)%nat; [simpl; repeat split; lra|].
  destruct (i =? j)%nat; simpl; repeat split; lra.
Qed.

(** The guard [total > 0] holds as soon as the scoreline 0-0 has a positive
    mass: the draw bucket contains it. *)
Lemma bucket_masses_total_positive (home_probs away_probs : nat -> Q) (n : nat) :
  (forall k, 0 <= home_probs k) -> (forall k, 0 <= away_probs k) ->
  0 < home_probs 0%nat -> 0 < away_probs 0%nat -> (0 < n)%nat ->
  0 < Spec.total (bucket_masses home_probs away_probs n).
Proof.
  intros Hh Ha Hh0 Ha0 Hn.
  destruct n as [|n]; [lia|].
  set (m := home_probs 0%nat * away_probs 0%nat).
  assert (Hm : 0 < m) by (apply Qmult_lt_0_compat; assumption).
  set (P := fun acc : Q * Q * Q =>
              let '(h, d, a) := acc in 0 <= h /\ m <= d /\ 0 <= a).
  assert (Hinner : forall i js acc, P acc ->
            P (fold_left
                 (fun '(home_win, draw, away_win) away_score =>
                    let prob := home_probs i * away_probs away_score in
                    if (away_score <? i)%nat then (home_win + prob, draw, away_win)
                    else if (i =? away_score)%nat then (home_win, draw + prob, away_win)
                    else (home_win, draw, away_win + prob))
                 js acc)).
  { intros i js acc Hacc. apply (fold_left_invariant P); [exact Hacc|].
    intros [[h d] a] j _ (H1 & H2 & H3).
    assert (Hp : 0 <= home_probs i * away_probs j)
      by (apply Qmult_le_0_compat; auto).
    destruct (j <? i)%nat; [cbn; repeat split; lra|].
    destruct (i =? j)%nat; cbn; repeat split; lra. }
  assert (HP : P (bucket_masses home_probs away_probs (S n))).
  { unfold bucket_masses. cbn [seq fold_left].
    apply (fold_left_invariant P).
    - apply Hinner. cbn. fold m. repeat split; lra.
    - intros acc i _ Hacc. apply (Hinner i (0%nat :: seq 1 n) acc Hacc). }
  destruct (bucket_masses home_probs away_probs (S n)) as [[h d] a].
  destruct HP as (H1 & H2 & H3). cbn. lra.
Qed.

Lemma normalized_outcome_distribution (m : Q * Q * Q) (s : string) :
  Spec.nonneg3 m -> 0 < Spec.total m ->
  let '(h, d, a) := m in
  let '(h', d', a') := Py.normalize h d a in
  Spec.is_distribution (mkOutcome h' d' a' s).
Proof.
  destruct m as [[h d] a]. simpl. intros (Hh & Hd & Ha) Ht.
  pose proof (normalize_distribution h d a Hh Hd Ha Ht) as Hn.
  destruct (Py.normalize h d a) as [[h' d'] a'].
  destruct Hn as (H1 & H2 & H3 & H4).
  now apply exact_sum_is_distribution.
Qed.

(** ** The count models *)

Lemma poisson_predict_distribution (pmf : nat -> Q -> Q) (self : Poisson.Model)
      (features : Dict.t Q) :
  (forall k l, 0 <= pmf k l) ->
  0 < Spec.total (Poisson.masses pmf self features) ->
  Spec.is_distribution (Poisson.outcome (Poisson.predict pmf self features)).
Proof.
  intros Hpmf Htot.
  assert (Hnn : Spec.nonneg3 (Poisson.masses pmf self features)).
  { unfold Poisson.masses.
    destruct (Poisson.adjusted_rates self features) as [hl al].
    apply bucket_masses_nonneg; intros k; apply Hpmf. }
  unfold Poisson.predict.
  destruct (Poisson.adjusted_rates self features) as [hl al].
  pose proof (normalized_outcome_distribution
                (Poisson.masses pmf self features)
                (Poisson._get_most_likely_score hl al) Hnn Htot) as H.
  destruct (Poisson.masses pmf self features) as [[h d] a].
  destruct (Py.normalize h d a) as [[h' d'] a']. exact H.
Qed.

Lemma nbinom_predict_distribution (pmf : nat -> Q -> Q -> Q)
      (self : NegativeBinomial.Model) (features : Dict.t Q) :
  (forall k n p, 0 <= pmf k n p) ->
  0 < Spec.total (NegativeBinomial.masses pmf self features) ->
  Spec.is_distribution
    (NegativeBinomial.outcome (NegativeBinomial.predict pmf self features)).
Proof.
  intros Hpmf Htot.
  assert (Hnn : Spec.nonneg3 (NegativeBinomial.masses pmf self features)).
  { unfold NegativeBinomial.masses.
    destruct (NegativeBinomial.adjusted_means self features) as [hm am].
    apply bucket_masses_nonneg; intros k; apply Hpmf. }
  unfold NegativeBinomial.predict.
  destruct (NegativeBinomial.adjusted_means self features) as [hm am].
  pose proof (normalized_outcome_distribution
                (NegativeBinomial.masses pmf self features)
                (NegativeBinomial._get_most_likely_score hm am) Hnn Htot) as H.
  destruct (NegativeBinomial.masses pmf self features) as [[h d] a].
  destruct (Py.normalize h d a) as [[h' d'] a']. exact H.
Qed.

(** In particular both count models return a distribution when the mass
    function is non-negative and gives zero goals a positive mass at both
    rates. *)
Lemma poisson_predict_distribution_positive_mass (pmf : nat -> Q -> Q)
      (self : Poisson.Model) (features : Dict.t Q) :
  (forall k l, 0 <= pmf k l) ->
  0 < pmf 0%nat (fst (Poisson.adjusted_rates self features)) ->
  0 < pmf 0%nat (snd (Poisson.adjusted_rates self features)) ->
  (0 < Poisson.max_score self)%nat ->
  Spec.is_distribution (Poisson.outcome (Poisson.predict pmf self features)).
Proof.
  intros Hpmf Hh Ha Hn. apply poisson_predict_distribution; [exact Hpmf|].
  unfold Poisson.masses.
  destruct (Poisson.adjusted_rates self features) as [hl al].
  apply bucket_masses_total_positive; auto.
Qed.

Lemma nbinom_predict_distribution_positive_mass (pmf : nat -> Q -> Q -> Q)
      (self : NegativeBinomial.Model) (features : Dict.t Q) :
  (forall k n p, 0 <= pmf k n p) ->
  (forall n p, 0 < pmf 0%nat n p) ->
  (0 < NegativeBinomial.max_score self)%nat ->
  Spec.is_distribution
    (NegativeBinomial.outcome (NegativeBinomial.predict pmf self features)).
Proof.
  intros Hpmf H0 Hn. apply nbinom_predict_distribution; [exact Hpmf|].
  unfold NegativeBinomial.masses.
  destruct (NegativeBinomial.adjusted_means self features) as [hm am].
  apply bucket_masses_total_positive; auto.
Qed.

(** ** The combiner *)

Lemma or_default_nonneg (field : option Q) :
  Spec.field_nonneg field -> 0 <= MixtureOfExperts.or_default field 0.
Proof. destruct field; simpl; intros; lra. Qed.

Lemma weighted_sums_nonneg (self : MixtureOfExperts.Model)
      (predictions : Dict.t MixtureOfExperts.PredDict) :
  Spec.weights_nonneg self -> Spec.probabilities_nonneg predictions ->
  Spec.nonneg3 (MixtureOfExperts.weighted_sums self predictions).
Proof.
  intros Hw Hp. unfold MixtureOfExperts.weighted_sums, Dict.items.
  apply (fold_left_invariant Spec.nonneg3); [simpl; lra|].
  intros [[h d] a] [name w] Hin (H1 & H2 & H3).
  specialize (Hw name w Hin).
  destruct (Dict.get predictions name) as [pred|] eqn:E; [|simpl; auto].
  destruct (Hp name pred E) as (P1 & P2 & P3).
  apply or_default_nonneg in P1, P2, P3.
  simpl; repeat split.
  - pose proof (Qmult_le_0_compat _ _ Hw P1). lra.
  - pose proof (Qmult_le_0_compat _ _ Hw P2). lra.
  - pose proof (Qmult_le_0_compat _ _ Hw P3). lra.
Qed.

Lemma moe_predict_distribution (self : MixtureOfExperts.Model)
      (predictions : Dict.t MixtureOfExperts.PredDict) :
  Spec.weights_nonneg self -> Spec.probabilities_nonneg predictions ->
  0 < Spec.total (MixtureOfExperts.weighted_sums self predictions) ->
  Spec.is_distribution
    (MixtureOfExperts.outcome (MixtureOfExperts.predict self predictions)).
Proof.
  intros Hw Hp Htot.
  pose proof (weighted_sums_nonneg self predictions Hw Hp) as Hnn.
  unfold MixtureOfExperts.predict.
  pose proof (normalized_outcome_distribution
                (MixtureOfExperts.weighted_sums self predictions)
                (MixtureOfExperts._combine_scores predictions) Hnn Htot) as H.
  destruct (MixtureOfExperts.weighted_sums self predictions) as [[h d] a].
  destruct (Py.normalize h d a) as [[h' d'] a']. exact H.
Qed.

(** ** The Hawkes model *)

Lemma hawkes_probabilities_distribution (self : Hawkes.Model) (match_length : Q)
      (nh na : nat) (s : string) :
  0 <= Hawkes.lambda0_home self -> 0 <= Hawkes.lambda0_away self ->
  0 <= match_length ->
  let '(h, d, a) := Hawkes.probabilities self match_length nh na in
  Spec.is_distribution (mkOutcome h d a s).
Proof.
  intros Hh Ha Hm. unfold Hawkes.probabilities.
  set (hi := Hawkes.lambda0_home self * match_length).
  set (ai := Hawkes.lambda0_away self * match_length).
  assert (Hhi : 0 <= hi) by (apply Qmult_le_0_compat; assumption).
  assert (Hai : 0 <= ai) by (apply Qmult_le_0_compat; assumption).
  assert (Hpair :
    exists hp ap,
      (if (0 <? nh + na)%nat
       then (if Py.Qltb 0 (hi + ai) then hi / (hi + ai) else 0.45,
             if Py.Qltb 0 (hi + ai) then ai / (hi + ai) else 0.45)
       else (0.45, 0.45)) = (hp, ap) /\ 0 <= hp /\ 0 <= ap).
  { destruct (0 <? nh + na)%nat.
    - destruct (Qltb_spec 0 (hi + ai)) as [Hpos|Hle].
      + eexists _, _. split; [reflexivity|].
        assert (0 < / (hi + ai)) by now apply Qinv_lt_0_compat.
        unfold Qdiv. split; apply Qmult_le_0_compat; lra.
      + eexists _, _. split; [reflexivity|]. split; lra.
    - eexists _, _. split; [reflexivity|]. split; lra. }
  destruct Hpair as (hp & ap & -> & Hhp & Hap).
  pose proof (py_max_ge_l 0 (1 - hp - ap)) as Hd0.
  pose proof (py_max_ge_r 0 (1 - hp - ap)) as Hd1.
  apply (normalized_outcome_distribution (hp, Py.max 0 (1 - hp - ap), ap) s).
  - simpl. repeat split; assumption.
  - simpl. lra.
Qed.

(** [_simulate_goals] returns one entry per simulated match. *)
Lemma simulate_runs_length (draws : nat -> Q) (np_log : Q -> Q) (fuel : nat)
      (self : Hawkes.Model) (base match_length : Q) (simulations : nat) :
  forall (counts : list nat) (s : nat) (result : list nat) (s' : nat),
    Hawkes.simulate_runs draws np_log fuel self base match_length
                         simulations counts s = Some (result, s') ->
    length result = (length counts + simulations)%nat.
Proof.
  induction simulations as [|n IH]; intros counts s result s' H; simpl in H.
  - unfold Hawkes.ret in H. inversion H; subst. lia.
  - unfold Hawkes.bind in H.
    destruct (Hawkes.simulate_match draws np_log fuel self base match_length
                                    0 base [] s) as [[goals s1]|]; [|discriminate].
    apply IH in H. rewrite H, length_app. simpl. lia.
Qed.

(** What [predict] returns whenever both simulations end. *)
Lemma hawkes_predict_result (draws : nat -> Q) (np_log : Q -> Q) (fuel : nat)
      (self : Hawkes.Model) (features : Dict.t Q) (match_length : Q)
      (s : nat) (r : Hawkes.Prediction) (s' : nat) :
  Hawkes.predict draws np_log fuel self features match_length s = Some (r, s') ->
  Hawkes.home_goals r = 100%nat /\ Hawkes.away_goals r = 100%nat /\
  predicted_score (Hawkes.outcome r) = "100-100"%string /\
  (let '(h, d, a) := Hawkes.probabilities self match_length 100 100 in
   home_probability (Hawkes.outcome r) = h /\
   draw_probability (Hawkes.outcome r) = d /\
   away_probability (Hawkes.outcome r) = a).
Proof.
  unfold Hawkes.predict, Hawkes.bind, Hawkes._simulate_goals. intros H.
  destruct (Hawkes.simulate_runs draws np_log fuel self
              (Hawkes.lambda0_home self) match_length 100 [] s)
    as [[hs s1]|] eqn:Eh; [|discriminate].
  destruct (Hawkes.simulate_runs draws np_log fuel self
              (Hawkes.lambda0_away self) match_length 100 [] s1)
    as [[aws s2]|] eqn:Ea; [|discriminate].
  apply simulate_runs_length in Eh, Ea. simpl in Eh, Ea.
  rewrite Eh, Ea in H.
  destruct (Hawkes.probabilities self match_length 100 100) as [[h d] a].
  unfold Hawkes.ret in H. inversion H; subst; clear H. simpl.
  repeat split; reflexivity.
Qed.

(** With a zero base intensity a simulated match ends at once, with no
    goal, provided the loop may run at all. *)
Lemma simulate_match_zero_intensity (draws : nat -> Q) (np_log : Q -> Q)
      (n : nat) (self : Hawkes.Model) (base match_length t intensity : Q)
      (goals : list Q) (s : nat) :
  intensity == 0 -> (0 < n)%nat ->
  exists s', Hawkes.simulate_match draws np_log n self base match_length
                                   t intensity goals s = Some (goals, s').
Proof.
  intros Hi Hn. destruct n as [|n]; [lia|]. simpl.
  destruct (Py.Qltb t match_length); simpl.
  - unfold Hawkes.bind, Hawkes.uniform.
    apply Qeq_bool_iff in Hi. rewrite Hi. eexists. reflexivity.
  - eexists. reflexivity.
Qed.

Lemma simulate_runs_zero_intensity (draws : nat -> Q) (np_log : Q -> Q)
      (fuel : nat) (self : Hawkes.Model) (base match_length : Q)
      (simulations : nat) :
  base == 0 -> (0 < fuel)%nat ->
  forall (counts : list nat) (s : nat),
  exists result s',
    Hawkes.simulate_runs draws np_log fuel self base match_length
                         simulations counts s = Some (result, s').
Proof.
  intros Hb Hf. induction simulations as [|n IH]; intros counts s; simpl.
  - eexists _, _. reflexivity.
  - unfold Hawkes.bind.
    destruct (simulate_match_zero_intensity draws np_log fuel self base
                match_length 0 base [] s Hb Hf) as [s1 ->].
    apply IH.
Qed.

Lemma hawkes_predict_zero_intensity_returns (draws : nat -> Q) (np_log : Q -> Q)
      (fuel : nat) (self : Hawkes.Model) (features : Dict.t Q)
      (match_length : Q) (s : nat) :
  Hawkes.lambda0_home self == 0 -> Hawkes.lambda0_away self == 0 ->
  (0 < fuel)%nat ->
  exists r s',
    Hawkes.predict draws np_log fuel self features match_length s = Some (r, s').
Proof.
  intros Hh Ha Hf. unfold Hawkes.predict, Hawkes.bind, Hawkes._simulate_goals.
  destruct (simulate_runs_zero_intensity draws np_log fuel self
              (Hawkes.lambda0_home self) match_length 100 Hh Hf [] s)
    as (hs & s1 & ->).
  destruct (simulate_runs_zero_intensity draws np_log fuel self
              (Hawkes.lambda0_away self) match_length 100 Ha Hf [] s1)
    as (aws & s2 & ->).
  destruct (Hawkes.probabilities self match_length (length hs) (length aws))
    as [[h d] a].
  eexists _, _. reflexivity.
Qed.

(** The fallback triple when the total intensity is zero. *)
Lemma hawkes_probabilities_zero_intensity (self : Hawkes.Model)
      (match_length : Q) (nh na : nat) :
  Hawkes.lambda0_home self == 0 -> Hawkes.lambda0_away self == 0 ->
  let '(h, d, a) := Hawkes.probabilities self match_length nh na in
  h == 0.45 /\ d == 0.1 /\ a == 0.45.
Proof.
  intros Hh Ha. unfold Hawkes.probabilities.
  assert (Ht : Hawkes.lambda0_home self * match_length
               + Hawkes.lambda0_away self * match_length == 0)
    by (rewrite Hh, Ha; ring).
  assert (E : Py.Qltb 0 (Hawkes.lambda0_home self * match_length
                         + Hawkes.lambda0_away self * match_length) = false)
    by (apply Qltb_false; lra).
  rewrite E.
  assert (Epair : (if (0 <? nh + na)%nat then (0.45, 0.45) else (0.45, 0.45))
                  = (0.45, 0.45)) by (destruct (0 <? nh + na)%nat; reflexivity).
  rewrite Epair. vm_compute. repeat split; reflexivity.
Qed.

(** ** The form model *)

Lemma state_from_form_cases (form : Q) :
  HMM._get_state_from_form form = 0%nat \/
  HMM._get_state_from_form form = 1%nat \/
  HMM._get_state_from_form form = 2%nat.
Proof.
  unfold HMM._get_state_from_form.
  destruct (Py.Qltb 0.65 form); [auto|].
  destruct (Py.Qltb 0.35 form); auto.
Qed.

(** The residual of the source's two products is never negative:
    [1 - x(1-y) - y(1-x) = xy + (1-x)(1-y)]. *)
Lemma exchanged_residual_nonneg (x y : Q) :
  0 <= x <= 1 -> 0 <= y <= 1 -> 0 <= 1 - x * (1 - y) - y * (1 - x).
Proof.
  intros [Hx0 Hx1] [Hy0 Hy1].
  assert (E : 1 - x * (1 - y) - y * (1 - x) == x * y + (1 - x) * (1 - y)) by ring.
  rewrite E.
  pose proof (Qmult_le_0_compat x y Hx0 Hy0).
  assert (Hx : 0 <= 1 - x) by lra.
  assert (Hy : 0 <= 1 - y) by lra.
  pose proof (Qmult_le_0_compat _ _ Hx Hy). lra.
Qed.

(** Case analysis on the two form states [HMM.predict] derives from the
    feature map. *)
Ltac form_state_cases features :=
  unfold HMM.predict;
  set (hf := if Dict.truthy features
             then Dict.get_or features "home_form" 0.5 else 0.5);
  set (af := if Dict.truthy features
             then Dict.get_or features "away_form" 0.5 else 0.5);
  destruct (state_from_form_cases hf) as [-> | [-> | ->]];
  destruct (state_from_form_cases af) as [-> | [-> | ->]].

Lemma hmm_predict_states (self : HMM.Model) (features : Dict.t Q) :
  let p := HMM.predict self features in
  (HMM.home_state p < 3)%nat /\ (HMM.away_state p < 3)%nat.
Proof.
  form_state_cases features; vm_compute; lia.
Qed.

Lemma hmm_predict_distribution (self : HMM.Model) (features : Dict.t Q) :
  Spec.is_distribution (HMM.outcome (HMM.predict self features)).
Proof.
  form_state_cases features; vm_compute; repeat split; discriminate.
Qed.

(** ** The negative-binomial fit *)

Lemma nbinom_fit_side (np_mean np_var : list Q -> Q) (mu alpha : Q)
      (goals : list Q) :
  ((1 < length goals)%nat ->
   NegativeBinomial.fit_side np_mean np_var mu alpha goals
   = (Py.max (np_mean goals) 0.1,
      Spec.dispersion (np_mean goals) (np_var goals))) /\
  ((length goals <= 1)%nat ->
   NegativeBinomial.fit_side np_mean np_var mu alpha goals = (mu, alpha)).
Proof.
  unfold NegativeBinomial.fit_side, Spec.dispersion.
  split; intros H.
  - apply Nat.ltb_lt in H. rewrite H. reflexivity.
  - apply Nat.ltb_ge in H. rewrite H. reflexivity.
Qed.

Lemma nbinom_fit_alphas (np_mean np_var : list Q -> Q)
      (self : NegativeBinomial.Model)
      (home_goals away_goals : list Q) (features : Dict.t Q) :
  NegativeBinomial.home_alpha
    (NegativeBinomial.fit np_mean np_var self home_goals away_goals features)
  = snd (NegativeBinomial.fit_side np_mean np_var (NegativeBinomial.home_mu self)
           (NegativeBinomial.home_alpha self) home_goals) /\
  NegativeBinomial.away_alpha
    (NegativeBinomial.fit np_mean np_var self home_goals away_goals features)
  = snd (NegativeBinomial.fit_side np_mean np_var (NegativeBinomial.away_mu self)
           (NegativeBinomial.away_alpha self) away_goals).
Proof.
  unfold NegativeBinomial.fit.
  destruct (NegativeBinomial.fit_side _ _ _ _ home_goals) as [hmu halpha].
  destruct (NegativeBinomial.fit_side _ _ _ _ away_goals) as [amu aalpha].
  destruct (Dict.truthy features); simpl; split; reflexivity.
Qed.

(** ** Decimal strings: printing, parsing and splitting *)

Lemma to_digits_O (n : nat) (acc : string) :
  PyStr.to_digits 0 n acc = String (PyStr.digit_char n) acc.
Proof. reflexivity. Qed.

Lemma to_digits_S (fuel n : nat) (acc : string) :
  PyStr.to_digits (S fuel) n acc
  = if (n / 10 =? 0)%nat then String (PyStr.digit_char n) acc
    else PyStr.to_digits fuel (n / 10) (String (PyStr.digit_char n) acc).
Proof. reflexivity. Qed.

Lemma all_digits_cons (c : ascii) (s : string) :
  PyStr.all_digits (String c s) = PyStr.is_digit c && PyStr.all_digits s.
Proof. reflexivity. Qed.

Lemma horner_cons (acc : Z) (c : ascii) (s : string) :
  PyStr.horner acc (String c s)
  = PyStr.horner (10 * acc + match PyStr.digit_val c with
                             | Some d => d
                             | None => 0
                             end)%Z s.
Proof. reflexivity. Qed.

Lemma digit_val_digit_char (n : nat) :
  PyStr.digit_val (PyStr.digit_char n) = Some (Z.of_nat (n mod 10)).
Proof.
  unfold PyStr.digit_char.
  assert (H : (n mod 10 < 10)%nat) by (apply Nat.mod_upper_bound; lia).
  set (k := (n mod 10)%nat) in *. clearbody k.
  do 10 (destruct k as [|k]; [reflexivity|]). lia.
Qed.

Lemma is_digit_digit_char (n : nat) : PyStr.is_digit (PyStr.digit_char n) = true.
Proof. unfold PyStr.is_digit. now rewrite digit_val_digit_char. Qed.

Lemma string_app_assoc (s1 s2 s3 : string) :
  ((s1 ++ s2) ++ s3)%string = (s1 ++ (s2 ++ s3))%string.
Proof.
  induction s1 as [|c s1 IH]; cbn [append]; [reflexivity|]. now rewrite IH.
Qed.

Lemma append_empty_r (s : string) : (s ++ "")%string = s.
Proof.
  induction s as [|c s IH]; cbn [append]; [reflexivity|]. now rewrite IH.
Qed.

Lemma to_digits_app (fuel : nat) :
  forall (n : nat) (acc : string),
    PyStr.to_digits fuel n acc = (PyStr.to_digits fuel n "" ++ acc)%string.
Proof.
  induction fuel as [|fuel IH]; intros n acc.
  - reflexivity.
  - rewrite !to_digits_S. destruct (n / 10 =? 0)%nat; [reflexivity|].
    rewrite IH. rewrite (IH _ (String _ "")).
    rewrite string_app_assoc. reflexivity.
Qed.

Lemma all_digits_to_digits (fuel : nat) :
  forall (n : nat) (acc : string),
    PyStr.all_digits acc = true ->
    PyStr.all_digits (PyStr.to_digits fuel n acc) = true.
Proof.
  induction fuel as [|fuel IH]; intros n acc Hacc.
  - rewrite to_digits_O, all_digits_cons, is_digit_digit_char. exact Hacc.
  - rewrite to_digits_S. destruct (n / 10 =? 0)%nat.
    + rewrite all_digits_cons, is_digit_digit_char. exact Hacc.
    + apply IH. rewrite all_digits_cons, is_digit_digit_char. exact Hacc.
Qed.

Lemma all_digits_str_of_nat (n : nat) :
  PyStr.all_digits (PyStr.str_of_nat n) = true.
Proof. apply all_digits_to_digits. reflexivity. Qed.

Lemma to_digits_nonempty (fuel : nat) :
  forall (n : nat) (acc : string),
    exists c rest, PyStr.to_digits fuel n acc = String c rest.
Proof.
  induction fuel as [|fuel IH]; intros n acc.
  - rewrite to_digits_O. eexists _, _. reflexivity.
  - rewrite to_digits_S. destruct (n / 10 =? 0)%nat.
    + eexists _, _. reflexivity.
    + apply IH.
Qed.

Lemma str_of_nat_nonempty (n : nat) :
  exists c rest, PyStr.str_of_nat n = String c rest.
Proof. apply to_digits_nonempty. Qed.

Lemma horner_app (s s' : string) :
  forall acc, PyStr.horner acc (s ++ s') = PyStr.horner (PyStr.horner acc s) s'.
Proof.
  induction s as [|c s IH]; intros acc; cbn [append]; [reflexivity|].
  rewrite !horner_cons. apply IH.
Qed.

Lemma horner_to_digits (fuel : nat) :
  forall n, (n <= fuel)%nat ->
    PyStr.horner 0 (PyStr.to_digits fuel n "") = Z.of_nat n.
Proof.
  induction fuel as [|fuel IH]; intros n Hn.
  - rewrite to_digits_O, horner_cons, digit_val_digit_char.
    assert (n = 0%nat) by lia. subst. reflexivity.
  - pose proof (Nat.div_mod_eq n 10) as Hdm.
    pose proof (Nat.mod_upper_bound n 10 ltac:(lia)) as Hm.
    rewrite to_digits_S.
    destruct (n / 10 =? 0)%nat eqn:E.
    + apply Nat.eqb_eq in E.
      rewrite horner_cons, digit_val_digit_char. cbn [PyStr.horner]. lia.
    + apply Nat.eqb_neq in E.
      rewrite to_digits_app, horner_app, IH by lia.
      rewrite horner_cons, digit_val_digit_char. cbn [PyStr.horner]. lia.
Qed.

Lemma horner_str_of_nat (n : nat) :
  PyStr.horner 0 (PyStr.str_of_nat n) = Z.of_nat n.
Proof. apply horner_to_digits. lia. Qed.

Lemma int_digits_all_digits (s : string) :
  forall acc, PyStr.all_digits s = true ->
    PyStr.int_digits s acc true = Some (PyStr.horner acc s).
Proof.
  induction s as [|c s IH]; intros acc H; [reflexivity|].
  rewrite all_digits_cons in H. apply andb_prop in H. destruct H as [Hc Hs].
  rewrite horner_cons. cbn [PyStr.int_digits].
  unfold PyStr.is_digit in Hc.
  destruct (PyStr.digit_val c) as [d|]; [|discriminate].
  now apply IH.
Qed.

Lemma digit_bounds (c : ascii) :
  PyStr.is_digit c = true -> (48 <= nat_of_ascii c <= 57)%nat.
Proof.
  unfold PyStr.is_digit, PyStr.digit_val.
  destruct ((48 <=? nat_of_ascii c)%nat && (nat_of_ascii c <=? 57)%nat) eqn:E;
    [|discriminate].
  intros _. apply andb_prop in E. destruct E as [E1 E2].
  apply Nat.leb_le in E1, E2. lia.
Qed.

Lemma digit_not_space (c : ascii) :
  PyStr.is_digit c = true -> PyStr.is_space c = false.
Proof.
  intros H. apply digit_bounds in H. unfold PyStr.is_space.
  assert (E1 : (nat_of_ascii c <=? 13)%nat = false) by (apply Nat.leb_gt; lia).
  assert (E2 : (nat_of_ascii c <=? 32)%nat = false) by (apply Nat.leb_gt; lia).
  rewrite E1, E2, !andb_false_r. reflexivity.
Qed.

Lemma digit_not_char (c x : ascii) :
  PyStr.is_digit c = true -> (nat_of_ascii x < 48)%nat -> Ascii.eqb c x = false.
Proof.
  intros H Hx. apply digit_bounds in H.
  destruct (Ascii.eqb c x) eqn:E; [|reflexivity].
  apply Ascii.eqb_eq in E. subst. lia.
Qed.

Lemma lstrip_all_digits (s : string) :
  PyStr.all_digits s = true -> PyStr.lstrip s = s.
Proof.
  destruct s as [|c s]; [reflexivity|].
  rewrite all_digits_cons. intros H. apply andb_prop in H. destruct H as [Hc _].
  cbn [PyStr.lstrip]. now rewrite (digit_not_space c Hc).
Qed.

Lemma rev_onto_rev_onto (s : string) :
  forall acc acc',
    PyStr.rev_onto (PyStr.rev_onto s acc) acc'
    = PyStr.rev_onto acc (s ++ acc')%string.
Proof.
  induction s as [|c s IH]; intros acc acc'; cbn [PyStr.rev_onto append];
    [reflexivity|].
  rewrite IH. reflexivity.
Qed.

Lemma all_digits_rev_onto (s : string) :
  forall acc, PyStr.all_digits s = true -> PyStr.all_digits acc = true ->
    PyStr.all_digits (PyStr.rev_onto s acc) = true.
Proof.
  induction s as [|c s IH]; intros acc Hs Hacc; cbn [PyStr.rev_onto];
    [assumption|].
  rewrite all_digits_cons in Hs. apply andb_prop in Hs. destruct Hs as [Hc Hs].
  apply IH; [assumption|]. rewrite all_digits_cons, Hc. exact Hacc.
Qed.

Lemma strip_all_digits (s : string) :
  PyStr.all_digits s = true -> PyStr.strip s = s.
Proof.
  intros H. unfold PyStr.strip.
  rewrite (lstrip_all_digits s H).
  rewrite lstrip_all_digits by (apply all_digits_rev_onto; [assumption|reflexivity]).
  rewrite rev_onto_rev_onto. cbn [PyStr.rev_onto]. apply append_empty_r.
Qed.

(** A string that starts with a digit has no sign to take off. *)
Lemma int_unsigned (c : ascii) (rest : string) :
  PyStr.is_digit c = true ->
  match String c rest with
  | String "+" r => PyStr.int_digits r 0 false
  | String "-" r => option_map Z.opp (PyStr.int_digits r 0 false)
  | body => PyStr.int_digits body 0 false
  end = PyStr.int_digits (String c rest) 0 false.
Proof.
  intros Hc.
  destruct c as [[] [] [] [] [] [] [] []]; try reflexivity;
    vm_compute in Hc; discriminate.
Qed.

(** Parsing what was printed gives the number back. *)
Lemma int_str_of_nat (n : nat) :
  PyStr.int (PyStr.str_of_nat n) = Some (Z.of_nat n).
Proof.
  pose proof (all_digits_str_of_nat n) as Hall.
  pose proof (horner_str_of_nat n) as Hval.
  unfold PyStr.int. rewrite (strip_all_digits _ Hall).
  destruct (str_of_nat_nonempty n) as (c & rest & E).
  rewrite E in *. rewrite all_digits_cons in Hall. apply andb_prop in Hall.
  destruct Hall as [Hc Hrest].
  rewrite (int_unsigned c rest Hc).
  rewrite horner_cons in Hval. cbn [PyStr.int_digits].
  unfold PyStr.is_digit in Hc.
  destruct (PyStr.digit_val c) as [d|]; [|discriminate].
  rewrite int_digits_all_digits by assumption. now rewrite Hval.
Qed.

Lemma dash_below_digits : (nat_of_ascii "-" < 48)%nat.
Proof. apply Nat.ltb_lt. reflexivity. Qed.

Lemma split_all_digits (s : string) :
  PyStr.all_digits s = true -> PyStr.split "-" s = [s].
Proof.
  induction s as [|c s IH]; [reflexivity|].
  rewrite all_digits_cons. intros H. apply andb_prop in H. destruct H as [Hc Hs].
  cbn [PyStr.split].
  rewrite (digit_not_char c "-" Hc dash_below_digits).
  now rewrite (IH Hs).
Qed.

Lemma str_of_Z_of_nat (n : nat) : PyStr.str_of_Z (Z.of_nat n) = PyStr.str_of_nat n.
Proof.
  unfold PyStr.str_of_Z.
  assert (E : (Z.of_nat n <? 0)%Z = false) by (apply Z.ltb_ge; lia).
  rewrite E, Nat2Z.id. reflexivity.
Qed.

Lemma split_score (h a : string) :
  PyStr.all_digits h = true -> PyStr.all_digits a = true ->
  PyStr.split "-" (h ++ String "-" a) = [h; a].
Proof.
  intros Hh Ha. induction h as [|c h IH].
  - cbn [append PyStr.split].
    change (Ascii.eqb "-" "-") with true. cbn iota.
    now rewrite (split_all_digits a Ha).
  - rewrite all_digits_cons in Hh. apply andb_prop in Hh. destruct Hh as [Hc Hh].
    cbn [append PyStr.split].
    rewrite (digit_not_char c "-" Hc dash_below_digits).
    now rewrite (IH Hh).
Qed.

Lemma format_score_of_nat (h a : nat) :
  PyStr.format_score (Z.of_nat h) (Z.of_nat a)
  = (PyStr.str_of_nat h ++ String "-" (PyStr.str_of_nat a))%string.
Proof.
  unfold PyStr.format_score. rewrite !str_of_Z_of_nat. reflexivity.
Qed.


(** ** Combining four identical predictions *)

Lemma round_of_integer (x : Q) (z : Z) : x == inject_Z z -> Py.round x = z.
Proof.
  intros E. unfold Py.round.
  assert (Hf : Qfloor x = z) by (rewrite (Qfloor_comp _ _ E); apply Qfloor_Z).
  rewrite Hf.
  assert (Hr : Py.Qltb (x - inject_Z z) (1 # 2) = true) by (apply Qltb_true; lra).
  now rewrite Hr.
Qed.

Lemma mean_of_four (z : Z) :
  Py.mean (map inject_Z [z; z; z; z]) == inject_Z z.
Proof.
  unfold Py.mean, Py.sum, Py.len. cbn [map fold_left length].
  change (inject_Z (Z.of_nat 4)) with 4. field.
Qed.

Lemma collect_score_of_nat (scores : list Z * list Z)
      (pred : MixtureOfExperts.PredDict) (H A : nat) :
  MixtureOfExperts.get_predicted_score pred
  = Some (PyStr.format_score (Z.of_nat H) (Z.of_nat A)) ->
  MixtureOfExperts.collect_score scores pred
  = (fst scores ++ [Z.of_nat H], snd scores ++ [Z.of_nat A]).
Proof.
  intros Hscore. destruct scores as [hs aws].
  unfold MixtureOfExperts.collect_score. rewrite Hscore.
  cbn [MixtureOfExperts.or_default fst snd].
  rewrite format_score_of_nat.
  rewrite (split_score _ _ (all_digits_str_of_nat H) (all_digits_str_of_nat A)).
  now rewrite !int_str_of_nat.
Qed.

Lemma combine_scores_of_four (predictions : Dict.t MixtureOfExperts.PredDict)
      (pred : MixtureOfExperts.PredDict) (H A : nat) :
  Dict.values predictions = [pred; pred; pred; pred] ->
  MixtureOfExperts.get_predicted_score pred
  = Some (PyStr.format_score (Z.of_nat H) (Z.of_nat A)) ->
  MixtureOfExperts._combine_scores predictions
  = PyStr.format_score (Z.of_nat H) (Z.of_nat A).
Proof.
  intros Hvals Hscore.
  unfold MixtureOfExperts._combine_scores, MixtureOfExperts.parsed_scores.
  rewrite Hvals. cbn [fold_left].
  rewrite !(collect_score_of_nat _ pred H A Hscore). cbn [fst snd app].
  rewrite (round_of_integer _ _ (mean_of_four (Z.of_nat H))).
  rewrite (round_of_integer _ _ (mean_of_four (Z.of_nat A))).
  reflexivity.
Qed.

Lemma weighted_sums_of_four (self : MixtureOfExperts.Model)
      (predictions : Dict.t MixtureOfExperts.PredDict)
      (pred : MixtureOfExperts.PredDict) (h d a : Q) :
  MixtureOfExperts.weights self = MixtureOfExperts.weights MixtureOfExperts.init ->
  (forall name, In name Spec.model_names -> Dict.get predictions name = Some pred) ->
  MixtureOfExperts.get_home_probability pred = Some h ->
  MixtureOfExperts.get_draw_probability pred = Some d ->
  MixtureOfExperts.get_away_probability pred = Some a ->
  let '(wh, wd, wa) := MixtureOfExperts.weighted_sums self predictions in
  wh == h /\ wd == d /\ wa == a.
Proof.
  intros Hw Hget Hh Hd Ha.
  unfold MixtureOfExperts.weighted_sums. rewrite Hw.
  unfold MixtureOfExperts.init, Dict.items.
  cbn [MixtureOfExperts.weights fold_left].
  rewrite !Hget by (unfold Spec.model_names; simpl; tauto).
  rewrite Hh, Hd, Ha. cbn [MixtureOfExperts.or_default].
  repeat split; ring.
Qed.

(** ** The backtester *)

Lemma Qle_bool_spec (x y : Q) : BoolSpec (x <= y) (y < x) (Qle_bool x y).
Proof.
  destruct (Qle_bool x y) eqn:E; constructor.
  - now apply Qle_bool_iff.
  - apply Qnot_le_lt. intro H. apply Qle_bool_iff in H. congruence.
Qed.

Lemma count_loop_is_filter {A : Type} (f : A -> bool) (rows : list A) :
  forall c,
    fold_left (fun correct row => if f row then (correct + 1)%nat else correct) rows c
    = (c + length (filter f rows))%nat.
Proof.
  induction rows as [|row rows IH]; intros c; simpl; [lia|].
  rewrite IH. destruct (f row); simpl; lia.
Qed.

Lemma actual_result_label (row : Backtest.Row) :
  Backtest.actual_result row = Spec.label (Spec.actual_bucket row).
Proof.
  unfold Backtest.actual_result, Spec.actual_bucket.
  destruct (Z.ltb_spec (Backtest.away_score row) (Backtest.home_score row)) as [H|H].
  - apply Z.lt_gt in H. rewrite H. reflexivity.
  - destruct (Z.eqb_spec (Backtest.home_score row) (Backtest.away_score row)) as [E|E].
    + rewrite E, Z.compare_refl. reflexivity.
    + assert (Hlt : (Backtest.home_score row < Backtest.away_score row)%Z) by lia.
      rewrite Hlt. reflexivity.
Qed.

(** Python's [max] over the keys picks the argmax with ties resolved in
    key order. *)
Lemma predicted_result_label (row : Backtest.Row) :
  Backtest.predicted_result row = Spec.label (Spec.argmax_bucket row).
Proof.
  unfold Backtest.predicted_result, Spec.argmax_bucket, Backtest.max_by_key.
  cbn.
  destruct (Qltb_spec (Backtest.home_prob row) (Backtest.draw_prob row)) as [H1|H1];
    cbn;
    [ destruct (Qltb_spec (Backtest.draw_prob row) (Backtest.away_prob row)) as [H2|H2]
    | destruct (Qltb_spec (Backtest.home_prob row) (Backtest.away_prob row)) as [H2|H2] ];
    destruct (Qle_bool_spec (Backtest.draw_prob row) (Backtest.home_prob row));
    destruct (Qle_bool_spec (Backtest.away_prob row) (Backtest.home_prob row));
    destruct (Qle_bool_spec (Backtest.home_prob row) (Backtest.draw_prob row));
    destruct (Qle_bool_spec (Backtest.away_prob row) (Backtest.draw_prob row));
    cbn; try reflexivity; exfalso; lra.
Qed.

Lemma label_eqb (a b : Spec.Bucket) :
  String.eqb (Spec.label a) (Spec.label b) = Spec.bucket_eqb a b.
Proof. destruct a, b; reflexivity. Qed.

Lemma accuracy_counts_hits (rows : list Backtest.Row) :
  rows <> [] ->
  Backtest._calculate_accuracy rows
  = inject_Z (Z.of_nat (length (Spec.hits rows)))
    / inject_Z (Z.of_nat (length rows)).
Proof.
  intros Hne. unfold Backtest._calculate_accuracy.
  destruct rows as [|row rows]; [congruence|].
  rewrite count_loop_is_filter. unfold Spec.hits, Py.len.
  rewrite (filter_ext
             (fun row => String.eqb (Backtest.actual_result row)
                                    (Backtest.predicted_result row))
             (fun row => Spec.bucket_eqb (Spec.argmax_bucket row)
                                         (Spec.actual_bucket row))).
  - reflexivity.
  - intros r. rewrite actual_result_label, predicted_result_label, label_eqb.
    destruct (Spec.actual_bucket r), (Spec.argmax_bucket r); reflexivity.
Qed.

Lemma flat_map_nil {A B : Type} (f : A -> list B) (l : list A) :
  (forall x, In x l -> f x = []) -> flat_map f l = [].
Proof.
  induction l as [|x l IH]; intros H; simpl; [reflexivity|].
  rewrite (H x) by (left; reflexivity). apply IH.
  intros y Hy. apply H. right. exact Hy.
Qed.

Lemma select_backtest_empty (db : Backtest.Database) (league_id : Z)
      (start_date end_date model_type : string) :
  (forall p m, In p (Backtest.predictions db) -> In m (Backtest.matches db) ->
               ~ Spec.qualifies league_id start_date end_date model_type p m) ->
  Backtest.select_backtest db league_id start_date end_date model_type = [].
Proof.
  intros Hnone. unfold Backtest.select_backtest.
  apply flat_map_nil. intros p Hp.
  apply flat_map_nil. intros m Hm.
  specialize (Hnone p m Hp Hm).
  destruct (Backtest.m_home_score m) as [hs|] eqn:Eh; [|reflexivity].
  destruct (Backtest.m_away_score m) as [aws|] eqn:Ea; [|reflexivity].
  destruct ((Backtest.p_match_id p =? Backtest.m_id m)%Z
            && String.eqb (Backtest.p_model_type p) model_type
            && (Backtest.m_league_id m =? league_id)%Z
            && Backtest.between (Backtest.m_match_date m) start_date end_date)
    eqn:E; [|reflexivity].
  exfalso. apply Hnone.
  repeat (apply andb_prop in E; destruct E as [E ?]).
  unfold Spec.qualifies. rewrite Eh, Ea.
  repeat split; try discriminate; try assumption.
  - now apply Z.eqb_eq.
  - now apply String.eqb_eq.
  - now apply Z.eqb_eq.
Qed.

(** ** Calibration bins *)

Lemma edges_monotone (edges : list Q) (num : nat) :
  Backtest.is_linspace01 edges num ->
  forall i j, (i <= j)%nat -> (j < num)%nat -> nth i edges 0 <= nth j edges 0.
Proof.
  intros (_ & _ & _ & Hmono) i j Hij. induction Hij as [|j Hij IH]; intros Hj.
  - apply Qle_refl.
  - apply Qle_trans with (nth j edges 0); [apply IH; lia|].
    replace (S j) with (j + 1)%nat by lia. apply Hmono. lia.
Qed.

Lemma edge_in_unit (edges : list Q) (bins i : nat) :
  Backtest.is_linspace01 edges (bins + 1) ->
  (i <= bins)%nat -> (0 < bins)%nat -> 0 <= nth i edges 0 <= 1.
Proof.
  intros Hl Hi Hb.
  pose proof (edges_monotone edges (bins + 1) Hl) as Hmono.
  destruct Hl as (_ & H0 & H1 & _).
  specialize (H1 ltac:(lia)). replace (bins + 1 - 1)%nat with bins in H1 by lia.
  pose proof (Hmono 0%nat i ltac:(lia) ltac:(lia)) as Hlow.
  pose proof (Hmono i bins ltac:(lia) ltac:(lia)) as Hhigh.
  split; lra.
Qed.

Lemma ten_bin_edges_linspace (num : nat) :
  Backtest.is_linspace01 (Sample.ten_bin_edges num) (10 + 1).
Proof.
  split; [reflexivity|]. split; [reflexivity|]. split; [reflexivity|].
  intros i Hi.
  do 10 (destruct i as [|i]; [vm_compute; discriminate|]).
  cbn in Hi. lia.
Qed.

Lemma bin_rows_is_filter (bin_edges : list Q) (rows : list (Q * Z * Z)) (i : nat) :
  Backtest.bin_rows bin_edges rows i = filter (Backtest.in_bin bin_edges i) rows.
Proof.
  unfold Backtest.bin_rows.
  induction rows as [|r rows IH]; cbn [map combine filter]; [reflexivity|].
  destruct (Backtest.in_bin bin_edges i r); cbn [snd map fst]; rewrite IH;
    reflexivity.
Qed.


Lemma bin_rows_member (bin_edges : list Q) (rows : list (Q * Z * Z)) (i : nat)
      (row : Q * Z * Z) :
  In row rows -> Backtest.in_bin bin_edges i row = true ->
  In row (Backtest.bin_rows bin_edges rows i).
Proof.
  unfold Backtest.bin_rows. intros Hin Hbin.
  induction rows as [|r rows IH]; simpl in *; [contradiction|].
  destruct Hin as [-> | Hin].
  - rewrite Hbin. simpl. left. reflexivity.
  - destruct (Backtest.in_bin bin_edges i r); simpl; [right|]; now apply IH.
Qed.

Lemma in_bin_iff (bin_edges : list Q) (i : nat) (row : Q * Z * Z) :
  Backtest.in_bin bin_edges i row = true <->
  nth i bin_edges 0 <= fst (fst row) <= nth (i + 1) bin_edges 0.
Proof.
  unfold Backtest.in_bin. rewrite andb_true_iff, !Qle_bool_iff. tauto.
Qed.

(** ** The feature builder *)

Lemma build_features_strengths (sentiment : string -> Q)
      (home_stats away_stats : option Pipeline.TeamStats)
      (home_name away_name : string) (use_news : bool) :
  let features :=
    Pipeline._build_features sentiment home_stats away_stats
                             home_name away_name use_news in
  let home_gf := Pipeline.stat home_stats Pipeline.goals_for 0%Z in
  let home_ga := Pipeline.stat home_stats Pipeline.goals_against 1%Z in
  let away_gf := Pipeline.stat away_stats Pipeline.goals_for 0%Z in
  let away_ga := Pipeline.stat away_stats Pipeline.goals_against 1%Z in
  Dict.truthy features = true /\
  Dict.get features "home_attack_strength"
  = Some (if (0 <? home_gf)%Z then 1 + inject_Z home_gf / 30 else 1) /\
  Dict.get features "home_defense_strength"
  = Some (if (0 <? home_ga)%Z then 1 - inject_Z home_ga / 30 else 1) /\
  Dict.get features "away_attack_strength"
  = Some (if (0 <? away_gf)%Z then 1 + inject_Z away_gf / 30 else 1) /\
  Dict.get features "away_defense_strength"
  = Some (if (0 <? away_ga)%Z then 1 - inject_Z away_ga / 30 else 1).
Proof.
  unfold Pipeline._build_features.
  destruct use_news; repeat split; reflexivity.
Qed.

Lemma attack_strength_positive (gf : Z) :
  0 < (if (0 <? gf)%Z then 1 + inject_Z gf / 30 else 1).
Proof.
  destruct (Z.ltb_spec 0 gf) as [H|H]; [|lra].
  assert (0 <= inject_Z gf / 30).
  { unfold Qdiv. apply Qmult_le_0_compat; [|apply Qinv_le_0_compat; lra].
    change 0 with (inject_Z 0). rewrite <- Zle_Qle. lia. }
  lra.
Qed.

Lemma defense_strength_value (ga : Z) :
  (0 < ga)%Z ->
  (if (0 <? ga)%Z then 1 - inject_Z ga / 30 else 1) = 1 - inject_Z ga / 30.
Proof. intros H. apply Z.ltb_lt in H. now rewrite H. Qed.

Lemma defense_strength_sign (ga : Z) :
  ((30 <= ga)%Z -> 1 - inject_Z ga / 30 <= 0) /\
  ((30 < ga)%Z -> 1 - inject_Z ga / 30 < 0).
Proof.
  split; intros H.
  - assert (E : inject_Z 30 <= inject_Z ga) by (rewrite <- Zle_Qle; exact H).
    change (inject_Z 30) with 30 in E.
    assert (1 <= inject_Z ga / 30) by (apply Qle_shift_div_l; lra). lra.
  - assert (E : inject_Z 30 < inject_Z ga) by (rewrite <- Zlt_Qlt; exact H).
    change (inject_Z 30) with 30 in E.
    assert (1 < inject_Z ga / 30) by (apply Qlt_shift_div_l; lra). lra.
Qed.

Lemma poisson_base_rate_positive (goals : list Q) (default : Q) :
  0 < default ->
  0 < (if (0 <? length goals)%nat then Py.max (Py.mean goals) 0.1 else default).
Proof.
  intros Hd. destruct (0 <? length goals)%nat; [|assumption].
  pose proof (py_max_ge_r (Py.mean goals) 0.1). lra.
Qed.

(** The rates [Poisson.fit] stores when a feature map is given. *)
Lemma poisson_fit_rates (self : Poisson.Model) (home_goals away_goals : list Q)
      (features : Dict.t Q) :
  Dict.truthy features = true ->
  let fitted := Poisson.fit self home_goals away_goals features in
  Poisson.home_lambda fitted
  = (if (0 <? length home_goals)%nat then Py.max (Py.mean home_goals) 0.1 else 1.5)
    * (Dict.get_or features "home_attack_strength" 1
       * Dict.get_or features "away_defense_strength" 1) /\
  Poisson.away_lambda fitted
  = (if (0 <? length away_goals)%nat then Py.max (Py.mean away_goals) 0.1 else 1.2)
    * (Dict.get_or features "away_attack_strength" 1
       * Dict.get_or features "home_defense_strength" 1).
Proof.
  intros Ht. unfold Poisson.fit. rewrite Ht. simpl. split; reflexivity.
Qed.

Lemma product_negative (base attack defense : Q) :
  0 < base -> 0 < attack -> defense < 0 -> base * (attack * defense) < 0.
Proof.
  intros Hb Ha Hd.
  assert (H1 : 0 < base * attack) by (apply Qmult_lt_0_compat; assumption).
  assert (H2 : 0 < (base * attack) * (- defense))
    by (apply Qmult_lt_0_compat; lra).
  assert (E : base * (attack * defense) == - ((base * attack) * (- defense))) by ring.
  rewrite E. lra.
Qed.

(** ** Termination of the Hawkes simulation *)

Lemma waiting_time_lower_bound (x c intensity cap : Q) :
  0 < c -> c <= x -> 0 < intensity -> intensity <= cap ->
  c / cap <= x / intensity.
Proof.
  intros Hc Hx Hi Hcap.
  assert (Hq : 0 <= x / intensity).
  { unfold Qdiv. apply Qmult_le_0_compat; [lra|].
    apply Qinv_le_0_compat. lra. }
  apply Qle_shift_div_r; [lra|].
  assert (E : x / intensity * intensity == x) by (field; lra).
  assert (Hm : x / intensity * intensity <= x / intensity * cap).
  { rewrite (Qmult_comm _ intensity), (Qmult_comm _ cap).
    apply Qmult_le_compat_r; assumption. }
  lra.
Qed.

Lemma inject_succ (n : nat) :
  inject_Z (Z.of_nat (S n)) == inject_Z (Z.of_nat n) + 1.
Proof. rewrite Nat2Z.inj_succ. unfold Z.succ. rewrite inject_Z_plus. reflexivity. Qed.

(** A simulated match ends within [n] iterations when every waiting time
    is at least [c / (base + alpha)] and [n] such steps cover the match. *)
Lemma simulate_match_returns (draws : nat -> Q) (np_log : Q -> Q)
      (self : Hawkes.Model) (base match_length c : Q) :
  0 < c -> 0 < base -> 0 <= Hawkes.alpha self ->
  (forall k, c <= - np_log (draws k)) ->
  forall (n : nat) (t intensity : Q) (goals : list Q) (s : nat),
    0 < intensity -> intensity <= base + Hawkes.alpha self * 1 ->
    match_length - t
    <= inject_Z (Z.of_nat n) * (c / (base + Hawkes.alpha self * 1)) ->
    exists goals' s',
      Hawkes.simulate_match draws np_log n self base match_length
                            t intensity goals s = Some (goals', s').
Proof.
  intros Hc Hb Ha Hdraw.
  set (cap := base + Hawkes.alpha self * 1).
  assert (Hcap : 0 < cap) by (unfold cap; lra).
  set (step := c / cap).
  assert (Hstep : 0 < step)
    by (unfold step, Qdiv; apply Qmult_lt_0_compat;
        [assumption | now apply Qinv_lt_0_compat]).
  induction n as [|n IH]; intros t intensity goals s Hi Hle Hfuel.
  - cbn [Hawkes.simulate_match].
    destruct (Qltb_spec t match_length) as [Hlt|Hge]; cbn [negb].
    + exfalso. change (inject_Z (Z.of_nat 0)) with 0 in Hfuel. lra.
    + eexists _, _. reflexivity.
  - cbn [Hawkes.simulate_match].
    destruct (Qltb_spec t match_length) as [Hlt|Hge]; cbn [negb];
      [|eexists _, _; reflexivity].
    unfold Hawkes.bind at 1. unfold Hawkes.uniform at 1.
    assert (Hne : Qeq_bool intensity 0 = false).
    { destruct (Qeq_bool intensity 0) eqn:E; [|reflexivity].
      apply Qeq_bool_iff in E. lra. }
    rewrite Hne.
    pose proof (waiting_time_lower_bound (- np_log (draws s)) c intensity cap
                  Hc (Hdraw s) Hi Hle) as Hdt.
    fold step in Hdt.
    rewrite inject_succ in Hfuel.
    assert (Hnext : match_length - (t + - np_log (draws s) / intensity)
                    <= inject_Z (Z.of_nat n) * step) by lra.
    destruct (Py.Qltb (t + - np_log (draws s) / intensity) match_length).
    + unfold Hawkes.bind at 1. unfold Hawkes.uniform at 1.
      destruct (Py.Qltb (draws (S s)) (intensity / (base * 2))).
      * apply IH; [fold cap; lra | fold cap; lra | exact Hnext].
      * apply IH; [exact Hi | exact Hle | exact Hnext].
    + apply IH; [exact Hi | exact Hle | exact Hnext].
Qed.

Lemma simulate_runs_returns (draws : nat -> Q) (np_log : Q -> Q) (fuel : nat)
      (self : Hawkes.Model) (base match_length c : Q) (simulations : nat) :
  0 < c -> 0 < base -> 0 <= Hawkes.alpha self ->
  (forall k, c <= - np_log (draws k)) ->
  match_length
  <= inject_Z (Z.of_nat fuel) * (c / (base + Hawkes.alpha self * 1)) ->
  forall (counts : list nat) (s : nat),
  exists result s',
    Hawkes.simulate_runs draws np_log fuel self base match_length
                         simulations counts s = Some (result, s').
Proof.
  intros Hc Hb Ha Hdraw Hfuel.
  induction simulations as [|n IH]; intros counts s; cbn [Hawkes.simulate_runs].
  - eexists _, _. reflexivity.
  - unfold Hawkes.bind at 1.
    destruct (simulate_match_returns draws np_log self base match_length c
                Hc Hb Ha Hdraw fuel 0 base [] s) as (goals & s1 & ->);
      [lra | lra | lra |].
    apply IH.
Qed.

(** [predict] returns when both base intensities are positive, the
    waiting times are bounded below and the fuel covers the match. *)
Lemma hawkes_predict_returns (draws : nat -> Q) (np_log : Q -> Q) (fuel : nat)
      (self : Hawkes.Model) (features : Dict.t Q) (match_length c : Q) (s : nat) :
  0 < c -> 0 < Hawkes.lambda0_home self -> 0 < Hawkes.lambda0_away self ->
  0 <= Hawkes.alpha self ->
  (forall k, c <= - np_log (draws k)) ->
  match_length
  <= inject_Z (Z.of_nat fuel)
     * (c / (Hawkes.lambda0_home self + Hawkes.alpha self * 1)) ->
  match_length
  <= inject_Z (Z.of_nat fuel)
     * (c / (Hawkes.lambda0_away self + Hawkes.alpha self * 1)) ->
  exists r s',
    Hawkes.predict draws np_log fuel self features match_length s = Some (r, s').
Proof.
  intros Hc Hh Ha Halpha Hdraw Fh Fa.
  unfold Hawkes.predict, Hawkes._simulate_goals.
  unfold Hawkes.bind at 1.
  destruct (simulate_runs_returns draws np_log fuel self
              (Hawkes.lambda0_home self) match_length c 100
              Hc Hh Halpha Hdraw Fh [] s) as (hs & s1 & ->).
  unfold Hawkes.bind at 1.
  destruct (simulate_runs_returns draws np_log fuel self
              (Hawkes.lambda0_away self) match_length c 100
              Hc Ha Halpha Hdraw Fa [] s1) as (aws & s2 & ->).
  destruct (Hawkes.probabilities self match_length (length hs) (length aws))
    as [[h d] a].
  eexists _, _. reflexivity.
Qed.

(** * The properties of the specification *)

(** C1 (fails as stated): on an empty prediction map the combiner
    returns the probabilities 0, 0, 0, which do not sum to 1: the
    normalisation is guarded by [if total > 0] and is skipped. *)
Lemma C1_counterexample_empty_prediction_map :
  ~ Spec.is_distribution
      (MixtureOfExperts.outcome
         (MixtureOfExperts.predict MixtureOfExperts.init [])).
Proof.
  unfold Spec.is_distribution. vm_compute.
  intros (_ & _ & _ & H). apply H. reflexivity.
Qed.

(** C1 (amended): whenever the un-normalised outcome masses are
    non-negative and their total is positive, the three probabilities a
    [predict] returns are >= 0 and sum to 1 within 1e-6.  For the two count
    models that is the case when the mass function is non-negative and the
    total mass over the scorelines 0..9 is positive; for the Hawkes model
    when both base intensities and the match length are non-negative (and
    [predict] does return when the intensities are positive, the waiting
    times are bounded below and the loop is given enough iterations); for
    the form model always; for the combiner when weights and input
    probabilities are non-negative and the weighted total is positive. *)
Theorem C1_probabilities_form_a_distribution_when_total_positive :
  (forall (pmf : nat -> Q -> Q) (self : Poisson.Model) (features : Dict.t Q),
      (forall k l, 0 <= pmf k l) ->
      0 < Spec.total (Poisson.masses pmf self features) ->
      Spec.is_distribution (Poisson.outcome (Poisson.predict pmf self features)))
  /\
  (forall (pmf : nat -> Q -> Q -> Q) (self : NegativeBinomial.Model)
          (features : Dict.t Q),
      (forall k n p, 0 <= pmf k n p) ->
      0 < Spec.total (NegativeBinomial.masses pmf self features) ->
      Spec.is_distribution
        (NegativeBinomial.outcome (NegativeBinomial.predict pmf self features)))
  /\
  (forall (draws : nat -> Q) (np_log : Q -> Q) (fuel : nat) (self : Hawkes.Model)
          (features : Dict.t Q) (match_length : Q) (s : nat)
          (r : Hawkes.Prediction) (s' : nat),
      0 <= Hawkes.lambda0_home self -> 0 <= Hawkes.lambda0_away self ->
      0 <= match_length ->
      Hawkes.predict draws np_log fuel self features match_length s = Some (r, s') ->
      Spec.is_distribution (Hawkes.outcome r))
  /\
  (forall (draws : nat -> Q) (np_log : Q -> Q) (fuel : nat) (self : Hawkes.Model)
          (features : Dict.t Q) (match_length c : Q) (s : nat),
      0 < c -> 0 < Hawkes.lambda0_home self -> 0 < Hawkes.lambda0_away self ->
      0 <= Hawkes.alpha self ->
      (forall k, c <= - np_log (draws k)) ->
      match_length
      <= inject_Z (Z.of_nat fuel)
         * (c / (Hawkes.lambda0_home self + Hawkes.alpha self * 1)) ->
      match_length
      <= inject_Z (Z.of_nat fuel)
         * (c / (Hawkes.lambda0_away self + Hawkes.alpha self * 1)) ->
      exists r s',
        Hawkes.predict draws np_log fuel self features match_length s
        = Some (r, s'))
  /\
  (forall (self : HMM.Model) (features : Dict.t Q),
      Spec.is_distribution (HMM.outcome (HMM.predict self features)))
  /\
  (forall (self : MixtureOfExperts.Model)
          (predictions : Dict.t MixtureOfExperts.PredDict),
      Spec.weights_nonneg self -> Spec.probabilities_nonneg predictions ->
      0 < Spec.total (MixtureOfExperts.weighted_sums self predictions) ->
      Spec.is_distribution
        (MixtureOfExperts.outcome (MixtureOfExperts.predict self predictions))).
Proof.
  split; [exact poisson_predict_distribution|].
  split; [exact nbinom_predict_distribution|].
  split; [|split; [exact hawkes_predict_returns|];
           split; [exact hmm_predict_distribution | exact moe_predict_distribution]].
  intros draws np_log fuel self features match_length s r s' Hh Ha Hm Hrun.
  apply hawkes_predict_result in Hrun.
  destruct Hrun as (_ & _ & _ & Hp).
  pose proof (hawkes_probabilities_distribution self match_length 100 100
                (predicted_score (Hawkes.outcome r)) Hh Ha Hm) as Hd.
  destruct (Hawkes.probabilities self match_length 100 100) as [[h d] a].
  destruct Hp as (E1 & E2 & E3).
  destruct r as [[rh rd ra rs] hg ag]. simpl in *. subst. exact Hd.
Qed.

Lemma default_predictions_nonneg :
  Spec.probabilities_nonneg Sample.default_predictions.
Proof.
  intros name pred. unfold Sample.default_predictions. cbn [Dict.get].
  repeat (match goal with
          | |- context [if ?b then _ else _] => destruct b
          end;
          [ intros E; injection E as <-; cbn; repeat split; discriminate | ]).
  discriminate.
Defined.

Lemma init_weights_nonneg : Spec.weights_nonneg MixtureOfExperts.init.
Proof.
  intros name w. cbn.
  intros [E | [E | [E | [E | []]]]]; injection E as _ <-; discriminate.
Defined.

(** C1, witnessed on the five [predict] functions with their initial
    parameters. *)
Lemma C1_witness :
  Spec.is_distribution
    (Poisson.outcome (Poisson.predict Sample.flat_poisson_pmf Poisson.init [])) /\
  Spec.is_distribution
    (NegativeBinomial.outcome
       (NegativeBinomial.predict Sample.flat_nbinom_pmf NegativeBinomial.init [])) /\
  (exists r s',
      Hawkes.predict Sample.draws Sample.tangent_log 200 Hawkes.init [] 90 0%nat
      = Some (r, s') /\ Spec.is_distribution (Hawkes.outcome r)) /\
  Spec.is_distribution (HMM.outcome (HMM.predict HMM.init [])) /\
  Spec.is_distribution
    (MixtureOfExperts.outcome
       (MixtureOfExperts.predict MixtureOfExperts.init Sample.default_predictions)).
Proof.
  destruct C1_probabilities_form_a_distribution_when_total_positive
    as (HP & HN & HH & HR & HF & HM).
  split; [|split; [|split; [|split]]].
  - apply HP.
    + intros k l. vm_compute. discriminate.
    + vm_compute. reflexivity.
  - apply HN.
    + intros k n p. vm_compute. discriminate.
    + vm_compute. reflexivity.
  - destruct (HR Sample.draws Sample.tangent_log 200%nat Hawkes.init [] 90
                 (1 # 2) 0%nat) as (r & s' & Hrun).
    + reflexivity.
    + reflexivity.
    + reflexivity.
    + vm_compute. discriminate.
    + intros k. unfold Sample.draws, Sample.tangent_log.
      destruct (Nat.even k); vm_compute; discriminate.
    + vm_compute. discriminate.
    + vm_compute. discriminate.
    + exists r, s'. split; [exact Hrun|].
      apply (HH Sample.draws Sample.tangent_log 200%nat Hawkes.init [] 90
                0%nat r s');
        [vm_compute; discriminate | vm_compute; discriminate
         | vm_compute; discriminate | exact Hrun].
  - apply HF.
  - apply HM.
    + exact init_weights_nonneg.
    + exact default_predictions_nonneg.
    + vm_compute. reflexivity.
Defined.

(** C2 (not met by the code): whenever [predict] returns, the
    scoreline is "100-100" and both goal fields are 100: [predict] takes
    [len] of the array [_simulate_goals] returns, which holds one goal
    count per simulated match, so it reports the number of simulations
    and not the goals of one of them. *)
Theorem C2_hawkes_scoreline_is_the_number_of_simulations :
  forall (draws : nat -> Q) (np_log : Q -> Q) (fuel : nat) (self : Hawkes.Model)
         (features : Dict.t Q) (match_length : Q) (s : nat)
         (r : Hawkes.Prediction) (s' : nat),
    Hawkes.predict draws np_log fuel self features match_length s = Some (r, s') ->
    predicted_score (Hawkes.outcome r) = "100-100"%string /\
    Hawkes.home_goals r = 100%nat /\ Hawkes.away_goals r = 100%nat.
Proof.
  intros draws np_log fuel self features match_length s r s' H.
  apply hawkes_predict_result in H. tauto.
Qed.

(** C2, witnessed: with the sample random source a single simulated home
    match has 40 goals, yet the scoreline returned is "100-100". *)
Lemma C2_witness :
  (exists s1,
      Hawkes._simulate_goals Sample.draws Sample.tangent_log 200 Hawkes.init
                             (Hawkes.lambda0_home Hawkes.init) 90 1 0%nat
      = Some ([40%nat], s1)) /\
  (exists r s',
      Hawkes.predict Sample.draws Sample.tangent_log 200 Hawkes.init [] 90 0%nat
      = Some (r, s') /\
      predicted_score (Hawkes.outcome r) = "100-100"%string /\
      Hawkes.home_goals r = 100%nat /\ Hawkes.away_goals r = 100%nat).
Proof.
  split.
  - eexists. vm_compute. reflexivity.
  - eexists _, _. split.
    + vm_compute. reflexivity.
    + eapply (C2_hawkes_scoreline_is_the_number_of_simulations
               Sample.draws Sample.tangent_log 200%nat Hawkes.init [] 90 0%nat).
      vm_compute. reflexivity.
Defined.

(** C3 (fails as stated): with both sides in good form the source gives
    the away side 0.05 * (1 - 0.8) = 0.01, while the symmetric reading
    (away's win emission times 1 - home's loss emission, draw clamped)
    gives 0.5. *)
Lemma C3_counterexample_both_sides_in_good_form :
  let p := HMM.predict HMM.init [("home_form"%string, 0.7); ("away_form"%string, 0.7)] in
  let '(h, d, a) :=
    Spec.form_probabilities_symmetric (HMM.home_state p) (HMM.away_state p) in
  HMM.home_state p = 0%nat /\ HMM.away_state p = 0%nat /\
  away_probability (HMM.outcome p) == 0.01 /\ a == 0.5 /\
  ~ (home_probability (HMM.outcome p) == h /\
     draw_probability (HMM.outcome p) == d /\
     away_probability (HMM.outcome p) == a).
Proof.
  vm_compute. repeat split; try reflexivity.
  intros (H & _). discriminate H.
Qed.

(** C3 (amended): for every feature map, hence every pair of form states,
    home_probability is home's win emission times (1 - away's loss
    emission), away_probability is away's loss emission times (1 - home's
    win emission), the same two numbers with their roles exchanged, and
    draw is the residual, clamped at 0; the three are renormalised. *)
Theorem C3_form_probabilities_exchange_two_emissions :
  forall (self : HMM.Model) (features : Dict.t Q),
    let p := HMM.predict self features in
    let '(h, d, a) :=
      Spec.form_probabilities_exchanged (HMM.home_state p) (HMM.away_state p) in
    home_probability (HMM.outcome p) == h /\
    draw_probability (HMM.outcome p) == d /\
    away_probability (HMM.outcome p) == a.
Proof.
  intros self features.
  form_state_cases features; vm_compute; repeat split; reflexivity.
Qed.

(** C4 (fails as stated): a model fitted on the history [0; 4] has
    dispersion 2; fitting it again on the one-match history [1] leaves the
    dispersion at 2, although the variance 0 does not exceed the mean 1. *)
Lemma C4_counterexample_one_match_history :
  let fit := NegativeBinomial.fit Sample.numpy_mean Sample.numpy_var in
  let previous := fit NegativeBinomial.init [0; 4] [0; 4] [] in
  let fitted := fit previous [1] [1] [] in
  NegativeBinomial.home_alpha fitted == 2 /\
  Spec.dispersion (Sample.numpy_mean [1]) (Sample.numpy_var [1]) == 1 /\
  ~ NegativeBinomial.home_alpha fitted
    == Spec.dispersion (Sample.numpy_mean [1]) (Sample.numpy_var [1]).
Proof.
  vm_compute. repeat split; try reflexivity. intros H. discriminate H.
Qed.

(** C4 (amended): for every Goal History with at least two entries the
    fit sets that side's dispersion to max(mean^2 / (variance - mean), 0.1)
    when the variance exceeds the mean and to 1.0 otherwise, the mean and
    the variance being the two doubles [np.mean] and [np.var] return for
    the history; with fewer than two entries it leaves the dispersion as
    it was. *)
Theorem C4_dispersion_is_fitted_from_two_or_more_goals :
  forall (np_mean np_var : list Q -> Q) (self : NegativeBinomial.Model)
         (home_goals away_goals : list Q) (features : Dict.t Q),
    let fitted :=
      NegativeBinomial.fit np_mean np_var self home_goals away_goals features in
    ((1 < length home_goals)%nat ->
     NegativeBinomial.home_alpha fitted
     = Spec.dispersion (np_mean home_goals) (np_var home_goals)) /\
    ((length home_goals <= 1)%nat ->
     NegativeBinomial.home_alpha fitted = NegativeBinomial.home_alpha self) /\
    ((1 < length away_goals)%nat ->
     NegativeBinomial.away_alpha fitted
     = Spec.dispersion (np_mean away_goals) (np_var away_goals)) /\
    ((length away_goals <= 1)%nat ->
     NegativeBinomial.away_alpha fitted = NegativeBinomial.away_alpha self).
Proof.
  intros np_mean np_var self home_goals away_goals features fitted.
  destruct (nbinom_fit_alphas np_mean np_var self home_goals away_goals features)
    as [Eh Ea].
  fold fitted in Eh, Ea. rewrite Eh, Ea.
  destruct (nbinom_fit_side np_mean np_var (NegativeBinomial.home_mu self)
              (NegativeBinomial.home_alpha self) home_goals) as [H1 H2].
  destruct (nbinom_fit_side np_mean np_var (NegativeBinomial.away_mu self)
              (NegativeBinomial.away_alpha self) away_goals) as [A1 A2].
  repeat split; intros H.
  - now rewrite (H1 H).
  - now rewrite (H2 H).
  - now rewrite (A1 H).
  - now rewrite (A2 H).
Qed.

(** C4, witnessed on a fresh model: an overdispersed home history and a
    one-match away history; and a history whose mean and variance are both
    2/3 in exact arithmetic, where numpy's variance is the larger double
    by 2^-53 and the dispersion is therefore about 4.0e15, not 1. *)
Lemma C4_witness :
  let fit := NegativeBinomial.fit Sample.numpy_mean Sample.numpy_var in
  let fitted := fit NegativeBinomial.init [0; 4; 0; 4] [1] [] in
  let tied := fit NegativeBinomial.init Sample.tied_history [1] [] in
  ((1 < length [0; 4; 0; 4])%nat /\
   NegativeBinomial.home_alpha fitted
   = Spec.dispersion (Sample.numpy_mean [0; 4; 0; 4])
                     (Sample.numpy_var [0; 4; 0; 4]) /\
   NegativeBinomial.home_alpha fitted == 2) /\
  ((length [1] <= 1)%nat /\
   NegativeBinomial.away_alpha fitted
   = NegativeBinomial.away_alpha NegativeBinomial.init) /\
  ((1 < length Sample.tied_history)%nat /\
   NegativeBinomial.home_alpha tied
   = Spec.dispersion (Sample.numpy_mean Sample.tied_history)
                     (Sample.numpy_var Sample.tied_history) /\
   4003199668773773 < NegativeBinomial.home_alpha tied < 4003199668773775).
Proof.
  intros fit fitted tied.
  destruct (C4_dispersion_is_fitted_from_two_or_more_goals
              Sample.numpy_mean Sample.numpy_var
              NegativeBinomial.init [0; 4; 0; 4] [1] []) as (H1 & _ & _ & H4).
  destruct (C4_dispersion_is_fitted_from_two_or_more_goals
              Sample.numpy_mean Sample.numpy_var
              NegativeBinomial.init Sample.tied_history [1] []) as (T1 & _).
  assert (L1 : (1 < length [0; 4; 0; 4])%nat) by (simpl; lia).
  assert (L2 : (length [1] <= 1)%nat) by (simpl; lia).
  assert (L3 : (1 < length Sample.tied_history)%nat) by (simpl; lia).
  split; [|split].
  - split; [exact L1|]. split; [exact (H1 L1)|]. vm_compute. reflexivity.
  - split; [exact L2 | exact (H4 L2)].
  - split; [exact L3|]. split; [exact (T1 L3)|].
    vm_compute. split; reflexivity.
Defined.

(** C5: if both base intensities are 0, [predict] returns (one loop
    iteration per simulated match is enough) and its probabilities are the
    defaults 0.45, 0.10, 0.45, which sum to 1. *)
Theorem C5_hawkes_zero_intensity_defaults :
  forall (draws : nat -> Q) (np_log : Q -> Q) (fuel : nat) (self : Hawkes.Model)
         (features : Dict.t Q) (match_length : Q) (s : nat),
    Hawkes.lambda0_home self == 0 -> Hawkes.lambda0_away self == 0 ->
    (0 < fuel)%nat ->
    exists r s',
      Hawkes.predict draws np_log fuel self features match_length s = Some (r, s') /\
      home_probability (Hawkes.outcome r) == 0.45 /\
      draw_probability (Hawkes.outcome r) == 0.1 /\
      away_probability (Hawkes.outcome r) == 0.45 /\
      home_probability (Hawkes.outcome r) + draw_probability (Hawkes.outcome r)
      + away_probability (Hawkes.outcome r) == 1.
Proof.
  intros draws np_log fuel self features match_length s Hh Ha Hf.
  destruct (hawkes_predict_zero_intensity_returns draws np_log fuel self features
              match_length s Hh Ha Hf) as (r & s' & Hrun).
  exists r, s'. split; [exact Hrun|].
  apply hawkes_predict_result in Hrun. destruct Hrun as (_ & _ & _ & Hp).
  pose proof (hawkes_probabilities_zero_intensity self match_length 100 100 Hh Ha)
    as Hz.
  destruct (Hawkes.probabilities self match_length 100 100) as [[h d] a].
  destruct Hp as (-> & -> & ->). destruct Hz as (E1 & E2 & E3).
  repeat split; try assumption. rewrite E1, E2, E3. reflexivity.
Qed.

(** C5, witnessed on a model with both base intensities 0 and a single
    loop iteration of fuel. *)
Lemma C5_witness :
  exists r s',
    Hawkes.predict Sample.draws Sample.tangent_log 1 Sample.silent_hawkes
                   [] 90 0%nat = Some (r, s') /\
    home_probability (Hawkes.outcome r) == 0.45 /\
    draw_probability (Hawkes.outcome r) == 0.1 /\
    away_probability (Hawkes.outcome r) == 0.45 /\
    home_probability (Hawkes.outcome r) + draw_probability (Hawkes.outcome r)
    + away_probability (Hawkes.outcome r) == 1.
Proof.
  apply (C5_hawkes_zero_intensity_defaults
           Sample.draws Sample.tangent_log 1%nat Sample.silent_hawkes [] 90 0%nat).
  - reflexivity.
  - reflexivity.
  - lia.
Defined.

(** C6 (fails as stated): four identical predictions whose probabilities
    sum to 0.99999999999999992, a valid Outcome Prediction, come back
    divided by that sum and so differ from the input. *)
Lemma C6_counterexample_sum_within_tolerance :
  let combined :=
    MixtureOfExperts.outcome
      (MixtureOfExperts.predict MixtureOfExperts.init Sample.four_nearly_normalised) in
  Spec.is_distribution Sample.nearly_normalised /\
  Dict.values Sample.four_nearly_normalised
  = [ MixtureOfExperts.of_outcome Sample.nearly_normalised;
      MixtureOfExperts.of_outcome Sample.nearly_normalised;
      MixtureOfExperts.of_outcome Sample.nearly_normalised;
      MixtureOfExperts.of_outcome Sample.nearly_normalised ] /\
  ~ home_probability combined == home_probability Sample.nearly_normalised.
Proof.
  split; [|split].
  - unfold Spec.is_distribution. vm_compute. repeat split; discriminate.
  - reflexivity.
  - vm_compute. discriminate.
Qed.

(** C6 (amended): given the same Outcome Prediction (a scoreline "H-A",
    probabilities of positive total) under each of the four model names,
    and the uniform weights 0.25, the combiner returns each input
    probability divided by the sum of the three, hence the input
    probabilities themselves when they sum to exactly 1, and it returns
    the input scoreline. *)
Theorem C6_four_identical_predictions_are_renormalised :
  forall (self : MixtureOfExperts.Model)
         (predictions : Dict.t MixtureOfExperts.PredDict)
         (o : Outcome) (conf : option Q) (H A : nat),
    let pred :=
      {| MixtureOfExperts.get_home_probability := Some (home_probability o);
         MixtureOfExperts.get_draw_probability := Some (draw_probability o);
         MixtureOfExperts.get_away_probability := Some (away_probability o);
         MixtureOfExperts.get_predicted_score := Some (predicted_score o);
         MixtureOfExperts.get_confidence := conf |} in
    let total := home_probability o + draw_probability o + away_probability o in
    MixtureOfExperts.weights self = MixtureOfExperts.weights MixtureOfExperts.init ->
    (forall name, In name Spec.model_names ->
                  Dict.get predictions name = Some pred) ->
    Dict.values predictions = [pred; pred; pred; pred] ->
    0 < total ->
    predicted_score o = PyStr.format_score (Z.of_nat H) (Z.of_nat A) ->
    let combined :=
      MixtureOfExperts.outcome (MixtureOfExperts.predict self predictions) in
    home_probability combined == home_probability o / total /\
    draw_probability combined == draw_probability o / total /\
    away_probability combined == away_probability o / total /\
    (total == 1 ->
     home_probability combined == home_probability o /\
     draw_probability combined == draw_probability o /\
     away_probability combined == away_probability o) /\
    predicted_score combined = predicted_score o.
Proof.
  intros self predictions o conf H A pred total Hw Hget Hvals Hpos Hscore combined.
  pose proof (weighted_sums_of_four self predictions pred
                (home_probability o) (draw_probability o) (away_probability o)
                Hw Hget eq_refl eq_refl eq_refl) as Hws.
  assert (Hcs : MixtureOfExperts._combine_scores predictions = predicted_score o).
  { rewrite Hscore. apply (combine_scores_of_four predictions pred H A Hvals).
    unfold pred. cbn [MixtureOfExperts.get_predicted_score]. now rewrite Hscore. }
  unfold combined, MixtureOfExperts.predict.
  destruct (MixtureOfExperts.weighted_sums self predictions) as [[wh wd] wa].
  destruct Hws as (E1 & E2 & E3).
  assert (Ht : wh + wd + wa == total) by (unfold total; rewrite E1, E2, E3; reflexivity).
  unfold Py.normalize.
  destruct (Qltb_spec 0 (wh + wd + wa)) as [_|Hle]; [|lra].
  cbn [MixtureOfExperts.outcome home_probability draw_probability
       away_probability predicted_score].
  assert (R1 : wh / (wh + wd + wa) == home_probability o / total)
    by (rewrite Ht, E1; reflexivity).
  assert (R2 : wd / (wh + wd + wa) == draw_probability o / total)
    by (rewrite Ht, E2; reflexivity).
  assert (R3 : wa / (wh + wd + wa) == away_probability o / total)
    by (rewrite Ht, E3; reflexivity).
  split; [exact R1|]. split; [exact R2|]. split; [exact R3|].
  split; [|exact Hcs].
  intros H1. rewrite R1, R2, R3, H1.
  repeat split; field.
Qed.

(** C6, witnessed on 0.5 / 0.3 / 0.2 with the scoreline "2-1". *)
Lemma C6_witness :
  let combined :=
    MixtureOfExperts.outcome
      (MixtureOfExperts.predict MixtureOfExperts.init Sample.four_identical) in
  home_probability combined == 0.5 /\
  draw_probability combined == 0.3 /\
  away_probability combined == 0.2 /\
  predicted_score combined = "2-1"%string.
Proof.
  destruct (C6_four_identical_predictions_are_renormalised
              MixtureOfExperts.init Sample.four_identical Sample.same_outcome
              None 2%nat 1%nat) as (_ & _ & _ & Hexact & Hscore).
  - reflexivity.
  - intros name [<- | [<- | [<- | [<- | []]]]]; reflexivity.
  - reflexivity.
  - reflexivity.
  - reflexivity.
  - destruct (Hexact ltac:(reflexivity)) as (H1 & H2 & H3).
    split; [exact H1|]. split; [exact H2|]. split; [exact H3|]. exact Hscore.
Defined.

(** C7: for every non-empty list of backtest rows, each row's predicted
    result is the argmax of its three probabilities with ties resolved in
    the order home, draw, away, and the accuracy is the number of rows
    whose argmax is the bucket of the actual score, divided by the number
    of rows. *)
Theorem C7_accuracy_is_the_fraction_of_argmax_hits :
  forall rows : list Backtest.Row,
    rows <> [] ->
    (forall row, In row rows ->
       Backtest.predicted_result row = Spec.label (Spec.argmax_bucket row) /\
       Backtest.actual_result row = Spec.label (Spec.actual_bucket row)) /\
    Backtest._calculate_accuracy rows
    = inject_Z (Z.of_nat (length (Spec.hits rows)))
      / inject_Z (Z.of_nat (length rows)).
Proof.
  intros rows Hne. split.
  - intros row _. split; [apply predicted_result_label | apply actual_result_label].
  - now apply accuracy_counts_hits.
Qed.

(** C7, witnessed: the home/draw tie is called home (a hit on a home win),
    the away call on a draw is a miss, the three-way tie is called home (a
    miss on an away win): accuracy 1/3. *)
Lemma C7_witness :
  Sample.backtest_rows <> [] /\
  map Backtest.predicted_result Sample.backtest_rows
  = ["home"; "away"; "home"]%string /\
  Backtest._calculate_accuracy Sample.backtest_rows == 1 # 3.
Proof.
  assert (Hne : Sample.backtest_rows <> []) by discriminate.
  destruct (C7_accuracy_is_the_fraction_of_argmax_hits Sample.backtest_rows Hne)
    as [_ Hacc].
  split; [exact Hne|]. split; [reflexivity|].
  rewrite Hacc. reflexivity.
Defined.

(** C8: when no prediction and match qualify (same match, the requested
    model and league, a date inside the window, both scores known), or
    when the database cannot be read, the backtester returns accuracy 0,
    log_loss 0, brier_score 0 and count 0. *)
Theorem C8_backtest_without_rows_is_all_zero :
  forall (np_log : Q -> Q) (league_id : Z) (start_date end_date model_type : string),
    (forall db : Backtest.Database,
        (forall p m, In p (Backtest.predictions db) -> In m (Backtest.matches db) ->
                     ~ Spec.qualifies league_id start_date end_date model_type p m) ->
        Backtest._backtest_single_model np_log (Some db) league_id
                                        start_date end_date model_type
        = Backtest.mkMetrics 0 0 0 0 None) /\
    Backtest._backtest_single_model np_log None league_id
                                    start_date end_date model_type
    = Backtest.mkMetrics 0 0 0 0 None.
Proof.
  intros np_log league_id start_date end_date model_type. split.
  - intros db Hnone. unfold Backtest._backtest_single_model.
    now rewrite (select_backtest_empty db league_id start_date end_date
                                       model_type Hnone).
  - reflexivity.
Qed.

(** C8, witnessed: the only stored prediction is a Poisson one, and the
    backtest asks for the Hawkes model. *)
Lemma C8_witness :
  Backtest._backtest_single_model Sample.tangent_log (Some Sample.other_model_db)
                                  39 "2024-01-01" "2024-12-31" "hawkes"
  = Backtest.mkMetrics 0 0 0 0 None.
Proof.
  apply (proj1 (C8_backtest_without_rows_is_all_zero
                  Sample.tangent_log 39%Z "2024-01-01" "2024-12-31" "hawkes")).
  intros p m [<- | []] Hm (_ & Hmodel & _). discriminate Hmodel.
Defined.




(** The means [NegativeBinomial.fit] stores when a feature map is given and
    both histories have at least two entries. *)
Lemma nbinom_fit_means (np_mean np_var : list Q -> Q)
      (self : NegativeBinomial.Model)
      (home_goals away_goals : list Q) (features : Dict.t Q) :
  Dict.truthy features = true ->
  (1 < length home_goals)%nat -> (1 < length away_goals)%nat ->
  let fitted :=
    NegativeBinomial.fit np_mean np_var self home_goals away_goals features in
  NegativeBinomial.home_mu fitted
  = Py.max (np_mean home_goals) 0.1
    * (Dict.get_or features "home_attack_strength" 1
       * Dict.get_or features "away_defense_strength" 1) /\
  NegativeBinomial.away_mu fitted
  = Py.max (np_mean away_goals) 0.1
    * (Dict.get_or features "away_attack_strength" 1
       * Dict.get_or features "home_defense_strength" 1).
Proof.
  intros Ht Hh Ha. unfold NegativeBinomial.fit.
  rewrite (proj1 (nbinom_fit_side _ _ _ _ home_goals) Hh).
  rewrite (proj1 (nbinom_fit_side _ _ _ _ away_goals) Ha).
  rewrite Ht. cbn. split; reflexivity.
Qed.

(** C10: for team stats with goals_against > 0 the defense strength is
    1 - goals_against / 30; it is zero or negative from 30 goals conceded
    on, and a negative factor makes the opponent's fitted goal rate
    negative (the Poisson rate always, the negative-binomial mean whenever
    it is fitted from at least two matches a side). *)
Theorem C10_defense_strength_has_no_positive_floor :
  forall (sentiment : string -> Q) (home_stats away_stats : Pipeline.TeamStats)
         (home_name away_name : string) (use_news : bool),
    let features :=
      Pipeline._build_features sentiment (Some home_stats) (Some away_stats)
                               home_name away_name use_news in
    let home_ga := Pipeline.goals_against home_stats in
    let away_ga := Pipeline.goals_against away_stats in
    ((0 < home_ga)%Z ->
     Dict.get features "home_defense_strength" = Some (1 - inject_Z home_ga / 30) /\
     ((30 <= home_ga)%Z -> 1 - inject_Z home_ga / 30 <= 0) /\
     ((30 < home_ga)%Z ->
      forall (pm : Poisson.Model) (nm : NegativeBinomial.Model)
             (np_mean np_var : list Q -> Q) (home_goals away_goals : list Q),
        Poisson.away_lambda (Poisson.fit pm home_goals away_goals features) < 0 /\
        ((1 < length home_goals)%nat -> (1 < length away_goals)%nat ->
         NegativeBinomial.away_mu
           (NegativeBinomial.fit np_mean np_var nm home_goals away_goals features)
         < 0))) /\
    ((0 < away_ga)%Z ->
     Dict.get features "away_defense_strength" = Some (1 - inject_Z away_ga / 30) /\
     ((30 <= away_ga)%Z -> 1 - inject_Z away_ga / 30 <= 0) /\
     ((30 < away_ga)%Z ->
      forall (pm : Poisson.Model) (nm : NegativeBinomial.Model)
             (np_mean np_var : list Q -> Q) (home_goals away_goals : list Q),
        Poisson.home_lambda (Poisson.fit pm home_goals away_goals features) < 0 /\
        ((1 < length home_goals)%nat -> (1 < length away_goals)%nat ->
         NegativeBinomial.home_mu
           (NegativeBinomial.fit np_mean np_var nm home_goals away_goals features)
         < 0))).
Proof.
  intros sentiment home_stats away_stats home_name away_name use_news
         features home_ga away_ga.
  destruct (build_features_strengths sentiment (Some home_stats) (Some away_stats)
              home_name away_name use_news) as (Ht & Eha & Ehd & Eaa & Ead).
  fold features in Ht, Eha, Ehd, Eaa, Ead.
  cbn [Pipeline.stat] in Eha, Ehd, Eaa, Ead.
  fold home_ga in Ehd. fold away_ga in Ead.
  split; intros Hpos.
  - rewrite (defense_strength_value home_ga Hpos) in Ehd.
    split; [exact Ehd|]. split; [apply defense_strength_sign|].
    intros Hbig pm nm np_mean np_var home_goals away_goals.
    apply defense_strength_sign in Hbig.
    split.
    + destruct (poisson_fit_rates pm home_goals away_goals features Ht) as [_ ->].
      unfold Dict.get_or. rewrite Eaa, Ehd.
      apply product_negative;
        [apply poisson_base_rate_positive; lra
        | apply attack_strength_positive | exact Hbig].
    + intros Lh La.
      destruct (nbinom_fit_means np_mean np_var nm home_goals away_goals
                  features Ht Lh La) as [_ ->].
      unfold Dict.get_or. rewrite Eaa, Ehd.
      apply product_negative;
        [pose proof (py_max_ge_r (np_mean away_goals) 0.1); lra
        | apply attack_strength_positive | exact Hbig].
  - rewrite (defense_strength_value away_ga Hpos) in Ead.
    split; [exact Ead|]. split; [apply defense_strength_sign|].
    intros Hbig pm nm np_mean np_var home_goals away_goals.
    apply defense_strength_sign in Hbig.
    split.
    + destruct (poisson_fit_rates pm home_goals away_goals features Ht) as [-> _].
      unfold Dict.get_or. rewrite Eha, Ead.
      apply product_negative;
        [apply poisson_base_rate_positive; lra
        | apply attack_strength_positive | exact Hbig].
    + intros Lh La.
      destruct (nbinom_fit_means np_mean np_var nm home_goals away_goals
                  features Ht Lh La) as [-> _].
      unfold Dict.get_or. rewrite Eha, Ead.
      apply product_negative;
        [pose proof (py_max_ge_r (np_mean home_goals) 0.1); lra
        | apply attack_strength_positive | exact Hbig].
Qed.

(** C10, witnessed: a home team that conceded 45 goals has defense
    strength -1/2, and the away side's fitted Poisson rate is negative. *)
Lemma C10_witness :
  let features :=
    Pipeline._build_features Sample.neutral_sentiment
      (Some Sample.leaky_team) (Some Sample.solid_team) "Home" "Away" false in
  Dict.get features "home_defense_strength" = Some (1 - inject_Z 45 / 30) /\
  1 - inject_Z 45 / 30 == - (1 # 2) /\
  Poisson.away_lambda (Poisson.fit Poisson.init [1; 2] [1; 0] features) < 0.
Proof.
  intros features.
  destruct (C10_defense_strength_has_no_positive_floor
              Sample.neutral_sentiment Sample.leaky_team Sample.solid_team
              "Home" "Away" false) as [Hhome _].
  assert (Hpos : (0 < Pipeline.goals_against Sample.leaky_team)%Z) by reflexivity.
  assert (Hbig : (30 < Pipeline.goals_against Sample.leaky_team)%Z) by reflexivity.
  destruct (Hhome Hpos) as (Hget & _ & Hrate).
  split; [exact Hget|]. split; [reflexivity|].
  exact (proj1 (Hrate Hbig Poisson.init NegativeBinomial.init
                      Sample.numpy_mean Sample.numpy_var [1; 2] [1; 0])).
Defined.

(** * Further properties of the code *)

(** ** Finite sums *)

Lemma sum_over_ext {A : Type} (f g : A -> Q) (l : list A) :
  (forall x, In x l -> f x == g x) -> Sums.sum_over f l == Sums.sum_over g l.
Proof.
  induction l as [|x l IH]; intros H; cbn [Sums.sum_over fold_right].
  - reflexivity.
  - fold (Sums.sum_over f l). fold (Sums.sum_over g l).
    rewrite (H x) by (left; reflexivity).
    rewrite IH by (intros y Hy; apply H; right; exact Hy). reflexivity.
Qed.

Lemma sum_over_cons {A : Type} (f : A -> Q) (x : A) (l : list A) :
  Sums.sum_over f (x :: l) = f x + Sums.sum_over f l.
Proof. reflexivity. Qed.

Lemma sum_over_plus {A : Type} (f g : A -> Q) (l : list A) :
  Sums.sum_over (fun x => f x + g x) l == Sums.sum_over f l + Sums.sum_over g l.
Proof.
  induction l as [|x l IH]; [cbn; lra|].
  rewrite !sum_over_cons, IH. ring.
Qed.

Lemma sum_over_zero {A : Type} (l : list A) :
  Sums.sum_over (fun _ => 0) l == 0.
Proof.
  induction l as [|x l IH]; [reflexivity|]. rewrite sum_over_cons, IH. ring.
Qed.

Lemma sum_over_scale {A : Type} (c : Q) (f : A -> Q) (l : list A) :
  Sums.sum_over (fun x => c * f x) l == c * Sums.sum_over f l.
Proof.
  induction l as [|x l IH]; [cbn; ring|].
  rewrite !sum_over_cons, IH. ring.
Qed.

Lemma sum_over_nonneg {A : Type} (f : A -> Q) (l : list A) :
  (forall x, In x l -> 0 <= f x) -> 0 <= Sums.sum_over f l.
Proof.
  induction l as [|x l IH]; intros H; [cbn; lra|].
  rewrite sum_over_cons.
  assert (0 <= f x) by (apply H; left; reflexivity).
  assert (0 <= Sums.sum_over f l) by (apply IH; intros y Hy; apply H; right; exact Hy).
  lra.
Qed.

Lemma sum_over_exchange {A B : Type} (f : A -> B -> Q) (l1 : list A) (l2 : list B) :
  Sums.sum_over (fun i => Sums.sum_over (f i) l2) l1
  == Sums.sum_over (fun j => Sums.sum_over (fun i => f i j) l1) l2.
Proof.
  induction l1 as [|x l1 IH].
  - cbn [Sums.sum_over fold_right]. symmetry. apply sum_over_zero.
  - rewrite sum_over_cons, IH.
    rewrite <- sum_over_plus. apply sum_over_ext. intros j _.
    rewrite sum_over_cons. reflexivity.
Qed.

(** [sum(xs)] as a sum over the list. *)
Lemma py_sum_from (xs : list Q) :
  forall acc, fold_left Qplus xs acc == acc + Sums.sum_over (fun x => x) xs.
Proof.
  induction xs as [|x xs IH]; intros acc; cbn [fold_left].
  - cbn. ring.
  - rewrite IH, sum_over_cons. ring.
Qed.

Lemma py_sum_sum_over (xs : list Q) : Py.sum xs == Sums.sum_over (fun x => x) xs.
Proof. unfold Py.sum. rewrite py_sum_from. ring. Qed.

Lemma len_positive {A : Type} (x : A) (xs : list A) : 0 < Py.len (x :: xs).
Proof.
  unfold Py.len. change 0 with (inject_Z 0). rewrite <- Zlt_Qlt.
  cbn [length]. lia.
Qed.

Lemma len_cons {A : Type} (x : A) (xs : list A) :
  Py.len (x :: xs) == Py.len xs + 1.
Proof.
  unfold Py.len. cbn [length]. rewrite Nat2Z.inj_succ. unfold Z.succ.
  rewrite inject_Z_plus. reflexivity.
Qed.

Lemma sum_over_bounds (lo hi : Q) (xs : list Q) :
  (forall x, In x xs -> lo <= x <= hi) ->
  lo * Py.len xs <= Sums.sum_over (fun x => x) xs <= hi * Py.len xs.
Proof.
  induction xs as [|x xs IH]; intros H.
  - unfold Py.len. cbn [length Sums.sum_over fold_right].
    change (inject_Z (Z.of_nat 0)) with 0. lra.
  - rewrite sum_over_cons, len_cons.
    destruct (H x (or_introl eq_refl)) as [H1 H2].
    destruct IH as [I1 I2]; [intros y Hy; apply H; right; exact Hy|].
    split; lra.
Qed.

(** The mean of a non-empty list lies between any bounds of its entries. *)
Lemma mean_bounds (lo hi : Q) (xs : list Q) :
  xs <> [] -> (forall x, In x xs -> lo <= x <= hi) ->
  lo <= Py.mean xs <= hi.
Proof.
  intros Hne H. destruct xs as [|x xs]; [congruence|].
  pose proof (len_positive x xs) as Hlen.
  destruct (sum_over_bounds lo hi (x :: xs) H) as [H1 H2].
  unfold Py.mean. rewrite py_sum_sum_over.
  split.
  - apply Qle_shift_div_l; [exact Hlen | exact H1].
  - apply Qle_shift_div_r; [exact Hlen | exact H2].
Qed.

(** ** The double loop of the count models as sums *)

Lemma bucket_inner_loop (hp ap : nat -> Q) (i : nat) (js : list nat) :
  forall h d a,
    let '(h', d', a') :=
      fold_left
        (fun '(home_win, draw, away_win) away_score =>
           let prob := hp i * ap away_score in
           if (away_score <? i)%nat then (home_win + prob, draw, away_win)
           else if (i =? away_score)%nat then (home_win, draw + prob, away_win)
           else (home_win, draw, away_win + prob))
        js (h, d, a) in
    h' == h + Sums.sum_over (fun j => if (j <? i)%nat then hp i * ap j else 0) js /\
    d' == d + Sums.sum_over (fun j => if (i =? j)%nat then hp i * ap j else 0) js /\
    a' == a + Sums.sum_over (fun j => if (i <? j)%nat then hp i * ap j else 0) js.
Proof.
  induction js as [|j js IH]; intros h d a.
  - cbn. repeat split; ring.
  - cbn [fold_left]. rewrite !sum_over_cons.
    destruct (Nat.ltb_spec j i) as [Hji|Hji].
    + specialize (IH (h + hp i * ap j) d a).
      destruct (fold_left _ js _) as [[h' d'] a'].
      destruct IH as (E1 & E2 & E3).
      assert (F1 : (i =? j)%nat = false) by (apply Nat.eqb_neq; lia).
      assert (F2 : (i <? j)%nat = false) by (apply Nat.ltb_ge; lia).
      rewrite F1, F2, E1, E2, E3. repeat split; ring.
    + destruct (Nat.eqb_spec i j) as [Hij|Hij].
      * specialize (IH h (d + hp i * ap j) a).
        destruct (fold_left _ js _) as [[h' d'] a'].
        destruct IH as (E1 & E2 & E3).
        assert (F2 : (i <? j)%nat = false) by (apply Nat.ltb_ge; lia).
        rewrite F2, E1, E2, E3. repeat split; ring.
      * specialize (IH h d (a + hp i * ap j)).
        destruct (fold_left _ js _) as [[h' d'] a'].
        destruct IH as (E1 & E2 & E3).
        assert (F2 : (i <? j)%nat = true) by (apply Nat.ltb_lt; lia).
        rewrite F2, E1, E2, E3. repeat split; ring.
Qed.

Lemma bucket_outer_loop (hp ap : nat -> Q) (js : list nat) (is_ : list nat) :
  forall h d a,
    let '(h', d', a') :=
      fold_left
        (fun acc home_score =>
           fold_left
             (fun '(home_win, draw, away_win) away_score =>
                let prob := hp home_score * ap away_score in
                if (away_score <? home_score)%nat then (home_win + prob, draw, away_win)
                else if (home_score =? away_score)%nat then (home_win, draw + prob, away_win)
                else (home_win, draw, away_win + prob))
             js acc)
        is_ (h, d, a) in
    h' == h + Sums.sum_over
                (fun i => Sums.sum_over
                            (fun j => if (j <? i)%nat then hp i * ap j else 0) js) is_ /\
    d' == d + Sums.sum_over
                (fun i => Sums.sum_over
                            (fun j => if (i =? j)%nat then hp i * ap j else 0) js) is_ /\
    a' == a + Sums.sum_over
                (fun i => Sums.sum_over
                            (fun j => if (i <? j)%nat then hp i * ap j else 0) js) is_.
Proof.
  induction is_ as [|i is_ IH]; intros h d a.
  - cbn. repeat split; ring.
  - cbn [fold_left]. rewrite !sum_over_cons.
    pose proof (bucket_inner_loop hp ap i js h d a) as Hin.
    destruct (fold_left _ js (h, d, a)) as [[h1 d1] a1].
    destruct Hin as (I1 & I2 & I3).
    specialize (IH h1 d1 a1).
    destruct (fold_left _ is_ (h1, d1, a1)) as [[h' d'] a'].
    destruct IH as (E1 & E2 & E3).
    rewrite E1, E2, E3, I1, I2, I3. repeat split; ring.
Qed.

(** The three buckets as double sums over the scorelines. *)
Lemma bucket_masses_sums (hp ap : nat -> Q) (n : nat) :
  let '(h, d, a) := bucket_masses hp ap n in
  h == Sums.sum_over
         (fun i => Sums.sum_over
                     (fun j => if (j <? i)%nat then hp i * ap j else 0) (seq 0 n))
         (seq 0 n) /\
  d == Sums.sum_over
         (fun i => Sums.sum_over
                     (fun j => if (i =? j)%nat then hp i * ap j else 0) (seq 0 n))
         (seq 0 n) /\
  a == Sums.sum_over
         (fun i => Sums.sum_over
                     (fun j => if (i <? j)%nat then hp i * ap j else 0) (seq 0 n))
         (seq 0 n).
Proof.
  unfold bucket_masses.
  pose proof (bucket_outer_loop hp ap (seq 0 n) (seq 0 n) 0 0 0) as H.
  destruct (fold_left _ (seq 0 n) (0, 0, 0)) as [[h d] a].
  destruct H as (E1 & E2 & E3).
  rewrite E1, E2, E3. repeat split; ring.
Qed.

(** Exchanging the two sides exchanges the home and away buckets. *)
Lemma bucket_masses_swap (hp ap : nat -> Q) (n : nat) :
  let '(h, d, a) := bucket_masses hp ap n in
  let '(h', d', a') := bucket_masses ap hp n in
  h' == a /\ d' == d /\ a' == h.
Proof.
  pose proof (bucket_masses_sums hp ap n) as H1.
  pose proof (bucket_masses_sums ap hp n) as H2.
  destruct (bucket_masses hp ap n) as [[h d] a].
  destruct (bucket_masses ap hp n) as [[h' d'] a'].
  destruct H1 as (E1 & E2 & E3). destruct H2 as (F1 & F2 & F3).
  rewrite E1, E2, E3, F1, F2, F3.
  split; [|split].
  - rewrite sum_over_exchange. apply sum_over_ext. intros i _.
    apply sum_over_ext. intros j _. destruct (i <? j)%nat; ring.
  - rewrite sum_over_exchange. apply sum_over_ext. intros i _.
    apply sum_over_ext. intros j _.
    rewrite (Nat.eqb_sym j i). destruct (i =? j)%nat; ring.
  - rewrite sum_over_exchange. apply sum_over_ext. intros i _.
    apply sum_over_ext. intros j _. destruct (j <? i)%nat; ring.
Qed.

(** Before the normalisation the buckets add up to the product of the two
    sides' masses over the scores 0 .. max_score - 1. *)
Lemma bucket_masses_total (hp ap : nat -> Q) (n : nat) :
  Spec.total (bucket_masses hp ap n)
  == Sums.sum_over hp (seq 0 n) * Sums.sum_over ap (seq 0 n).
Proof.
  pose proof (bucket_masses_sums hp ap n) as H.
  destruct (bucket_masses hp ap n) as [[h d] a].
  destruct H as (E1 & E2 & E3). cbn [Spec.total].
  rewrite E1, E2, E3, <- !sum_over_plus.
  rewrite (Qmult_comm (Sums.sum_over hp (seq 0 n))).
  rewrite <- sum_over_scale. apply sum_over_ext. intros i _.
  rewrite <- !sum_over_plus.
  rewrite (Qmult_comm _ (hp i)), <- sum_over_scale.
  apply sum_over_ext. intros j _.
  destruct (Nat.ltb_spec j i) as [Hji|Hji].
  - assert (F1 : (i =? j)%nat = false) by (apply Nat.eqb_neq; lia).
    assert (F2 : (i <? j)%nat = false) by (apply Nat.ltb_ge; lia).
    rewrite F1, F2. ring.
  - destruct (Nat.eqb_spec i j) as [Hij|Hij].
    + assert (F2 : (i <? j)%nat = false) by (apply Nat.ltb_ge; lia).
      rewrite F2. ring.
    + assert (F2 : (i <? j)%nat = true) by (apply Nat.ltb_lt; lia).
      rewrite F2. ring.
Qed.

(** ** Symmetry and total mass of the count models *)

Lemma normalize_swap (h d a : Q) :
  h == a ->
  let '(h', d', a') := Py.normalize h d a in h' == a'.
Proof.
  intros E. unfold Py.normalize.
  destruct (Py.Qltb 0 (h + d + a)); [|exact E].
  now rewrite E.
Qed.

Lemma bucket_masses_ext (hp hp' ap ap' : nat -> Q) (n : nat) :
  (forall k, hp k == hp' k) -> (forall k, ap k == ap' k) ->
  let '(h, d, a) := bucket_masses hp ap n in
  let '(h', d', a') := bucket_masses hp' ap' n in
  h == h' /\ d == d' /\ a == a'.
Proof.
  intros Hh Ha.
  pose proof (bucket_masses_sums hp ap n) as S1.
  pose proof (bucket_masses_sums hp' ap' n) as S2.
  destruct (bucket_masses hp ap n) as [[h d] a].
  destruct (bucket_masses hp' ap' n) as [[h' d'] a'].
  destruct S1 as (E1 & E2 & E3). destruct S2 as (F1 & F2 & F3).
  rewrite E1, E2, E3, F1, F2, F3.
  repeat split; apply sum_over_ext; intros i _; apply sum_over_ext; intros j _.
  - destruct (j <? i)%nat; [rewrite (Hh i), (Ha j)|]; reflexivity.
  - destruct (i =? j)%nat; [rewrite (Hh i), (Ha j)|]; reflexivity.
  - destruct (i <? j)%nat; [rewrite (Hh i), (Ha j)|]; reflexivity.
Qed.

Lemma bucket_masses_same_sides (hp ap : nat -> Q) (n : nat) :
  (forall k, hp k == ap k) ->
  let '(h, d, a) := bucket_masses hp ap n in h == a.
Proof.
  intros Hsame.
  pose proof (bucket_masses_swap hp ap n) as Hswap.
  pose proof (bucket_masses_ext hp ap ap hp n Hsame
                (fun k => Qeq_sym _ _ (Hsame k))) as Hext.
  destruct (bucket_masses hp ap n) as [[h d] a].
  destruct (bucket_masses ap hp n) as [[h' d'] a'].
  destruct Hswap as (S1 & _ & _). destruct Hext as (E1 & _ & _).
  rewrite E1. exact S1.
Qed.

(** X1: when the two sides have the same rate after the form adjustment
    (the same number, however the two products came about), the Poisson
    model gives home and away the same probability, for every mass
    function of the rate; the same holds for the negative-binomial model
    when the two sides also share the dispersion. *)
Theorem X1_count_models_are_symmetric :
  (forall (pmf : nat -> Q -> Q) (self : Poisson.Model) (features : Dict.t Q),
      (forall k mu mu', mu == mu' -> pmf k mu == pmf k mu') ->
      fst (Poisson.adjusted_rates self features)
      == snd (Poisson.adjusted_rates self features) ->
      home_probability (Poisson.outcome (Poisson.predict pmf self features))
      == away_probability (Poisson.outcome (Poisson.predict pmf self features)))
  /\
  (forall (pmf : nat -> Q -> Q -> Q) (self : NegativeBinomial.Model)
          (features : Dict.t Q),
      (forall k n n' p p', n == n' -> p == p' -> pmf k n p == pmf k n' p') ->
      fst (NegativeBinomial.adjusted_means self features)
      == snd (NegativeBinomial.adjusted_means self features) ->
      NegativeBinomial.home_alpha self == NegativeBinomial.away_alpha self ->
      home_probability
        (NegativeBinomial.outcome (NegativeBinomial.predict pmf self features))
      == away_probability
           (NegativeBinomial.outcome (NegativeBinomial.predict pmf self features))).
Proof.
  split.
  - intros pmf self features Hpmf Hrates.
    unfold Poisson.predict, Poisson.masses.
    destruct (Poisson.adjusted_rates self features) as [hl al].
    cbn [fst snd] in Hrates.
    pose proof (bucket_masses_same_sides
                  (fun k => pmf k hl) (fun k => pmf k al) (Poisson.max_score self)
                  (fun k => Hpmf k hl al Hrates)) as Hha.
    destruct (bucket_masses _ _ _) as [[h d] a].
    pose proof (normalize_swap h d a Hha) as Hn.
    destruct (Py.normalize h d a) as [[h' d'] a']. exact Hn.
  - intros pmf self features Hpmf Hmeans Halpha.
    unfold NegativeBinomial.predict, NegativeBinomial.masses.
    destruct (NegativeBinomial.adjusted_means self features) as [hm am].
    cbn [fst snd] in Hmeans.
    set (ha := NegativeBinomial.home_alpha self) in *.
    set (aa := NegativeBinomial.away_alpha self) in *.
    assert (Hp : ha / (ha + hm) == aa / (aa + am))
      by (rewrite Halpha, Hmeans; reflexivity).
    pose proof (bucket_masses_same_sides
                  (fun k => pmf k ha (ha / (ha + hm)))
                  (fun k => pmf k aa (aa / (aa + am)))
                  (NegativeBinomial.max_score self)
                  (fun k => Hpmf k ha aa _ _ Halpha Hp)) as Hha.
    destruct (bucket_masses _ _ _) as [[h d] a].
    pose proof (normalize_swap h d a Hha) as Hn.
    destruct (Py.normalize h d a) as [[h' d'] a']. exact Hn.
Qed.

(** X1, witnessed on two models whose sides reach the rate 1.5 through
    different factors (1 with form 1 at home, 1.5 with form 0.5 away),
    with mass functions that depend on the rate. *)
Lemma X1_witness :
  let features := [("home_form"%string, 1); ("away_form"%string, 0.5)] in
  let pm := Poisson.mkModel 1 1.5 10 in
  let nm := NegativeBinomial.mkModel 1 2 1.5 (4 # 2) 10 in
  ~ fst (Poisson.adjusted_rates pm features)
    = snd (Poisson.adjusted_rates pm features) /\
  home_probability
    (Poisson.outcome (Poisson.predict Sample2.scaled_poisson_pmf pm features))
  == away_probability
       (Poisson.outcome (Poisson.predict Sample2.scaled_poisson_pmf pm features)) /\
  home_probability
    (NegativeBinomial.outcome
       (NegativeBinomial.predict Sample2.scaled_nbinom_pmf nm features))
  == away_probability
       (NegativeBinomial.outcome
          (NegativeBinomial.predict Sample2.scaled_nbinom_pmf nm features)).
Proof.
  intros features pm nm.
  destruct X1_count_models_are_symmetric as [HP HN].
  split; [vm_compute; discriminate|]. split.
  - apply HP.
    + intros k mu mu' E. unfold Sample2.scaled_poisson_pmf. rewrite E. reflexivity.
    + reflexivity.
  - apply HN.
    + intros k n n' p p' En Ep. unfold Sample2.scaled_nbinom_pmf.
      rewrite En, Ep. reflexivity.
    + reflexivity.
    + reflexivity.
Defined.

(** X2: before the normalisation the three buckets of the Poisson model add
    up to the product of the two sides' masses over the scores
    0 .. max_score - 1, so the normalisation makes up exactly for the
    scorelines cut off at max_score; the same for the negative-binomial
    model. *)
Theorem X2_count_model_total_is_the_product_of_truncated_masses :
  (forall (pmf : nat -> Q -> Q) (self : Poisson.Model) (features : Dict.t Q),
      let '(home_lambda, away_lambda) := Poisson.adjusted_rates self features in
      Spec.total (Poisson.masses pmf self features)
      == Sums.sum_over (fun k => pmf k home_lambda) (seq 0 (Poisson.max_score self))
         * Sums.sum_over (fun k => pmf k away_lambda) (seq 0 (Poisson.max_score self)))
  /\
  (forall (pmf : nat -> Q -> Q -> Q) (self : NegativeBinomial.Model)
          (features : Dict.t Q),
      let '(home_mu, away_mu) := NegativeBinomial.adjusted_means self features in
      let ha := NegativeBinomial.home_alpha self in
      let aa := NegativeBinomial.away_alpha self in
      Spec.total (NegativeBinomial.masses pmf self features)
      == Sums.sum_over (fun k => pmf k ha (ha / (ha + home_mu)))
                       (seq 0 (NegativeBinomial.max_score self))
         * Sums.sum_over (fun k => pmf k aa (aa / (aa + away_mu)))
                         (seq 0 (NegativeBinomial.max_score self))).
Proof.
  split.
  - intros pmf self features. unfold Poisson.masses.
    destruct (Poisson.adjusted_rates self features) as [hl al].
    apply bucket_masses_total.
  - intros pmf self features. unfold NegativeBinomial.masses.
    destruct (NegativeBinomial.adjusted_means self features) as [hm am].
    apply bucket_masses_total.
Qed.

(** ** What the fits keep *)

(** X3: fitting never brings a dispersion of the negative-binomial model
    below 0.1: if both were at least 0.1 (as in a fresh model), they are
    after [fit], for every pair of histories and every feature map; and
    without a feature map the same holds for the two means. *)
Theorem X3_nbinom_fit_keeps_dispersion_and_mean_floors :
  forall (np_mean np_var : list Q -> Q) (self : NegativeBinomial.Model)
         (home_goals away_goals : list Q) (features : Dict.t Q),
    0.1 <= NegativeBinomial.home_alpha self ->
    0.1 <= NegativeBinomial.away_alpha self ->
    let fitted :=
      NegativeBinomial.fit np_mean np_var self home_goals away_goals features in
    0.1 <= NegativeBinomial.home_alpha fitted /\
    0.1 <= NegativeBinomial.away_alpha fitted /\
    (0.1 <= NegativeBinomial.home_mu self -> 0.1 <= NegativeBinomial.away_mu self ->
     let unscaled :=
       NegativeBinomial.fit np_mean np_var self home_goals away_goals [] in
     0.1 <= NegativeBinomial.home_mu unscaled /\
     0.1 <= NegativeBinomial.away_mu unscaled).
Proof.
  intros np_mean np_var self home_goals away_goals features Hh Ha fitted.
  assert (Hside : forall mu alpha goals,
             0.1 <= alpha ->
             0.1 <= snd (NegativeBinomial.fit_side np_mean np_var mu alpha goals) /\
             (0.1 <= mu ->
              0.1 <= fst (NegativeBinomial.fit_side np_mean np_var mu alpha goals))).
  { intros mu alpha goals Halpha. unfold NegativeBinomial.fit_side.
    destruct (1 <? length goals)%nat; cbn [fst snd].
    - split.
      + destruct (Py.Qltb (np_mean goals) (np_var goals)).
        * apply py_max_ge_r.
        * lra.
      + intros _. apply py_max_ge_r.
    - split; [exact Halpha | intros H; exact H]. }
  destruct (nbinom_fit_alphas np_mean np_var self home_goals away_goals features)
    as [Eh Ea].
  fold fitted in Eh, Ea. rewrite Eh, Ea.
  split; [apply Hside; exact Hh|]. split; [apply Hside; exact Ha|].
  intros Hmh Hma unscaled. unfold unscaled, NegativeBinomial.fit.
  pose proof (Hside (NegativeBinomial.home_mu self)
                (NegativeBinomial.home_alpha self) home_goals Hh) as [_ H1].
  pose proof (Hside (NegativeBinomial.away_mu self)
                (NegativeBinomial.away_alpha self) away_goals Ha) as [_ H2].
  destruct (NegativeBinomial.fit_side _ _ _ _ home_goals) as [hmu halpha].
  destruct (NegativeBinomial.fit_side _ _ _ _ away_goals) as [amu aalpha].
  cbn in *. split; [apply H1; exact Hmh | apply H2; exact Hma].
Qed.

Lemma X3_witness :
  let fitted :=
    NegativeBinomial.fit Sample.numpy_mean Sample.numpy_var
                         NegativeBinomial.init [0; 4; 0; 4] [3] [] in
  0.1 <= NegativeBinomial.home_alpha fitted /\
  0.1 <= NegativeBinomial.away_alpha fitted /\
  0.1 <= NegativeBinomial.home_mu fitted /\
  0.1 <= NegativeBinomial.away_mu fitted.
Proof.
  destruct (X3_nbinom_fit_keeps_dispersion_and_mean_floors
              Sample.numpy_mean Sample.numpy_var
              NegativeBinomial.init [0; 4; 0; 4] [3] [])
    as (H1 & H2 & H3); [vm_compute; discriminate | vm_compute; discriminate |].
  destruct H3 as [H3 H4]; [vm_compute; discriminate | vm_compute; discriminate |].
  repeat split; assumption.
Defined.

(** X4: the Poisson fit overwrites both rates: they do not depend on the
    rates the model held before, and without a feature map they are never
    below 0.1, for every pair of histories, empty ones included. *)
Theorem X4_poisson_fit_is_stateless_and_floored :
  forall (self other : Poisson.Model) (home_goals away_goals : list Q)
         (features : Dict.t Q),
    Poisson.home_lambda (Poisson.fit self home_goals away_goals features)
    = Poisson.home_lambda (Poisson.fit other home_goals away_goals features) /\
    Poisson.away_lambda (Poisson.fit self home_goals away_goals features)
    = Poisson.away_lambda (Poisson.fit other home_goals away_goals features) /\
    0.1 <= Poisson.home_lambda (Poisson.fit self home_goals away_goals []) /\
    0.1 <= Poisson.away_lambda (Poisson.fit self home_goals away_goals []).
Proof.
  intros self other home_goals away_goals features.
  split; [|split].
  - unfold Poisson.fit. destruct (Dict.truthy features); reflexivity.
  - unfold Poisson.fit. destruct (Dict.truthy features); reflexivity.
  - unfold Poisson.fit. cbn [Dict.truthy Poisson.home_lambda Poisson.away_lambda].
    split.
    + destruct (0 <? length home_goals)%nat; [apply py_max_ge_r | lra].
    + destruct (0 <? length away_goals)%nat; [apply py_max_ge_r | lra].
Qed.

(** X5: the Hawkes fit keeps both base intensities positive when the two
    form ratings of the feature map are above -0.5 (they are ratings in
    [0, 1]) and the intensities were positive before. *)
Theorem X5_hawkes_fit_keeps_intensities_positive :
  forall (self : Hawkes.Model) (home_goals away_goals : list Q)
         (features : Dict.t Q),
    0 < Hawkes.lambda0_home self -> 0 < Hawkes.lambda0_away self ->
    - (1 # 2) < Dict.get_or features "home_form" 0.5 ->
    - (1 # 2) < Dict.get_or features "away_form" 0.5 ->
    let fitted := Hawkes.fit self home_goals away_goals features in
    0 < Hawkes.lambda0_home fitted /\ 0 < Hawkes.lambda0_away fitted /\
    Hawkes.alpha fitted = Hawkes.alpha self /\
    Hawkes.beta fitted = Hawkes.beta self.
Proof.
  intros self home_goals away_goals features Hh Ha Fh Fa fitted.
  assert (Bh : 0 < (if (0 <? length home_goals)%nat
                    then Py.max 0.01 (Py.mean home_goals * 0.05)
                    else Hawkes.lambda0_home self)).
  { destruct (0 <? length home_goals)%nat; [|exact Hh].
    pose proof (py_max_ge_l 0.01 (Py.mean home_goals * 0.05)). lra. }
  assert (Ba : 0 < (if (0 <? length away_goals)%nat
                    then Py.max 0.01 (Py.mean away_goals * 0.04)
                    else Hawkes.lambda0_away self)).
  { destruct (0 <? length away_goals)%nat; [|exact Ha].
    pose proof (py_max_ge_l 0.01 (Py.mean away_goals * 0.04)). lra. }
  unfold fitted, Hawkes.fit.
  destruct (Dict.truthy features);
    cbn [Hawkes.lambda0_home Hawkes.lambda0_away Hawkes.alpha Hawkes.beta].
  - repeat split; try reflexivity.
    + apply Qmult_lt_0_compat; [exact Bh | lra].
    + apply Qmult_lt_0_compat; [exact Ba | lra].
  - repeat split; try reflexivity; assumption.
Qed.

Lemma X5_witness :
  let features := [("home_form"%string, 0.9); ("away_form"%string, 0)] in
  let fitted := Hawkes.fit Hawkes.init [2; 0; 1] [] features in
  0 < Hawkes.lambda0_home fitted /\ 0 < Hawkes.lambda0_away fitted.
Proof.
  destruct (X5_hawkes_fit_keeps_intensities_positive
              Hawkes.init [2; 0; 1] []
              [("home_form"%string, 0.9); ("away_form"%string, 0)])
    as (H1 & H2 & _); try reflexivity.
  split; assumption.
Defined.

(** ** The Hawkes probabilities *)

(** Whatever was simulated, the probabilities are the two shares of the
    base intensities, and nothing is left for the draw. *)
Lemma hawkes_predict_shares :
  forall (draws : nat -> Q) (np_log : Q -> Q) (fuel : nat) (self : Hawkes.Model)
         (features : Dict.t Q) (match_length : Q) (s : nat)
         (r : Hawkes.Prediction) (s' : nat),
    0 <= Hawkes.lambda0_home self -> 0 <= Hawkes.lambda0_away self ->
    0 < Hawkes.lambda0_home self + Hawkes.lambda0_away self ->
    0 < match_length ->
    Hawkes.predict draws np_log fuel self features match_length s = Some (r, s') ->
    home_probability (Hawkes.outcome r)
    == Hawkes.lambda0_home self
       / (Hawkes.lambda0_home self + Hawkes.lambda0_away self) /\
    draw_probability (Hawkes.outcome r) == 0 /\
    away_probability (Hawkes.outcome r)
    == Hawkes.lambda0_away self
       / (Hawkes.lambda0_home self + Hawkes.lambda0_away self).
Proof.
  intros draws np_log fuel self features match_length s r s' Hh Ha Hsum Hm Hrun.
  apply hawkes_predict_result in Hrun. destruct Hrun as (_ & _ & _ & Hp).
  unfold Hawkes.probabilities in Hp.
  change (0 <? 100 + 100)%nat with true in Hp. cbv iota in Hp.
  set (lh := Hawkes.lambda0_home self) in *.
  set (la := Hawkes.lambda0_away self) in *.
  assert (Hti : 0 < lh * match_length + la * match_length).
  { assert (E : lh * match_length + la * match_length == (lh + la) * match_length)
      by ring.
    rewrite E. apply Qmult_lt_0_compat; assumption. }
  assert (Et : Py.Qltb 0 (lh * match_length + la * match_length) = true)
    by (apply Qltb_true; exact Hti).
  rewrite Et in Hp. cbv iota in Hp.
  set (ti := lh * match_length + la * match_length) in *.
  pose proof (Qmult_lt_0_compat _ _ Hsum Hm) as Hprod.
  assert (Ehp : lh * match_length / ti == lh / (lh + la))
    by (unfold ti; field; split; lra).
  assert (Eap : la * match_length / ti == la / (lh + la))
    by (unfold ti; field; split; lra).
  assert (Eres : 1 - lh * match_length / ti - la * match_length / ti == 0)
    by (unfold ti; field; lra).
  assert (Emax : Py.max 0 (1 - lh * match_length / ti - la * match_length / ti) = 0).
  { unfold Py.max.
    assert (F : Py.Qltb 0 (1 - lh * match_length / ti - la * match_length / ti)
                = false) by (apply Qltb_false; lra).
    now rewrite F. }
  rewrite Emax in Hp.
  assert (Etot : lh * match_length / ti + 0 + la * match_length / ti == 1) by lra.
  pose proof (normalize_total_1 _ _ _ Etot) as Hn.
  destruct (Py.normalize (lh * match_length / ti) 0 (la * match_length / ti))
    as [[h d] a].
  destruct Hp as (-> & -> & ->). destruct Hn as (N1 & N2 & N3).
  rewrite N1, N2, N3, Ehp, Eap. repeat split; reflexivity.
Qed.

(** X6: the Hawkes model never leaves anything for the draw.  With
    positive base intensities, a positive match length, a non-negative
    excitation, draws whose minus logarithm is at least some c > 0 and
    fuel that covers the match, [predict] returns, home_probability is the
    home share of the two base intensities, away_probability the away
    share and draw_probability is 0, whatever was simulated. *)
Theorem X6_hawkes_draw_probability_is_zero :
  forall (draws : nat -> Q) (np_log : Q -> Q) (fuel : nat) (self : Hawkes.Model)
         (features : Dict.t Q) (match_length c : Q) (s : nat),
    0 < c -> 0 < Hawkes.lambda0_home self -> 0 < Hawkes.lambda0_away self ->
    0 <= Hawkes.alpha self ->
    (forall k, c <= - np_log (draws k)) ->
    0 < match_length ->
    match_length
    <= inject_Z (Z.of_nat fuel)
       * (c / (Hawkes.lambda0_home self + Hawkes.alpha self * 1)) ->
    match_length
    <= inject_Z (Z.of_nat fuel)
       * (c / (Hawkes.lambda0_away self + Hawkes.alpha self * 1)) ->
    exists r s',
      Hawkes.predict draws np_log fuel self features match_length s = Some (r, s') /\
      home_probability (Hawkes.outcome r)
      == Hawkes.lambda0_home self
         / (Hawkes.lambda0_home self + Hawkes.lambda0_away self) /\
      draw_probability (Hawkes.outcome r) == 0 /\
      away_probability (Hawkes.outcome r)
      == Hawkes.lambda0_away self
         / (Hawkes.lambda0_home self + Hawkes.lambda0_away self).
Proof.
  intros draws np_log fuel self features match_length c s
         Hc Hh Ha Halpha Hdraw Hm Hfh Hfa.
  destruct (hawkes_predict_returns draws np_log fuel self features match_length
              c s Hc Hh Ha Halpha Hdraw Hfh Hfa) as (r & s' & E).
  exists r, s'. split; [exact E|].
  apply (hawkes_predict_shares draws np_log fuel self features match_length
           s r s'); try lra. exact E.
Qed.

Lemma X6_witness :
  exists r s',
    Hawkes.predict Sample.draws Sample.tangent_log 200 Hawkes.init [] 90 0%nat
    = Some (r, s') /\
    home_probability (Hawkes.outcome r)
    == Hawkes.lambda0_home Hawkes.init
       / (Hawkes.lambda0_home Hawkes.init + Hawkes.lambda0_away Hawkes.init) /\
    draw_probability (Hawkes.outcome r) == 0 /\
    away_probability (Hawkes.outcome r)
    == Hawkes.lambda0_away Hawkes.init
       / (Hawkes.lambda0_home Hawkes.init + Hawkes.lambda0_away Hawkes.init).
Proof.
  apply (X6_hawkes_draw_probability_is_zero
           Sample.draws Sample.tangent_log 200 Hawkes.init [] 90 (1 # 2) 0%nat).
  - reflexivity.
  - reflexivity.
  - reflexivity.
  - discriminate.
  - intros k. unfold Sample.draws, Sample.tangent_log.
    destruct (Nat.even k); lra.
  - reflexivity.
  - vm_compute. discriminate.
  - vm_compute. discriminate.
Defined.

(** X7: the intensity method ignores every goal that is not strictly
    before [t], and with a non-negative excitement level and a kernel that
    is never negative the intensity is never below the base intensity. *)
Theorem X7_hawkes_intensity_is_at_least_the_base :
  forall (np_exp : Q -> Q) (self : Hawkes.Model) (t : Q) (goal_times : list Q)
         (base_intensity : Q),
    HawkesIntensity.intensity np_exp self t goal_times base_intensity
    = HawkesIntensity.intensity np_exp self t
        (filter (fun g => Py.Qltb g t) goal_times) base_intensity /\
    (0 <= Hawkes.alpha self -> (forall x, 0 <= np_exp x) ->
     base_intensity
     <= HawkesIntensity.intensity np_exp self t goal_times base_intensity).
Proof.
  intros np_exp self t goal_times. unfold HawkesIntensity.intensity.
  induction goal_times as [|g gs IH]; intros base.
  - split; [reflexivity | intros _ _; cbn; lra].
  - cbn [fold_left filter].
    destruct (Py.Qltb g t) eqn:E.
    + cbn [fold_left]. rewrite E.
      destruct (IH (base + Hawkes.alpha self
                           * np_exp (- Hawkes.beta self * (t - g)))) as [I1 I2].
      split; [exact I1|].
      intros Halpha Hexp. specialize (I2 Halpha Hexp).
      pose proof (Qmult_le_0_compat _ _ Halpha
                    (Hexp (- Hawkes.beta self * (t - g)))). lra.
    + apply IH.
Qed.

Lemma hyperbolic_exp_nonneg (x : Q) : 0 <= Sample2.hyperbolic_exp x.
Proof.
  unfold Sample2.hyperbolic_exp, Qdiv. pose proof (Qabs_nonneg x).
  apply Qmult_le_0_compat; [lra|]. apply Qinv_le_0_compat. lra.
Qed.

Lemma X7_witness :
  (0.05 : Q)
  <= HawkesIntensity.intensity Sample2.hyperbolic_exp Hawkes.init 30
                               [10; 45; 20] 0.05.
Proof.
  apply (proj2 (X7_hawkes_intensity_is_at_least_the_base
                  Sample2.hyperbolic_exp Hawkes.init 30 [10; 45; 20] 0.05)).
  - vm_compute. discriminate.
  - exact hyperbolic_exp_nonneg.
Defined.

(** ** The form model's states *)

(** X8: the form state never gets worse when the form rating rises: a
    higher rating gives the same or a lower state index (0 good, 1 medium,
    2 poor); the thresholds themselves, 0.65 and 0.35, fall on the lower
    side (medium and poor). *)
Theorem X8_form_state_is_antitone :
  forall form1 form2 : Q,
    form1 <= form2 ->
    (HMM._get_state_from_form form2 <= HMM._get_state_from_form form1)%nat /\
    HMM._get_state_from_form 0.65 = 1%nat /\
    HMM._get_state_from_form 0.35 = 2%nat.
Proof.
  intros form1 form2 Hle. split; [|split; reflexivity].
  unfold HMM._get_state_from_form.
  destruct (Qltb_spec 0.65 form1), (Qltb_spec 0.65 form2); try lia; try lra;
    destruct (Qltb_spec 0.35 form1), (Qltb_spec 0.35 form2); try lia; lra.
Qed.

Lemma X8_witness :
  (HMM._get_state_from_form 0.7 <= HMM._get_state_from_form 0.5)%nat.
Proof.
  apply (X8_form_state_is_antitone 0.5 0.7). vm_compute. discriminate.
Defined.

(** X9: what the form model predicts depends on the feature map only
    through the two form states, and not on the fitted model at all: two
    models, whatever results they were fitted on, give the same prediction
    for feature maps whose home and away ratings fall in the same states.
    Its scoreline is one of 2-2, 2-1, 1-2 and 1-1: medium and poor form
    both round to one goal. *)
Theorem X9_form_prediction_depends_on_the_states_only :
  forall (self other : HMM.Model) (results : list Q) (features features' : Dict.t Q),
    HMM._get_state_from_form (Dict.get_or features "home_form" 0.5)
    = HMM._get_state_from_form (Dict.get_or features' "home_form" 0.5) ->
    HMM._get_state_from_form (Dict.get_or features "away_form" 0.5)
    = HMM._get_state_from_form (Dict.get_or features' "away_form" 0.5) ->
    HMM.predict (HMM.fit self results) features = HMM.predict other features' /\
    In (predicted_score (HMM.outcome (HMM.predict self features)))
       [ "2-2"; "2-1"; "1-2"; "1-1" ]%string.
Proof.
  intros self other results features features' Hh Ha.
  assert (Hf : forall (f : Dict.t Q) (key : string),
             (if Dict.truthy f then Dict.get_or f key 0.5 else 0.5)
             = Dict.get_or f key 0.5).
  { intros f key. destruct f; reflexivity. }
  split.
  - unfold HMM.predict. rewrite !Hf, Hh, Ha. reflexivity.
  - unfold HMM.predict. rewrite !Hf.
    destruct (state_from_form_cases (Dict.get_or features "home_form" 0.5))
      as [-> | [-> | ->]];
      destruct (state_from_form_cases (Dict.get_or features "away_form" 0.5))
        as [-> | [-> | ->]];
      vm_compute; tauto.
Qed.

Lemma X9_witness :
  HMM.predict (HMM.fit HMM.init [1; 1; 1; 1; 1; 1])
              [("home_form"%string, 0.7); ("away_form"%string, 0.1)]
  = HMM.predict HMM.init
                [("away_form"%string, 0.3); ("home_form"%string, 0.9)].
Proof.
  apply (X9_form_prediction_depends_on_the_states_only
           HMM.init HMM.init [1; 1; 1; 1; 1; 1]
           [("home_form"%string, 0.7); ("away_form"%string, 0.1)]
           [("away_form"%string, 0.3); ("home_form"%string, 0.9)]);
    reflexivity.
Defined.

(** ** Dictionaries *)

Lemma dict_get_set_same {V : Type} (d : Dict.t V) (k : string) (v : V) :
  Dict.get (Dict.set d k v) k = Some v.
Proof.
  induction d as [|[k' v'] d IH]; cbn [Dict.set Dict.get].
  - now rewrite String.eqb_refl.
  - destruct (String.eqb k' k) eqn:E; cbn [Dict.get].
    + now rewrite String.eqb_refl.
    + rewrite E. exact IH.
Qed.

Lemma dict_get_set_other {V : Type} (d : Dict.t V) (k k' : string) (v : V) :
  k <> k' -> Dict.get (Dict.set d k v) k' = Dict.get d k'.
Proof.
  intros Hne. induction d as [|[k0 v0] d IH]; cbn [Dict.set Dict.get].
  - destruct (String.eqb_spec k k'); [contradiction | reflexivity].
  - destruct (String.eqb_spec k0 k) as [->|Hk0]; cbn [Dict.get].
    + destruct (String.eqb_spec k k'); [contradiction | reflexivity].
    + destruct (String.eqb k0 k'); [reflexivity | exact IH].
Qed.

Lemma dict_in_set {V : Type} (d : Dict.t V) (k k' : string) (v v' : V) :
  In (k', v') (Dict.set d k v) -> (k' = k /\ v' = v) \/ In (k', v') d.
Proof.
  induction d as [|[k0 v0] d IH]; cbn [Dict.set].
  - intros [E | []]. injection E as <- <-. left. split; reflexivity.
  - destruct (String.eqb k0 k).
    + intros [E | H]; [injection E as <- <-; left; split; reflexivity|].
      right. right. exact H.
    + intros [E | H]; [right; left; exact E|].
      destruct (IH H) as [Hs | Hin]; [left; exact Hs | right; right; exact Hin].
Qed.

Lemma dict_get_in {V : Type} (d : Dict.t V) (k : string) (v : V) :
  Dict.get d k = Some v -> In (k, v) d.
Proof.
  induction d as [|[k0 v0] d IH]; cbn [Dict.get]; [discriminate|].
  destruct (String.eqb_spec k0 k) as [->|Hne].
  - intros E. injection E as <-. left. reflexivity.
  - intros H. right. exact (IH H).
Qed.

(** The assignment loop [for k, v in items: d[k] = f(v)]. *)
Lemma dict_assign_loop {V : Type} (f : V -> V) (items : list (string * V)) :
  forall (d : Dict.t V) (k : string),
    NoDup (map fst items) ->
    (forall v, In (k, v) items ->
       Dict.get (fold_left (fun w '(m, p) => Dict.set w m (f p)) items d) k
       = Some (f v)) /\
    (~ In k (map fst items) ->
     Dict.get (fold_left (fun w '(m, p) => Dict.set w m (f p)) items d) k
     = Dict.get d k).
Proof.
  induction items as [|[m p] items IH]; intros d k Hnd.
  - split; [intros v [] | intros _; reflexivity].
  - cbn [map fst] in Hnd. inversion Hnd as [|? ? Hnotin Hnd']; subst.
    cbn [fold_left].
    destruct (IH (Dict.set d m (f p)) k Hnd') as [IH1 IH2].
    split.
    + intros v [E | Hin].
      * injection E as -> ->. rewrite IH2 by exact Hnotin.
        apply dict_get_set_same.
      * exact (IH1 v Hin).
    + intros Hk. cbn [map fst In] in Hk.
      rewrite IH2 by tauto.
      apply dict_get_set_other. tauto.
Qed.

(** ** The weights of the combiner *)

Lemma sum_of_shares (c : Q) (items : list (string * Q)) :
  Sums.sum_over (fun '(_, perf) => perf / c) items
  == Sums.sum_over (fun x => x) (Dict.values items) / c.
Proof.
  unfold Dict.values, Qdiv.
  induction items as [|[m p] l IH]; [cbn; ring|].
  cbn [map snd]. rewrite !sum_over_cons, IH. ring.
Qed.

(** X10: [fit_weights] leaves the weights alone when the performances do
    not add up to a positive number; otherwise (distinct model names) each
    listed model gets its performance divided by the total, and every
    weight not listed keeps its value; the shares handed out add up
    to 1. *)
Theorem X10_fit_weights_normalises_the_listed_models :
  forall (self : MixtureOfExperts.Model) (performances : Dict.t Q),
    let total := Py.sum (Dict.values performances) in
    let fitted := MixtureOfExperts.fit_weights self performances in
    (total <= 0 ->
     MixtureOfExperts.weights fitted = MixtureOfExperts.weights self) /\
    (0 < total -> NoDup (map fst performances) ->
     (forall model perf, In (model, perf) performances ->
        Dict.get (MixtureOfExperts.weights fitted) model = Some (perf / total)) /\
     (forall model, ~ In model (map fst performances) ->
        Dict.get (MixtureOfExperts.weights fitted) model
        = Dict.get (MixtureOfExperts.weights self) model) /\
     Sums.sum_over (fun '(_, perf) => perf / total) performances == 1).
Proof.
  intros self performances total fitted.
  unfold fitted, MixtureOfExperts.fit_weights. fold total.
  cbn [MixtureOfExperts.weights]. split.
  - intros Hle. apply Qltb_false in Hle. now rewrite Hle.
  - intros Hpos Hnd.
    assert (Ht : Py.Qltb 0 total = true) by (apply Qltb_true; exact Hpos).
    rewrite Ht. unfold Dict.items.
    split; [|split].
    + intros model perf Hin.
      exact (proj1 (dict_assign_loop (fun p => p / total) performances
                      (MixtureOfExperts.weights self) model Hnd) perf Hin).
    + intros model Hnotin.
      exact (proj2 (dict_assign_loop (fun p => p / total) performances
                      (MixtureOfExperts.weights self) model Hnd) Hnotin).
    + rewrite (sum_of_shares total performances), <- py_sum_sum_over.
      fold total. field. lra.
Qed.

(** X10, witnessed on the performances the trainer reports (0.75, 0.76,
    0.72, 0.71): the Poisson weight becomes 0.75 / 2.94. *)
Lemma X10_witness :
  let fitted :=
    MixtureOfExperts.fit_weights MixtureOfExperts.init Sample2.trainer_metrics in
  Dict.get (MixtureOfExperts.weights fitted) "poisson"
  = Some (0.75 / Py.sum (Dict.values Sample2.trainer_metrics)) /\
  Py.sum (Dict.values Sample2.trainer_metrics) == 2.94.
Proof.
  destruct (X10_fit_weights_normalises_the_listed_models
              MixtureOfExperts.init Sample2.trainer_metrics) as [_ H].
  destruct H as (Hlisted & _ & _).
  - reflexivity.
  - repeat constructor; cbn; intuition discriminate.
  - split; [|reflexivity].
    apply (Hlisted "poisson"%string 0.75). left. reflexivity.
Defined.

(** ** Rescaling the weights *)




(** ** Combining real predictions *)

Lemma weighted_sums_loop_monotone
      (predictions : Dict.t MixtureOfExperts.PredDict) (ws : list (string * Q)) :
  (forall name w, In (name, w) ws -> 0 <= w) ->
  Spec.probabilities_nonneg predictions ->
  forall h d a,
    let '(x, y, z) :=
      fold_left
        (fun '(weighted_home, weighted_draw, weighted_away) '(model_type, weight) =>
           match Dict.get predictions model_type with
           | Some pred =>
               (weighted_home
                + weight * MixtureOfExperts.or_default
                             (MixtureOfExperts.get_home_probability pred) 0,
                weighted_draw
                + weight * MixtureOfExperts.or_default
                             (MixtureOfExperts.get_draw_probability pred) 0,
                weighted_away
                + weight * MixtureOfExperts.or_default
                             (MixtureOfExperts.get_away_probability pred) 0)
           | None => (weighted_home, weighted_draw, weighted_away)
           end)
        ws (h, d, a) in
    h <= x /\ d <= y /\ a <= z.
Proof.
  intros Hw Hp. induction ws as [|[name w] ws IH]; intros h d a.
  - cbn. repeat split; lra.
  - cbn [fold_left].
    assert (Hw' : forall n v, In (n, v) ws -> 0 <= v)
      by (intros n v Hin; apply (Hw n v); right; exact Hin).
    assert (H0 : 0 <= w) by (apply (Hw name w); left; reflexivity).
    destruct (Dict.get predictions name) as [pred|] eqn:E.
    + destruct (Hp name pred E) as (P1 & P2 & P3).
      apply or_default_nonneg in P1, P2, P3.
      pose proof (Qmult_le_0_compat _ _ H0 P1).
      pose proof (Qmult_le_0_compat _ _ H0 P2).
      pose proof (Qmult_le_0_compat _ _ H0 P3).
      specialize (IH Hw' (h + w * MixtureOfExperts.or_default
                                    (MixtureOfExperts.get_home_probability pred) 0)
                     (d + w * MixtureOfExperts.or_default
                                (MixtureOfExperts.get_draw_probability pred) 0)
                     (a + w * MixtureOfExperts.or_default
                                (MixtureOfExperts.get_away_probability pred) 0)).
      destruct (fold_left _ ws _) as [[x y] z].
      destruct IH as (I1 & I2 & I3). repeat split; lra.
    + apply IH. exact Hw'.
Qed.

(** X12: the combiner returns a distribution as soon as one model that
    carries a positive weight is present with probabilities of positive
    total, all weights and all input probabilities being non-negative: in
    particular for the initial weights and any map that holds a
    distribution under one of the four names. *)
Theorem X12_combiner_needs_one_weighted_prediction :
  forall (self : MixtureOfExperts.Model)
         (predictions : Dict.t MixtureOfExperts.PredDict)
         (name : string) (w : Q) (pred : MixtureOfExperts.PredDict),
    Spec.weights_nonneg self -> Spec.probabilities_nonneg predictions ->
    In (name, w) (MixtureOfExperts.weights self) -> 0 < w ->
    Dict.get predictions name = Some pred ->
    0 < MixtureOfExperts.or_default (MixtureOfExperts.get_home_probability pred) 0
        + MixtureOfExperts.or_default (MixtureOfExperts.get_draw_probability pred) 0
        + MixtureOfExperts.or_default (MixtureOfExperts.get_away_probability pred) 0 ->
    Spec.is_distribution
      (MixtureOfExperts.outcome (MixtureOfExperts.predict self predictions)).
Proof.
  intros self predictions name w pred Hw Hp Hin Hpos Hget Htot.
  apply moe_predict_distribution; [exact Hw | exact Hp |].
  unfold MixtureOfExperts.weighted_sums, Dict.items.
  unfold Spec.weights_nonneg in Hw.
  revert Hin Hw. generalize (MixtureOfExperts.weights self) as ws.
  assert (Hgen : forall ws h d a,
             0 <= h -> 0 <= d -> 0 <= a ->
             In (name, w) ws ->
             (forall n v, In (n, v) ws -> 0 <= v) ->
             0 < Spec.total
                   (fold_left
                      (fun '(weighted_home, weighted_draw, weighted_away)
                           '(model_type, weight) =>
                         match Dict.get predictions model_type with
                         | Some pred0 =>
                             (weighted_home
                              + weight * MixtureOfExperts.or_default
                                           (MixtureOfExperts.get_home_probability pred0) 0,
                              weighted_draw
                              + weight * MixtureOfExperts.or_default
                                           (MixtureOfExperts.get_draw_probability pred0) 0,
                              weighted_away
                              + weight * MixtureOfExperts.or_default
                                           (MixtureOfExperts.get_away_probability pred0) 0)
                         | None => (weighted_home, weighted_draw, weighted_away)
                         end)
                      ws (h, d, a))).
  { induction ws as [|[n v] ws IH]; intros h d a Hh Hd Ha Hin Hws; [destruct Hin|].
    cbn [fold_left].
    assert (Hws' : forall n0 v0, In (n0, v0) ws -> 0 <= v0)
      by (intros n0 v0 H; apply (Hws n0 v0); right; exact H).
    assert (Hv : 0 <= v) by (apply (Hws n v); left; reflexivity).
    destruct Hin as [E | Hin].
    - injection E as -> ->. rewrite Hget.
      destruct (Hp name pred Hget) as (P1 & P2 & P3).
      apply or_default_nonneg in P1, P2, P3.
      pose proof (weighted_sums_loop_monotone predictions ws Hws' Hp
                    (h + w * MixtureOfExperts.or_default
                               (MixtureOfExperts.get_home_probability pred) 0)
                    (d + w * MixtureOfExperts.or_default
                               (MixtureOfExperts.get_draw_probability pred) 0)
                    (a + w * MixtureOfExperts.or_default
                               (MixtureOfExperts.get_away_probability pred) 0)) as Hm.
      destruct (fold_left _ ws _) as [[x y] z].
      destruct Hm as (M1 & M2 & M3). cbn [Spec.total].
      pose proof (Qmult_lt_0_compat _ _ Hpos Htot) as Hprod.
      lra.
    - destruct (Dict.get predictions n) as [pred0|] eqn:E0.
      + destruct (Hp n pred0 E0) as (P1 & P2 & P3).
        apply or_default_nonneg in P1, P2, P3.
        pose proof (Qmult_le_0_compat _ _ Hv P1).
        pose proof (Qmult_le_0_compat _ _ Hv P2).
        pose proof (Qmult_le_0_compat _ _ Hv P3).
        apply IH; try assumption; lra.
      + apply IH; assumption. }
  intros ws Hin Hws. apply Hgen; try lra; assumption.
Qed.

Lemma X12_witness :
  Spec.is_distribution
    (MixtureOfExperts.outcome
       (MixtureOfExperts.predict MixtureOfExperts.init
          [("hawkes"%string, MixtureOfExperts.of_outcome Sample.same_outcome)])).
Proof.
  apply (X12_combiner_needs_one_weighted_prediction
           MixtureOfExperts.init
           [("hawkes"%string, MixtureOfExperts.of_outcome Sample.same_outcome)]
           "hawkes"%string 0.25 (MixtureOfExperts.of_outcome Sample.same_outcome)).
  - exact init_weights_nonneg.
  - intros name pred. cbn [Dict.get].
    destruct (String.eqb "hawkes" name); [|discriminate].
    intros E. injection E as <-. cbn. repeat split; discriminate.
  - cbn. tauto.
  - reflexivity.
  - reflexivity.
  - reflexivity.
Defined.

(** ** The cache *)

Lemma string_eqb_sym (a b : string) : String.eqb a b = String.eqb b a.
Proof.
  destruct (String.eqb_spec a b) as [->|N].
  - symmetry. apply String.eqb_refl.
  - symmetry. apply String.eqb_neq. congruence.
Qed.

Lemma find_app_none {A : Type} (f : A -> bool) (l l' : list A) :
  find f l = None -> find f (l ++ l') = find f l'.
Proof.
  induction l as [|x l IH]; cbn; [reflexivity|].
  destruct (f x); [discriminate | exact IH].
Qed.

Lemma find_app_some {A : Type} (f : A -> bool) (l l' : list A) (x : A) :
  find f l = Some x -> find f (l ++ l') = Some x.
Proof.
  induction l as [|y l IH]; cbn; [discriminate|].
  destruct (f y); [trivial | exact IH].
Qed.

Lemma find_filter_none {A : Type} (f g : A -> bool) (l : list A) :
  (forall x, g x = true -> f x = false) -> find f (filter g l) = None.
Proof.
  intros H. induction l as [|x l IH]; cbn; [reflexivity|].
  destruct (g x) eqn:G; [cbn; rewrite (H x G)|]; exact IH.
Qed.

Lemma find_none_in {A : Type} (f : A -> bool) (l : list A) :
  (forall x, In x l -> f x = false) -> find f l = None.
Proof.
  induction l as [|x l IH]; intros H; cbn; [reflexivity|].
  rewrite (H x (or_introl eq_refl)). apply IH. intros y Hy. apply H. right. exact Hy.
Qed.

Lemma find_filter_same {A : Type} (f g : A -> bool) (l : list A) :
  (forall x, f x = true -> g x = true) -> find f (filter g l) = find f l.
Proof.
  intros H. induction l as [|x l IH]; cbn; [reflexivity|].
  destruct (g x) eqn:G; cbn.
  - destruct (f x); [reflexivity | exact IH].
  - destruct (f x) eqn:F; [rewrite (H x F) in G; discriminate | exact IH].
Qed.

Lemma compare_common_prefix (p s1 s2 : string) :
  String.compare (p ++ s1) (p ++ s2) = String.compare s1 s2.
Proof.
  induction p as [|c p IH]; cbn; [reflexivity|].
  assert (E : Ascii.compare c c = Eq).
  { unfold Ascii.compare. apply N.compare_refl. }
  rewrite E. exact IH.
Qed.

Lemma space_before_T (d c1 c2 : string) :
  String.ltb (d ++ " " ++ c1) (d ++ "T" ++ c2) = true.
Proof.
  unfold String.ltb. rewrite compare_common_prefix. reflexivity.
Qed.

(** X13: a value stored without a time to live (none given, zero or
    negative) is read back at every later moment, whatever the table held
    under that key before, provided the value survives [json.dumps]
    followed by [json.loads]; entries under other keys are read as
    before. *)
Theorem X13_cache_round_trip_without_expiry :
  forall (V : Type) (json_dumps : V -> option string)
         (json_loads : string -> option V)
         (table : Cache.Table) (key : string) (value : V) (text : string)
         (ttl : option Z) (expiry now : Cache.Moment),
    json_dumps value = Some text -> json_loads text = Some value ->
    (forall t, ttl = Some t -> (t <= 0)%Z) ->
    let '(ok, table') := Cache.set_cache V json_dumps table key value ttl expiry in
    ok = true /\
    Cache.get_cache V json_loads table' key now = Some value /\
    (forall other, other <> key ->
       Cache.get_cache V json_loads table' other now
       = Cache.get_cache V json_loads table other now).
Proof.
  intros V json_dumps json_loads table key value text ttl expiry now Hd Hl Httl.
  unfold Cache.set_cache. rewrite Hd.
  assert (Hexp : match ttl with
                 | Some t => if negb (t =? 0)%Z && (0 <? t)%Z
                             then Some (Cache.isoformat expiry) else None
                 | None => None
                 end = None).
  { destruct ttl as [t|]; [|reflexivity].
    specialize (Httl t eq_refl).
    destruct (Z.ltb_spec 0 t); [lia|]. rewrite andb_false_r. reflexivity. }
  rewrite Hexp. split; [reflexivity|]. split.
  - unfold Cache.get_cache, Cache.insert_or_replace. cbn [Cache.cache_key].
    rewrite find_app_none.
    + cbn. rewrite String.eqb_refl. cbn. exact Hl.
    + apply find_filter_none. intros r Hr.
      apply negb_true_iff in Hr. rewrite Hr. reflexivity.
  - intros other Hneq.
    unfold Cache.get_cache, Cache.insert_or_replace. cbn [Cache.cache_key].
    assert (Hk : String.eqb key other = false)
      by (apply String.eqb_neq; congruence).
    set (f := fun r => String.eqb (Cache.cache_key r) other && Cache.live now r).
    set (g := fun r => negb (String.eqb (Cache.cache_key r) key)).
    assert (Hfg : forall x, f x = true -> g x = true).
    { intros x Hx. unfold f, g in *. apply andb_true_iff in Hx as [Hx _].
      apply String.eqb_eq in Hx. rewrite Hx, string_eqb_sym, Hk. reflexivity. }
    destruct (find f table) as [row|] eqn:E.
    + rewrite (find_app_some f _ _ row); [reflexivity|].
      rewrite (find_filter_same f g table Hfg). exact E.
    + rewrite find_app_none.
      * cbn. unfold f at 1. cbn. rewrite Hk. reflexivity.
      * rewrite (find_filter_same f g table Hfg). exact E.
Qed.

Lemma X13_witness :
  Cache.get_cache string Sample2.text_loads
    (snd (Cache.set_cache string Sample2.text_dumps
            [Cache.mkRow "h2h_1_2_10"%string "null"%string None None]
            "h2h_1_2_10"%string "{}"%string (Some 0%Z) Sample2.morning))
    "h2h_1_2_10"%string Sample2.years_later
  = Some "{}"%string.
Proof.
  pose proof (X13_cache_round_trip_without_expiry
                string Sample2.text_dumps Sample2.text_loads
                [Cache.mkRow "h2h_1_2_10"%string "null"%string None None]
                "h2h_1_2_10"%string "{}"%string "{}"%string (Some 0%Z)
                Sample2.morning Sample2.years_later
                eq_refl eq_refl) as H.
  assert (Httl : forall t, Some 0%Z = Some t -> (t <= 0)%Z)
    by (intros t E; injection E as <-; lia).
  specialize (H Httl).
  destruct (Cache.set_cache string Sample2.text_dumps _ _ _ _ _) as [ok table'].
  destruct H as (_ & H & _). exact H.
Defined.

(** X14: an entry stored with a positive time to live is still returned,
    and is not removed by the clean-up, at every moment whose date text
    equals the date text of its expiry, whatever the two times of day:
    the expiry is written with a T after the date, SQLite's clock text has
    a space there, and the two are compared as texts. *)
Theorem X14_cache_entry_outlives_its_ttl_on_the_expiry_date :
  forall (V : Type) (json_dumps : V -> option string)
         (json_loads : string -> option V)
         (table : Cache.Table) (key : string) (value : V) (text : string)
         (ttl : Z) (expiry now : Cache.Moment),
    json_dumps value = Some text -> json_loads text = Some value ->
    (0 < ttl)%Z ->
    Cache.date now = Cache.date expiry ->
    let table' :=
      snd (Cache.set_cache V json_dumps table key value (Some ttl) expiry) in
    Cache.get_cache V json_loads table' key now = Some value /\
    Cache.get_cache V json_loads (Cache.clean_expired_cache table' now) key now
    = Some value.
Proof.
  intros V json_dumps json_loads table key value text ttl expiry now
         Hd Hl Httl Hdate table'.
  unfold table', Cache.set_cache. rewrite Hd.
  destruct (Z.ltb_spec 0 ttl); [|lia].
  destruct (Z.eqb_spec ttl 0); [lia|]. cbn [negb andb snd].
  set (row := Cache.mkRow key text (Some ttl) (Some (Cache.isoformat expiry))).
  assert (Hlive : Cache.live now row = true).
  { unfold Cache.live, row. cbn [Cache.expires_at].
    unfold Cache.sql_datetime, Cache.isoformat. rewrite Hdate.
    apply space_before_T. }
  assert (Hkeep : String.ltb (Cache.isoformat expiry) (Cache.sql_datetime now)
                  = false).
  { unfold Cache.sql_datetime, Cache.isoformat, String.ltb. rewrite Hdate.
    rewrite compare_common_prefix. reflexivity. }
  assert (Hnone : find (fun r => String.eqb (Cache.cache_key r) key
                                 && Cache.live now r)
                       (filter (fun r => negb (String.eqb (Cache.cache_key r)
                                                          (Cache.cache_key row)))
                               table) = None).
  { apply find_filter_none. intros r Hr. cbn [Cache.cache_key row] in Hr.
    apply negb_true_iff in Hr. rewrite Hr. reflexivity. }
  split.
  - unfold Cache.get_cache, Cache.insert_or_replace.
    rewrite find_app_none by exact Hnone.
    cbn [find]. rewrite Hlive. cbn [Cache.cache_key row].
    rewrite String.eqb_refl. cbn. exact Hl.
  - unfold Cache.get_cache, Cache.clean_expired_cache, Cache.insert_or_replace.
    rewrite filter_app. rewrite find_app_none.
    + cbn [filter Cache.expires_at row]. rewrite Hkeep. cbn [negb find].
      fold row. rewrite Hlive. cbn [Cache.cache_key row].
      rewrite String.eqb_refl. cbn. exact Hl.
    + apply find_none_in. intros r Hr.
      apply filter_In in Hr as [Hr _]. apply filter_In in Hr as [_ Hr].
      cbn [Cache.cache_key row] in Hr.
      apply negb_true_iff in Hr. rewrite Hr. reflexivity.
Qed.

Lemma X14_witness :
  Cache.get_cache string Sample2.text_loads
    (snd (Cache.set_cache string Sample2.text_dumps []
            "team_news_Arsenal"%string "[]"%string (Some 60%Z) Sample2.morning))
    "team_news_Arsenal"%string Sample2.midnight
  = Some "[]"%string.
Proof.
  exact (proj1 (X14_cache_entry_outlives_its_ttl_on_the_expiry_date
                  string Sample2.text_dumps Sample2.text_loads []
                  "team_news_Arsenal"%string "[]"%string "[]"%string 60%Z
                  Sample2.morning Sample2.midnight
                  eq_refl eq_refl eq_refl eq_refl)).
Defined.


(** ** The feature map and the models *)

Lemma build_features_forms (sentiment : string -> Q)
      (home_stats away_stats : option Pipeline.TeamStats)
      (home_name away_name : string) (use_news : bool) :
  let features :=
    Pipeline._build_features sentiment home_stats away_stats
                             home_name away_name use_news in
  Dict.get features "home_form"
  = Some (Pipeline.stat home_stats Pipeline.form_rating 0.5) /\
  Dict.get features "away_form"
  = Some (Pipeline.stat away_stats Pipeline.form_rating 0.5).
Proof.
  unfold Pipeline._build_features.
  destruct use_news; split; reflexivity.
Qed.

(** X15: the news sentiment never reaches a model.  Two feature maps
    built for the same team statistics, with any two sentiment analyses
    and any two values of [use_news], give the same fitted models and the
    same predictions of the Poisson, negative-binomial and form models and
    the same fitted Hawkes model (whose [predict] takes no feature at
    all). *)
Theorem X15_news_sentiment_never_reaches_a_model :
  forall (sentiment1 sentiment2 : string -> Q)
         (home_stats away_stats : option Pipeline.TeamStats)
         (home_name away_name : string) (use_news1 use_news2 : bool)
         (poisson_pmf : nat -> Q -> Q) (nbinom_pmf : nat -> Q -> Q -> Q)
         (np_mean np_var : list Q -> Q)
         (poisson : Poisson.Model) (nb : NegativeBinomial.Model)
         (hawkes : Hawkes.Model) (hmm : HMM.Model)
         (home_goals away_goals : list Q),
    let features1 :=
      Pipeline._build_features sentiment1 home_stats away_stats
                               home_name away_name use_news1 in
    let features2 :=
      Pipeline._build_features sentiment2 home_stats away_stats
                               home_name away_name use_news2 in
    Poisson.predict poisson_pmf
                    (Poisson.fit poisson home_goals away_goals features1) features1
    = Poisson.predict poisson_pmf
                      (Poisson.fit poisson home_goals away_goals features2) features2
    /\
    NegativeBinomial.predict nbinom_pmf
      (NegativeBinomial.fit np_mean np_var nb home_goals away_goals features1)
      features1
    = NegativeBinomial.predict nbinom_pmf
        (NegativeBinomial.fit np_mean np_var nb home_goals away_goals features2)
        features2
    /\
    Hawkes.fit hawkes home_goals away_goals features1
    = Hawkes.fit hawkes home_goals away_goals features2
    /\
    HMM.predict hmm features1 = HMM.predict hmm features2.
Proof.
  intros sentiment1 sentiment2 home_stats away_stats home_name away_name
         use_news1 use_news2 poisson_pmf nbinom_pmf np_mean np_var
         poisson nb hawkes hmm home_goals away_goals features1 features2.
  destruct (build_features_strengths sentiment1 home_stats away_stats
              home_name away_name use_news1) as (T1 & A1 & B1 & C1 & D1).
  destruct (build_features_strengths sentiment2 home_stats away_stats
              home_name away_name use_news2) as (T2 & A2 & B2 & C2 & D2).
  destruct (build_features_forms sentiment1 home_stats away_stats
              home_name away_name use_news1) as (F1 & G1).
  destruct (build_features_forms sentiment2 home_stats away_stats
              home_name away_name use_news2) as (F2 & G2).
  fold features1 in T1, A1, B1, C1, D1, F1, G1.
  fold features2 in T2, A2, B2, C2, D2, F2, G2.
  clearbody features1 features2.
  unfold Poisson.predict, Poisson.masses, Poisson.adjusted_rates, Poisson.fit,
    NegativeBinomial.predict, NegativeBinomial.masses,
    NegativeBinomial.adjusted_means, NegativeBinomial.fit,
    Hawkes.fit, HMM.predict, Dict.get_or.
  rewrite T1, T2, A1, A2, B1, B2, C1, C2, D1, D2, F1, F2, G1, G2.
  repeat split; reflexivity.
Qed.

(** ** The histories read from the matches table *)

Lemma filter_nil_in {A : Type} (f : A -> bool) (l : list A) :
  (forall x, In x l -> f x = false) -> filter f l = [].
Proof.
  induction l as [|x l IH]; intros H; cbn; [reflexivity|].
  rewrite (H x (or_introl eq_refl)). apply IH.
  intros y Hy. apply H. right. exact Hy.
Qed.

(** X16: for a home side that has no played home match and an away side
    that has no played away match in the league, the history is the
    fallback [1.5] / [1.2]; on it the Poisson fit starts from the rates 1.5
    and 1.2 whatever the model held, while the negative-binomial fit, which
    needs two entries, starts from the means and dispersions the model
    object already holds: on a feature map both multiply them by the
    strength factors. *)
Theorem X16_fallback_history_reaches_poisson_but_not_negative_binomial :
  forall (matches : list History.Match) (home_id away_id league : Z)
         (num_matches : nat) (np_mean np_var : list Q -> Q)
         (poisson : Poisson.Model) (nb : NegativeBinomial.Model)
         (features : Dict.t Q),
    (forall m, In m matches ->
       History.home_team_id m = home_id -> History.league_id m = league ->
       History.home_score m = None) ->
    (forall m, In m matches ->
       History.away_team_id m = away_id -> History.league_id m = league ->
       History.away_score m = None) ->
    Dict.truthy features = true ->
    let '(home_goals, away_goals) :=
      History._get_historical_goals matches home_id away_id league num_matches in
    let home_factor := Dict.get_or features "home_attack_strength" 1
                       * Dict.get_or features "away_defense_strength" 1 in
    let away_factor := Dict.get_or features "away_attack_strength" 1
                       * Dict.get_or features "home_defense_strength" 1 in
    let fitted := Poisson.fit poisson home_goals away_goals features in
    let fitted_nb :=
      NegativeBinomial.fit np_mean np_var nb home_goals away_goals features in
    home_goals = [1.5] /\ away_goals = [1.2] /\
    Poisson.home_lambda fitted == 1.5 * home_factor /\
    Poisson.away_lambda fitted == 1.2 * away_factor /\
    NegativeBinomial.home_mu fitted_nb = NegativeBinomial.home_mu nb * home_factor /\
    NegativeBinomial.away_mu fitted_nb = NegativeBinomial.away_mu nb * away_factor /\
    NegativeBinomial.home_alpha fitted_nb = NegativeBinomial.home_alpha nb /\
    NegativeBinomial.away_alpha fitted_nb = NegativeBinomial.away_alpha nb.
Proof.
  intros matches home_id away_id league num_matches np_mean np_var
         poisson nb features Hhome Haway Htruthy.
  unfold History._get_historical_goals.
  rewrite (filter_nil_in _ matches).
  2:{ intros m Hin.
      destruct (Z.eqb_spec (History.home_team_id m) home_id) as [E1|]; [|reflexivity].
      destruct (Z.eqb_spec (History.league_id m) league) as [E2|]; [|reflexivity].
      rewrite (Hhome m Hin E1 E2). reflexivity. }
  rewrite (filter_nil_in _ matches).
  2:{ intros m Hin.
      destruct (Z.eqb_spec (History.away_team_id m) away_id) as [E1|]; [|reflexivity].
      destruct (Z.eqb_spec (History.league_id m) league) as [E2|]; [|reflexivity].
      rewrite (Haway m Hin E1 E2). reflexivity. }
  rewrite firstn_nil. cbn [map].
  cbv zeta.
  unfold Poisson.fit, NegativeBinomial.fit, NegativeBinomial.fit_side.
  rewrite Htruthy. cbn [length Nat.ltb Nat.leb].
  cbn [Poisson.home_lambda Poisson.away_lambda NegativeBinomial.home_mu
       NegativeBinomial.away_mu NegativeBinomial.home_alpha
       NegativeBinomial.away_alpha].
  repeat split; reflexivity.
Qed.

Lemma X16_witness :
  let features := Pipeline._build_features Sample.neutral_sentiment None None
                                           "A"%string "B"%string false in
  History._get_historical_goals [] 1 2 39 20 = ([1.5], [1.2]) /\
  NegativeBinomial.home_alpha
    (NegativeBinomial.fit Sample.numpy_mean Sample.numpy_var
                          (NegativeBinomial.mkModel 3 2 3 2 10) [1.5] [1.2] features)
  = 2.
Proof.
  pose proof (X16_fallback_history_reaches_poisson_but_not_negative_binomial
                [] 1 2 39 20 Sample.numpy_mean Sample.numpy_var
                Poisson.init (NegativeBinomial.mkModel 3 2 3 2 10)
                (Pipeline._build_features Sample.neutral_sentiment None None
                                          "A"%string "B"%string false)
                ltac:(intros m []) ltac:(intros m []) eq_refl) as H.
  cbv zeta in H.
  destruct (History._get_historical_goals [] 1 2 39 20) as [hg ag].
  destruct H as (-> & -> & _ & _ & _ & _ & H & _).
  split; [reflexivity | exact H].
Defined.

(** X17: [_get_team_results] scores every match from the side of the
    club that played at home, whichever club is asked for.  Over matches
    that were all played between two clubs, the result history of one is
    the result history of the other; an away win of the club asked for is
    entered as 0. *)
Theorem X17_team_results_are_scored_for_the_home_side :
  forall (matches : list History.Match) (team opponent league : Z)
         (num_matches : nat),
    (forall m, In m matches ->
       (History.home_team_id m = team /\ History.away_team_id m = opponent) \/
       (History.home_team_id m = opponent /\ History.away_team_id m = team)) ->
    History._get_team_results matches team league num_matches
    = History._get_team_results matches opponent league num_matches.
Proof.
  intros matches team opponent league num_matches H.
  unfold History._get_team_results.
  rewrite (filter_ext_in
             (fun m => ((History.home_team_id m =? team)%Z
                        || (History.away_team_id m =? team)%Z)
                       && (History.league_id m =? league)%Z
                       && History.known (History.home_score m))
             (fun m => ((History.home_team_id m =? opponent)%Z
                        || (History.away_team_id m =? opponent)%Z)
                       && (History.league_id m =? league)%Z
                       && History.known (History.home_score m))).
  - reflexivity.
  - intros m Hin. destruct (H m Hin) as [[E1 E2] | [E1 E2]];
      rewrite E1, E2, !Z.eqb_refl, ?orb_true_r; reflexivity.
Qed.

Lemma X17_witness :
  History._get_team_results
    [History.mkMatch 1 2 39 (Some 0%Z) (Some 3%Z)] 2 39 20 = [0] /\
  History._get_team_results
    [History.mkMatch 1 2 39 (Some 0%Z) (Some 3%Z)] 1 39 20 = [0].
Proof.
  pose proof (X17_team_results_are_scored_for_the_home_side
                [History.mkMatch 1 2 39 (Some 0%Z) (Some 3%Z)] 2 1 39 20) as H.
  assert (Hm : forall m, In m [History.mkMatch 1 2 39 (Some 0%Z) (Some 3%Z)] ->
             (History.home_team_id m = 2%Z /\ History.away_team_id m = 1%Z) \/
             (History.home_team_id m = 1%Z /\ History.away_team_id m = 2%Z)).
  { intros m [<- | []]. right. split; reflexivity. }
  specialize (H Hm). split; [|rewrite <- H]; reflexivity.
Defined.

(** ** Head-to-head statistics *)

Lemma in_firstn {A : Type} (x : A) (n : nat) :
  forall l, In x (firstn n l) -> In x l.
Proof.
  induction n as [|n IH]; intros [|y l] H; cbn in *; try contradiction.
  destruct H as [H | H]; [left; exact H | right; apply IH; exact H].
Qed.

Lemma count_match_recent (home_team_id : Z) (s : HeadToHead.Stats)
      (m : HeadToHead.ApiMatch) :
  HeadToHead.recent_matches (HeadToHead.count_match home_team_id s m)
  = HeadToHead.recent_matches s
    ++ [(HeadToHead.full_time_home m, HeadToHead.full_time_away m)].
Proof.
  unfold HeadToHead.count_match. cbn [HeadToHead.recent_matches].
  destruct (HeadToHead.full_time_home m) as [hs|],
           (HeadToHead.full_time_away m) as [aws|]; try reflexivity.
  destruct (aws <? hs)%Z; [destruct (HeadToHead.is_team _ _); reflexivity|].
  destruct (hs <? aws)%Z; [destruct (HeadToHead.is_team _ _); reflexivity|].
  reflexivity.
Qed.

Lemma h2h_fold (home_team_id : Z) (l : list HeadToHead.ApiMatch) :
  forall s,
    let r := fold_left (HeadToHead.count_match home_team_id) l s in
    HeadToHead.recent_matches r
    = HeadToHead.recent_matches s
      ++ map (fun m => (HeadToHead.full_time_home m, HeadToHead.full_time_away m)) l /\
    (HeadToHead.home_wins r + HeadToHead.draws r + HeadToHead.away_wins r
     <= HeadToHead.home_wins s + HeadToHead.draws s + HeadToHead.away_wins s
        + length l)%nat.
Proof.
  induction l as [|m l IH]; intros s; cbn [fold_left map length].
  - cbv zeta. rewrite app_nil_r. split; [reflexivity | lia].
  - specialize (IH (HeadToHead.count_match home_team_id s m)).
    cbv zeta in *. destruct IH as [IH1 IH2]. split.
    + rewrite IH1, count_match_recent, <- app_assoc. reflexivity.
    + etransitivity; [exact IH2|].
      unfold HeadToHead.count_match.
      cbn [HeadToHead.home_wins HeadToHead.draws HeadToHead.away_wins].
      destruct (HeadToHead.full_time_home m) as [hs|],
               (HeadToHead.full_time_away m) as [aws|]; try lia.
      destruct (aws <? hs)%Z;
        [destruct (HeadToHead.is_team _ _); cbn; lia|].
      destruct (hs <? aws)%Z;
        [destruct (HeadToHead.is_team _ _); cbn; lia | cbn; lia].
Qed.

Lemma h2h_fold_swapped (home_team_id away_team_id : Z)
      (l : list HeadToHead.ApiMatch) :
  home_team_id <> away_team_id ->
  (forall m, In m l ->
     HeadToHead.is_team (HeadToHead.home_id m) home_team_id
     = negb (HeadToHead.is_team (HeadToHead.home_id m) away_team_id)) ->
  forall s s',
    HeadToHead.home_wins s' = HeadToHead.away_wins s ->
    HeadToHead.away_wins s' = HeadToHead.home_wins s ->
    HeadToHead.draws s' = HeadToHead.draws s ->
    HeadToHead.recent_matches s' = HeadToHead.recent_matches s ->
    let r := fold_left (HeadToHead.count_match home_team_id) l s in
    let r' := fold_left (HeadToHead.count_match away_team_id) l s' in
    HeadToHead.home_wins r' = HeadToHead.away_wins r /\
    HeadToHead.away_wins r' = HeadToHead.home_wins r /\
    HeadToHead.draws r' = HeadToHead.draws r /\
    HeadToHead.recent_matches r' = HeadToHead.recent_matches r.
Proof.
  intros Hneq. induction l as [|m l IH]; intros Hl s s' E1 E2 E3 E4;
    cbn [fold_left]; cbv zeta.
  - auto.
  - apply IH.
    + intros x Hx. apply Hl. right. exact Hx.
    + unfold HeadToHead.count_match. rewrite (Hl m (or_introl eq_refl)).
      destruct (HeadToHead.full_time_home m) as [hs|],
               (HeadToHead.full_time_away m) as [aws|]; cbn; try assumption.
      destruct (aws <? hs)%Z;
        [destruct (HeadToHead.is_team _ away_team_id); cbn; congruence|].
      destruct (hs <? aws)%Z;
        [destruct (HeadToHead.is_team _ away_team_id); cbn; congruence
        | cbn; congruence].
    + unfold HeadToHead.count_match. rewrite (Hl m (or_introl eq_refl)).
      destruct (HeadToHead.full_time_home m) as [hs|],
               (HeadToHead.full_time_away m) as [aws|]; cbn; try assumption.
      destruct (aws <? hs)%Z;
        [destruct (HeadToHead.is_team _ away_team_id); cbn; congruence|].
      destruct (hs <? aws)%Z;
        [destruct (HeadToHead.is_team _ away_team_id); cbn; congruence
        | cbn; congruence].
    + unfold HeadToHead.count_match. rewrite (Hl m (or_introl eq_refl)).
      destruct (HeadToHead.full_time_home m) as [hs|],
               (HeadToHead.full_time_away m) as [aws|]; cbn; try assumption.
      destruct (aws <? hs)%Z;
        [destruct (HeadToHead.is_team _ away_team_id); cbn; congruence|].
      destruct (hs <? aws)%Z;
        [destruct (HeadToHead.is_team _ away_team_id); cbn; congruence
        | cbn; congruence].
    + unfold HeadToHead.count_match. rewrite (Hl m (or_introl eq_refl)).
      destruct (HeadToHead.full_time_home m) as [hs|],
               (HeadToHead.full_time_away m) as [aws|]; cbn; try congruence.
      destruct (aws <? hs)%Z;
        [destruct (HeadToHead.is_team _ away_team_id); cbn; congruence|].
      destruct (hs <? aws)%Z;
        [destruct (HeadToHead.is_team _ away_team_id); cbn; congruence
        | cbn; congruence].
Qed.

(** X18: in the head-to-head statistics the three counters never add up
    to more than the number of matches listed, which is at most the limit
    asked for; and for two different clubs, asking with the two clubs
    exchanged lists the same matches and exchanges the home and away
    wins. *)
Theorem X18_head_to_head_counters :
  forall (data : list HeadToHead.ApiMatch) (home_team_id away_team_id : Z)
         (matches : nat),
    let stats := HeadToHead.h2h_stats data home_team_id away_team_id matches in
    let swapped := HeadToHead.h2h_stats data away_team_id home_team_id matches in
    (HeadToHead.home_wins stats + HeadToHead.draws stats
     + HeadToHead.away_wins stats
     <= length (HeadToHead.recent_matches stats))%nat /\
    (length (HeadToHead.recent_matches stats) <= matches)%nat /\
    (home_team_id <> away_team_id ->
     HeadToHead.home_wins swapped = HeadToHead.away_wins stats /\
     HeadToHead.away_wins swapped = HeadToHead.home_wins stats /\
     HeadToHead.draws swapped = HeadToHead.draws stats /\
     HeadToHead.recent_matches swapped = HeadToHead.recent_matches stats).
Proof.
  intros data home_team_id away_team_id matches stats swapped.
  unfold stats, swapped, HeadToHead.h2h_stats.
  destruct (h2h_fold home_team_id
              (HeadToHead.h2h_matches data home_team_id away_team_id matches)
              (HeadToHead.mkStats 0 0 0 [])) as [Hrecent Hcount].
  cbn [HeadToHead.recent_matches HeadToHead.home_wins HeadToHead.draws
       HeadToHead.away_wins app] in Hrecent, Hcount.
  split; [|split].
  - rewrite Hrecent, length_map. lia.
  - rewrite Hrecent, length_map. unfold HeadToHead.h2h_matches.
    apply firstn_le_length.
  - intros Hneq.
    assert (Hsame : HeadToHead.h2h_matches data away_team_id home_team_id matches
                    = HeadToHead.h2h_matches data home_team_id away_team_id matches).
    { unfold HeadToHead.h2h_matches. f_equal. apply filter_ext. intros m.
      apply orb_comm. }
    rewrite Hsame.
    apply h2h_fold_swapped; try reflexivity; [exact Hneq|].
    intros m Hin. unfold HeadToHead.h2h_matches in Hin.
    apply in_firstn in Hin. apply filter_In in Hin as [_ Hin].
    unfold HeadToHead.is_team in *.
    destruct (HeadToHead.home_id m) as [i|]; [|discriminate].
    destruct (Z.eqb_spec i home_team_id), (Z.eqb_spec i away_team_id);
      cbn in *; try reflexivity; try congruence.
Qed.

Lemma X18_witness :
  let data := [ HeadToHead.mkApiMatch (Some 57%Z) (Some 61%Z) (Some 2%Z) (Some 0%Z);
                HeadToHead.mkApiMatch (Some 61%Z) (Some 57%Z) (Some 1%Z) (Some 1%Z);
                HeadToHead.mkApiMatch (Some 61%Z) (Some 57%Z) None None ] in
  HeadToHead.home_wins (HeadToHead.h2h_stats data 61 57 10)
  = HeadToHead.away_wins (HeadToHead.h2h_stats data 57 61 10) /\
  HeadToHead.away_wins (HeadToHead.h2h_stats data 57 61 10) = 0%nat /\
  length (HeadToHead.recent_matches (HeadToHead.h2h_stats data 57 61 10)) = 3%nat.
Proof.
  intros data.
  destruct (X18_head_to_head_counters data 57 61 10) as (_ & _ & H).
  destruct (H ltac:(discriminate)) as (H1 & _).
  split; [exact H1 | split; reflexivity].
Defined.

(** ** The keyword sentiment *)

Lemma count_keywords_raises (articles : list News.Article) (a : News.Article) :
  In a articles -> News.article_text a = None ->
  forall positive negative, News.count_keywords articles positive negative = None.
Proof.
  induction articles as [|b rest IH]; intros Hin Hnone positive negative;
    [destruct Hin|].
  cbn [News.count_keywords].
  destruct Hin as [-> | Hin]; [rewrite Hnone; reflexivity|].
  destruct (News.article_text b); [apply IH; assumption | reflexivity].
Qed.

Lemma clamp_unit (x : Q) : 0 <= x <= 1 -> Py.min (Py.max x 0) 1 == x.
Proof.
  intros [H0 H1]. unfold Py.min, Py.max.
  destruct (Qltb_spec x 0) as [A|A].
  - lra.
  - destruct (Qltb_spec 1 x) as [B|B]; lra.
Qed.

Lemma share_in_unit (p n : nat) :
  (0 < p + n)%nat ->
  0 <= inject_Z (Z.of_nat p) / inject_Z (Z.of_nat (p + n)) <= 1.
Proof.
  intros Hpos.
  assert (Ht : 0 < inject_Z (Z.of_nat (p + n))).
  { change 0 with (inject_Z 0). rewrite <- Zlt_Qlt. lia. }
  assert (Hp : 0 <= inject_Z (Z.of_nat p)).
  { change 0 with (inject_Z 0). rewrite <- Zle_Qle. lia. }
  assert (Hle : inject_Z (Z.of_nat p) <= inject_Z (Z.of_nat (p + n))).
  { rewrite <- Zle_Qle. lia. }
  split.
  - apply Qle_shift_div_l; [exact Ht | lra].
  - apply Qle_shift_div_r; [exact Ht | lra].
Qed.

(** X19: the keyword sentiment is a share.  It always lies between 0 and
    1; when keywords were found it is the number of positive hits over
    the number of all hits (the clamp changes nothing); without a hit it
    is 0.5; and one article whose title or description is a JSON null
    makes the whole answer 0.5, whatever the other articles say. *)
Theorem X19_keyword_sentiment_is_a_share :
  forall (articles : list News.Article),
    0 <= News.analyze_sentiment articles <= 1 /\
    (forall positive negative,
       News.count_keywords articles 0 0 = Some (positive, negative) ->
       ((0 < positive + negative)%nat ->
        News.analyze_sentiment articles
        == inject_Z (Z.of_nat positive) / inject_Z (Z.of_nat (positive + negative)))
       /\
       ((positive + negative = 0)%nat -> News.analyze_sentiment articles = 0.5)) /\
    (forall a, In a articles ->
       News.title a = News.Null \/ News.description a = News.Null ->
       News.analyze_sentiment articles = 0.5).
Proof.
  intros articles. split; [|split].
  - unfold News.analyze_sentiment.
    destruct articles as [|a rest]; [lra|].
    destruct (News.count_keywords (a :: rest) 0 0) as [[p n]|]; [|lra].
    destruct (Nat.eqb_spec (p + n) 0) as [E|E]; [lra|].
    cbv zeta. rewrite (clamp_unit _ (share_in_unit p n ltac:(lia))).
    apply share_in_unit. lia.
  - intros positive negative Hc. unfold News.analyze_sentiment.
    destruct articles as [|a rest].
    + cbn in Hc. injection Hc as <- <-. split; [intros H; inversion H | reflexivity].
    + rewrite Hc. split.
      * intros Hpos. destruct (Nat.eqb_spec (positive + negative) 0); [lia|].
        cbv zeta. apply clamp_unit. apply share_in_unit. exact Hpos.
      * intros ->. reflexivity.
  - intros a Hin Hnull.
    assert (Htext : News.article_text a = None).
    { unfold News.article_text.
      destruct Hnull as [-> | ->]; cbn; [reflexivity|].
      destruct (News.get_text (News.title a)); reflexivity. }
    unfold News.analyze_sentiment.
    destruct articles as [|b rest]; [reflexivity|].
    rewrite (count_keywords_raises (b :: rest) a Hin Htext). reflexivity.
Qed.

Lemma X19_witness :
  News.analyze_sentiment
    (News._get_mock_news "Arsenal"%string
     ++ [News.mkArticle (News.Text "Arsenal win again"%string) News.Null])
  = 0.5 /\
  News.analyze_sentiment (News._get_mock_news "Winchester"%string) == 5 # 6.
Proof.
  split.
  - destruct (X19_keyword_sentiment_is_a_share
                (News._get_mock_news "Arsenal"%string
                 ++ [News.mkArticle (News.Text "Arsenal win again"%string) News.Null]))
      as (_ & _ & H).
    apply (H (News.mkArticle (News.Text "Arsenal win again"%string) News.Null)).
    + cbn. tauto.
    + right. reflexivity.
  - destruct (X19_keyword_sentiment_is_a_share
                (News._get_mock_news "Winchester"%string)) as (_ & H & _).
    destruct (H 5%nat 1%nat eq_refl) as [H1 _].
    rewrite (H1 ltac:(lia)). reflexivity.
Defined.

(** ** The metrics of the backtester *)

Lemma accumulate_is_sum {A : Type} (g : A -> Q) (rows : list A) :
  forall acc,
    fold_left (fun total row => total + g row) rows acc
    == acc + Sums.sum_over g rows.
Proof.
  induction rows as [|r rows IH]; intros acc; cbn [fold_left].
  - unfold Sums.sum_over. cbn. ring.
  - rewrite IH, sum_over_cons. ring.
Qed.

Lemma sum_over_between {A : Type} (g : A -> Q) (lo hi : Q) (rows : list A) :
  (forall r, In r rows -> lo <= g r <= hi) ->
  lo * Py.len rows <= Sums.sum_over g rows <= hi * Py.len rows.
Proof.
  induction rows as [|r rows IH]; intros H.
  - unfold Py.len. cbn [length Sums.sum_over fold_right].
    change (inject_Z (Z.of_nat 0)) with 0. lra.
  - rewrite sum_over_cons, len_cons.
    destruct (H r (or_introl eq_refl)) as [L U].
    destruct (IH (fun x Hx => H x (or_intror Hx))) as [L' U'].
    split; lra.
Qed.

Lemma average_between {A : Type} (g : A -> Q) (lo hi : Q) (r : A) (rows : list A) :
  (forall x, In x (r :: rows) -> lo <= g x <= hi) ->
  lo <= fold_left (fun total row => total + g row) (r :: rows) 0
        / Py.len (r :: rows) <= hi.
Proof.
  intros H. rewrite accumulate_is_sum.
  pose proof (len_positive r rows) as Hlen.
  destruct (sum_over_between g lo hi (r :: rows) H) as [L U].
  split.
  - apply Qle_shift_div_l; [exact Hlen | lra].
  - apply Qle_shift_div_r; [exact Hlen | lra].
Qed.

Lemma mean_of_three (x y z : Q) : Py.mean [x; y; z] == (x + y + z) / 3.
Proof. unfold Py.mean, Py.sum, Py.len. cbn. field. Qed.

Lemma square_nonneg (x : Q) : 0 <= x * x.
Proof. nra. Qed.

Lemma squares_of_a_distribution (x y z : Q) :
  0 <= x -> 0 <= y -> 0 <= z -> x + y + z == 1 ->
  (x - 1) * (x - 1) + y * y + z * z <= 2.
Proof. intros. nra. Qed.

Lemma average_nonneg {A : Type} (g : A -> Q) (r : A) (rows : list A) :
  (forall x, In x (r :: rows) -> 0 <= g x) ->
  0 <= fold_left (fun total row => total + g row) (r :: rows) 0
       / Py.len (r :: rows).
Proof.
  intros H. rewrite accumulate_is_sum.
  pose proof (len_positive r rows) as Hlen.
  pose proof (sum_over_nonneg g (r :: rows) H).
  apply Qle_shift_div_l; [exact Hlen | lra].
Qed.

(** X20: the Brier score of the backtester is never negative, and it is
    at most 2/3 when every row holds three non-negative probabilities that
    sum to 1: the squared errors of the three outcomes are averaged, not
    added, so the worst prediction scores 2/3 and not 2. *)
Theorem X20_brier_score_is_between_0_and_two_thirds :
  forall (rows : list Backtest.Row),
    0 <= Backtest._calculate_brier_score rows /\
    ((forall row, In row rows ->
        0 <= Backtest.home_prob row /\ 0 <= Backtest.draw_prob row /\
        0 <= Backtest.away_prob row /\
        Backtest.home_prob row + Backtest.draw_prob row + Backtest.away_prob row
        == 1) ->
     Backtest._calculate_brier_score rows <= 2 # 3).
Proof.
  intros rows. unfold Backtest._calculate_brier_score.
  destruct rows as [|r rows]; [split; intros; lra|].
  split.
  - apply (average_nonneg _ r rows).
    intros row _.
    destruct (Backtest.away_score row <? Backtest.home_score row)%Z;
      [|destruct (Backtest.home_score row =? Backtest.away_score row)%Z];
      cbn [combine map]; rewrite mean_of_three;
      (apply Qle_shift_div_l; [lra|]);
      pose proof (square_nonneg (Backtest.home_prob row - 1));
      pose proof (square_nonneg (Backtest.home_prob row - 0));
      pose proof (square_nonneg (Backtest.draw_prob row - 1));
      pose proof (square_nonneg (Backtest.draw_prob row - 0));
      pose proof (square_nonneg (Backtest.away_prob row - 1));
      pose proof (square_nonneg (Backtest.away_prob row - 0)); lra.
  - intros Hd.
    apply (average_between _ 0 (2 # 3) r rows).
    intros row Hin. destruct (Hd row Hin) as (P1 & P2 & P3 & P4).
    destruct (Backtest.away_score row <? Backtest.home_score row)%Z;
      [|destruct (Backtest.home_score row =? Backtest.away_score row)%Z];
      cbn [combine map]; rewrite mean_of_three; split;
      try (apply Qle_shift_div_l; [lra|]); try (apply Qle_shift_div_r; [lra|]).
    + nra.
    + pose proof (squares_of_a_distribution _ _ _ P1 P2 P3 P4). nra.
    + nra.
    + pose proof (squares_of_a_distribution (Backtest.draw_prob row)
                    (Backtest.home_prob row) (Backtest.away_prob row) P2 P1 P3
                    ltac:(lra)). nra.
    + nra.
    + pose proof (squares_of_a_distribution (Backtest.away_prob row)
                    (Backtest.home_prob row) (Backtest.draw_prob row) P3 P1 P2
                    ltac:(lra)). nra.
Qed.

Lemma X20_witness :
  Backtest._calculate_brier_score [Backtest.mkRow 1 0 0 "1-0" 0 2] <= 2 # 3 /\
  Backtest._calculate_brier_score [Backtest.mkRow 1 0 0 "1-0" 0 2] == 2 # 3.
Proof.
  split; [|reflexivity].
  apply (proj2 (X20_brier_score_is_between_0_and_two_thirds
                  [Backtest.mkRow 1 0 0 "1-0" 0 2])).
  intros row [<- | []]. cbn. repeat split; lra.
Defined.

Lemma clamp_range (p lo hi : Q) :
  lo <= hi -> lo <= Py.max (Py.min p hi) lo <= hi.
Proof.
  intros H. unfold Py.max, Py.min.
  destruct (Qltb_spec hi p).
  - destruct (Qltb_spec hi lo); split; lra.
  - destruct (Qltb_spec p lo); split; lra.
Qed.

(** X21: the log loss never evaluates the logarithm outside
    [1e-15, 1 - 1e-15], whatever probabilities the rows hold (0, 1,
    negative or above 1): any bounds that minus the logarithm has on that
    interval are bounds of the log loss of a non-empty list of rows.  In
    particular it is never negative when the logarithm is not positive
    there. *)
Theorem X21_log_loss_is_an_average_over_clamped_probabilities :
  forall (np_log : Q -> Q) (lo hi : Q) (rows : list Backtest.Row),
    (forall u, (1 # 1000000000000000) <= u <= 1 - (1 # 1000000000000000) ->
               lo <= - np_log u <= hi) ->
    rows <> [] ->
    lo <= Backtest._calculate_log_loss np_log rows <= hi.
Proof.
  intros np_log lo hi rows Hlog Hrows.
  unfold Backtest._calculate_log_loss.
  destruct rows as [|r rows]; [contradiction|].
  apply (average_between
           (fun row =>
              - np_log
                  (Py.max
                     (Py.min
                        (if (Backtest.away_score row <? Backtest.home_score row)%Z
                         then Backtest.home_prob row
                         else if (Backtest.home_score row =? Backtest.away_score row)%Z
                              then Backtest.draw_prob row
                              else Backtest.away_prob row)
                        (1 - (1 # 1000000000000000)))
                     (1 # 1000000000000000)))
           lo hi r rows).
  intros row _. apply Hlog. apply clamp_range. lra.
Qed.

Lemma X21_witness :
  0 <= Backtest._calculate_log_loss Sample.tangent_log
         [Backtest.mkRow 0 (-1) 2 "0-0" 3 1] <= 1.
Proof.
  apply (X21_log_loss_is_an_average_over_clamped_probabilities
           Sample.tangent_log 0 1).
  - intros u [H1 H2]. unfold Sample.tangent_log. split; lra.
  - discriminate.
Defined.

Lemma filter_all_length {A : Type} (f : A -> bool) (l : list A) :
  length (filter f l) = length l <-> (forall x, In x l -> f x = true).
Proof.
  induction l as [|x l IH]; cbn [filter length].
  - split; [intros _ y [] | reflexivity].
  - pose proof (filter_length_le f l) as Hle.
    destruct (f x) eqn:E; cbn [length]; split.
    + intros H y [<- | Hy]; [exact E | apply IH; [lia | exact Hy]].
    + intros H. f_equal. apply IH. intros y Hy. apply H. right. exact Hy.
    + intros H. lia.
    + intros H. rewrite (H x (or_introl eq_refl)) in E. discriminate.
Qed.

(** X22: the accuracy of the backtester lies between 0 and 1, and it is
    1 exactly when the list of rows is not empty and the most probable
    result of every row (the first of the tied ones, in the order home,
    draw, away) is the actual result. *)
Theorem X22_accuracy_is_a_share_and_full_only_without_a_miss :
  forall (rows : list Backtest.Row),
    0 <= Backtest._calculate_accuracy rows <= 1 /\
    (Backtest._calculate_accuracy rows == 1 <->
     rows <> [] /\
     forall row, In row rows ->
       Backtest.actual_result row = Backtest.predicted_result row).
Proof.
  intros rows. unfold Backtest._calculate_accuracy.
  rewrite count_loop_is_filter. cbn [Nat.add].
  destruct rows as [|r rows].
  - split; [lra|]. split; [intros H; lra | intros [H _]; contradiction].
  - set (f := fun row => String.eqb (Backtest.actual_result row)
                                    (Backtest.predicted_result row)).
    set (all := r :: rows).
    pose proof (len_positive r rows) as Hlen. fold all in Hlen.
    pose proof (filter_length_le f all) as Hle.
    assert (H0 : 0 <= inject_Z (Z.of_nat (length (filter f all)))).
    { change 0 with (inject_Z 0). rewrite <- Zle_Qle. lia. }
    assert (H1 : inject_Z (Z.of_nat (length (filter f all))) <= Py.len all).
    { unfold Py.len. rewrite <- Zle_Qle. lia. }
    split.
    + split.
      * apply Qle_shift_div_l; [exact Hlen | lra].
      * apply Qle_shift_div_r; [exact Hlen | lra].
    + split.
      * intros E. split; [discriminate|].
        assert (E' : inject_Z (Z.of_nat (length (filter f all))) == Py.len all).
        { rewrite <- (Qmult_div_r (inject_Z (Z.of_nat (length (filter f all))))
                                  (Py.len all)) by lra.
          rewrite E. ring. }
        unfold Py.len in E'. apply (proj1 (inject_Z_injective _ _)) in E'.
        apply Nat2Z.inj in E'.
        intros row Hin. apply String.eqb_eq.
        exact (proj1 (filter_all_length f all) E' row Hin).
      * intros [_ Hall].
        assert (E : length (filter f all) = length all).
        { apply filter_all_length. intros x Hx. apply String.eqb_eq.
          apply Hall. exact Hx. }
        rewrite E. fold (Py.len all). field. lra.
Qed.

Lemma X22_witness :
  Backtest._calculate_accuracy
    [Backtest.mkRow 0.4 0.4 0.2 "1-1" 2 1; Backtest.mkRow 0.2 0.3 0.5 "0-1" 0 1]
  == 1.
Proof.
  apply (proj2 (X22_accuracy_is_a_share_and_full_only_without_a_miss
                  [Backtest.mkRow 0.4 0.4 0.2 "1-1" 2 1;
                   Backtest.mkRow 0.2 0.3 0.5 "0-1" 0 1])).
  split; [discriminate|].
  intros row [<- | [<- | []]]; reflexivity.
Defined.

(** ** The rows the backtester selects *)

Lemma flat_map_filter {A B : Type} (f : A -> list B) (g : A -> bool) (l : list A) :
  (forall x, g x = false -> f x = []) ->
  flat_map f (filter g l) = flat_map f l.
Proof.
  intros H. induction l as [|x l IH]; cbn [filter flat_map]; [reflexivity|].
  destruct (g x) eqn:E; cbn [flat_map]; rewrite IH; [reflexivity|].
  rewrite (H x E). reflexivity.
Qed.

Lemma select_backtest_own_rows (db : Backtest.Database) (league_id : Z)
      (start_date end_date model_type : string) :
  Backtest.select_backtest db league_id start_date end_date model_type
  = Backtest.select_backtest
      (Backtest.mkDatabase
         (filter (fun p => String.eqb (Backtest.p_model_type p) model_type)
                 (Backtest.predictions db))
         (Backtest.matches db))
      league_id start_date end_date model_type.
Proof.
  unfold Backtest.select_backtest.
  cbn [Backtest.predictions Backtest.matches].
  symmetry. apply flat_map_filter. intros p Hp.
  apply flat_map_nil. intros m _.
  destruct (Backtest.m_home_score m), (Backtest.m_away_score m); try reflexivity.
  rewrite Hp, andb_false_r. reflexivity.
Qed.

(** X23: the backtest of a model reads that model's prediction rows
    only.  Two databases with the same matches and the same prediction
    rows of the model, in the same order, give the same report, whatever
    rows of other models they hold and wherever those stand. *)
Theorem X23_backtest_reads_the_rows_of_its_own_model_only :
  forall (np_log : Q -> Q) (db1 db2 : Backtest.Database) (league_id : Z)
         (start_date end_date model_type : string),
    Backtest.matches db1 = Backtest.matches db2 ->
    filter (fun p => String.eqb (Backtest.p_model_type p) model_type)
           (Backtest.predictions db1)
    = filter (fun p => String.eqb (Backtest.p_model_type p) model_type)
             (Backtest.predictions db2) ->
    Backtest._backtest_single_model np_log (Some db1) league_id
                                    start_date end_date model_type
    = Backtest._backtest_single_model np_log (Some db2) league_id
                                      start_date end_date model_type.
Proof.
  intros np_log db1 db2 league_id start_date end_date model_type Hm Hp.
  unfold Backtest._backtest_single_model.
  rewrite (select_backtest_own_rows db1), (select_backtest_own_rows db2).
  rewrite Hm, Hp. reflexivity.
Qed.

Lemma X23_witness :
  Backtest._backtest_single_model Sample.tangent_log
    (Some Sample.other_model_db) 39 "2024-01-01" "2024-12-31" "hmm"
  = Backtest._backtest_single_model Sample.tangent_log
      (Some (Backtest.mkDatabase [] (Backtest.matches Sample.other_model_db)))
      39 "2024-01-01" "2024-12-31" "hmm".
Proof.
  apply (X23_backtest_reads_the_rows_of_its_own_model_only
           Sample.tangent_log Sample.other_model_db
           (Backtest.mkDatabase [] (Backtest.matches Sample.other_model_db)));
    reflexivity.
Defined.

(** ** The loop over the models *)

Lemma backtest_loop {V : Type} (f : string -> V) (models : list string)
      (k : string) :
  forall d : Dict.t V,
    Dict.get (fold_left (fun results model => Dict.set results model (f model))
                        models d) k
    = if in_dec string_dec k models then Some (f k) else Dict.get d k.
Proof.
  induction models as [|m models IH]; intros d; cbn [fold_left].
  - reflexivity.
  - rewrite IH.
    destruct (in_dec string_dec k models) as [Hin|Hnot];
      destruct (in_dec string_dec k (m :: models)) as [Hin'|Hnot'];
      try reflexivity.
    + exfalso. apply Hnot'. right. exact Hin.
    + destruct Hin' as [-> | Hin']; [|contradiction].
      apply dict_get_set_same.
    + apply dict_get_set_other. intros ->. apply Hnot'. left. reflexivity.
Qed.

(** X24: [backtest_models] reports, under every requested name, the
    single-model backtest of that name, and nothing under any other name;
    without a list of names it reports on poisson, negative_binomial,
    hawkes, hmm and ensemble. *)
Theorem X24_backtest_models_reports_each_requested_model :
  forall (np_log : Q -> Q) (db : option Backtest.Database) (league_id : Z)
         (start_date end_date : string) (models : option (list string))
         (name : string),
    let requested :=
      match models with Some l => l | None => BacktestRun.default_models end in
    let report :=
      BacktestRun.backtest_models np_log db league_id start_date end_date models in
    (In name requested ->
     Dict.get report name
     = Some (Backtest._backtest_single_model np_log db league_id
                                             start_date end_date name)) /\
    (~ In name requested -> Dict.get report name = None).
Proof.
  intros np_log db league_id start_date end_date models name requested report.
  unfold report, BacktestRun.backtest_models. fold requested.
  rewrite (backtest_loop
             (fun model => Backtest._backtest_single_model
                             np_log db league_id start_date end_date model)).
  destruct (in_dec string_dec name requested); split; intros H;
    try reflexivity; contradiction.
Qed.

Lemma X24_witness :
  Dict.get (BacktestRun.backtest_models Sample.tangent_log
              (Some Sample.other_model_db) 39 "2024-01-01" "2024-12-31" None)
           "ensemble"
  = Some (Backtest._backtest_single_model Sample.tangent_log
            (Some Sample.other_model_db) 39 "2024-01-01" "2024-12-31" "ensemble").
Proof.
  apply (proj1 (X24_backtest_models_reports_each_requested_model
                  Sample.tangent_log (Some Sample.other_model_db) 39
                  "2024-01-01" "2024-12-31" None "ensemble")).
  cbn. tauto.
Defined.

(** ** The calibration bins *)

Lemma share_of_filter {A : Type} (f : A -> bool) (x : A) (l : list A) :
  0 <= Py.len (filter f (x :: l)) / Py.len (x :: l) <= 1.
Proof.
  pose proof (len_positive x l) as Hlen.
  pose proof (filter_length_le f (x :: l)) as Hle.
  assert (H0 : 0 <= Py.len (filter f (x :: l))).
  { unfold Py.len. change 0 with (inject_Z 0). rewrite <- Zle_Qle. lia. }
  assert (H1 : Py.len (filter f (x :: l)) <= Py.len (x :: l)).
  { unfold Py.len. rewrite <- Zle_Qle. lia. }
  split.
  - apply Qle_shift_div_l; [exact Hlen | lra].
  - apply Qle_shift_div_r; [exact Hlen | lra].
Qed.

Lemma calibration_loop (bin_edges : list Q) (rows : list (Q * Z * Z))
      (is_ : list nat) :
  (forall i, In i is_ ->
             0 <= nth i bin_edges 0 /\ nth (i + 1) bin_edges 0 <= 1) ->
  forall bin_accuracy bin_confidence,
    length bin_accuracy = length bin_confidence ->
    Forall Sums.in_unit bin_accuracy -> Forall Sums.in_unit bin_confidence ->
    let '(bin_accuracy', bin_confidence') :=
      fold_left
        (fun '(bin_accuracy, bin_confidence) i =>
           let bin_rows := Backtest.bin_rows bin_edges rows i in
           match bin_rows with
           | [] => (bin_accuracy, bin_confidence)
           | _ :: _ =>
               let wins :=
                 filter (fun row => (snd row <? snd (fst row))%Z) bin_rows in
               let accuracy := Py.len wins / Py.len bin_rows in
               let confidence := Py.mean (map (fun row => fst (fst row)) bin_rows) in
               (bin_accuracy ++ [accuracy], bin_confidence ++ [confidence])
           end)
        is_ (bin_accuracy, bin_confidence) in
    length bin_accuracy' = length bin_confidence' /\
    (length bin_accuracy' <= length bin_accuracy + length is_)%nat /\
    Forall Sums.in_unit bin_accuracy' /\ Forall Sums.in_unit bin_confidence'.
Proof.
  induction is_ as [|i is_ IH]; intros Hi acc conf Hlen Hacc Hconf;
    cbn [fold_left].
  - repeat split; try assumption. cbn. lia.
  - assert (Hi' : forall j, In j is_ ->
                    0 <= nth j bin_edges 0 /\ nth (j + 1) bin_edges 0 <= 1)
      by (intros j Hj; apply Hi; right; exact Hj).
    destruct (Hi i (or_introl eq_refl)) as [L0 U1].
    destruct (Backtest.bin_rows bin_edges rows i) as [|r rs] eqn:E.
    + specialize (IH Hi' acc conf Hlen Hacc Hconf).
      destruct (fold_left _ is_ (acc, conf)) as [acc' conf'].
      destruct IH as (I1 & I2 & I3 & I4). repeat split; try assumption.
      cbn [length]. lia.
    + cbv zeta.
      set (accuracy := Py.len (filter _ (r :: rs)) / Py.len (r :: rs)).
      set (confidence := Py.mean (map _ (r :: rs))).
      assert (Ha : Sums.in_unit accuracy) by apply share_of_filter.
      assert (Hc : Sums.in_unit confidence).
      { unfold confidence.
        destruct (mean_bounds (nth i bin_edges 0) (nth (i + 1) bin_edges 0)
                    (map (fun row : Q * Z * Z => fst (fst row)) (r :: rs)))
          as [M1 M2].
        - discriminate.
        - intros x Hx. apply in_map_iff in Hx as (row & <- & Hrow).
          rewrite <- E, bin_rows_is_filter in Hrow.
          apply filter_In in Hrow as [_ Hrow].
          apply in_bin_iff in Hrow. exact Hrow.
        - unfold Sums.in_unit. split; lra. }
      specialize (IH Hi' (acc ++ [accuracy]) (conf ++ [confidence])).
      destruct (fold_left _ is_ (acc ++ [accuracy], conf ++ [confidence]))
        as [acc' conf'].
      destruct IH as (I1 & I2 & I3 & I4).
      * rewrite !length_app. cbn. lia.
      * apply Forall_app. split; [exact Hacc | constructor; [exact Ha | constructor]].
      * apply Forall_app. split; [exact Hconf | constructor; [exact Hc | constructor]].
      * repeat split; try assumption.
        rewrite length_app in I2. cbn [length] in *. lia.
Qed.

(** X25: the calibration data of a readable database hold [bins + 1]
    edges and, for the bins that are not empty, one accuracy and one mean
    confidence each, so at most [bins] of either and as many of one as of
    the other; every accuracy and every mean confidence lies between 0
    and 1, whatever probabilities the table holds.  The edges are those
    [np.linspace] returns: [bins + 1] doubles from 0 to 1 in
    non-decreasing order. *)
Theorem X25_calibration_lists_are_aligned_and_in_the_unit_interval :
  forall (np_linspace01 : nat -> list Q) (db : Backtest.Database)
         (league_id : Z) (model_type : string) (bins : nat),
    Backtest.is_linspace01 (np_linspace01 (bins + 1)%nat) (bins + 1) ->
    let c := Backtest.get_calibration_data np_linspace01 (Some db) league_id
                                           model_type bins in
    length (Backtest.cal_bin_edges c) = (bins + 1)%nat /\
    length (Backtest.cal_accuracy c) = length (Backtest.cal_confidence c) /\
    (length (Backtest.cal_accuracy c) <= bins)%nat /\
    (forall accuracy, In accuracy (Backtest.cal_accuracy c) -> 0 <= accuracy <= 1) /\
    (forall confidence, In confidence (Backtest.cal_confidence c) ->
                        0 <= confidence <= 1).
Proof.
  intros np_linspace01 db league_id model_type bins Hl c.
  unfold c, Backtest.get_calibration_data, Backtest.calibration_of_rows.
  pose proof (calibration_loop (np_linspace01 (bins + 1)%nat)
                (Backtest.select_calibration db league_id model_type)
                (seq 0 bins)) as H.
  assert (Hedges : forall i, In i (seq 0 bins) ->
                     0 <= nth i (np_linspace01 (bins + 1)%nat) 0 /\
                     nth (i + 1) (np_linspace01 (bins + 1)%nat) 0 <= 1).
  { intros i Hi. apply in_seq in Hi. split.
    - apply (edge_in_unit _ bins i Hl); lia.
    - apply (edge_in_unit _ bins (i + 1) Hl); lia. }
  specialize (H Hedges [] [] eq_refl (Forall_nil _) (Forall_nil _)).
  destruct (fold_left _ (seq 0 bins) ([], [])) as [acc conf].
  destruct H as (H1 & H2 & H3 & H4).
  cbn [Backtest.cal_bin_edges Backtest.cal_accuracy Backtest.cal_confidence].
  rewrite length_seq in H2. cbn [length] in H2.
  repeat split.
  - apply Hl.
  - exact H1.
  - lia.
  - apply (proj1 (Forall_forall _ _) H3 accuracy H).
  - apply (proj1 (Forall_forall _ _) H3 accuracy H).
  - apply (proj1 (Forall_forall _ _) H4 confidence H).
  - apply (proj1 (Forall_forall _ _) H4 confidence H).
Qed.

Lemma edge_search (edges : list Q) (p : Q) :
  forall n, (0 < n)%nat -> nth 0 edges 0 <= p -> p <= nth n edges 0 ->
  exists i, (i < n)%nat /\ nth i edges 0 <= p <= nth (i + 1) edges 0.
Proof.
  induction n as [|n IH]; intros Hn H0 Hp; [lia|].
  destruct (Qlt_le_dec (nth n edges 0) p) as [Hlt | Hle].
  - exists n. split; [lia|]. replace (n + 1)%nat with (S n) by lia.
    split; [apply Qlt_le_weak; exact Hlt | exact Hp].
  - destruct n as [|n].
    + exists 0%nat. split; [lia|]. split; [exact H0 | exact Hp].
    + destruct (IH ltac:(lia) H0 Hle) as (i & Hi & Hr).
      exists i. split; [lia | exact Hr].
Qed.

(** X26: with at least one bin, every record whose probability lies in
    [0, 1] is counted in some bin, and a record whose probability lies
    outside [0, 1] is counted in none; the edges are those [np.linspace]
    returns, [bins + 1] doubles from 0 to 1 in non-decreasing order. *)
Theorem X26_calibration_bins_cover_the_unit_interval_only :
  forall (np_linspace01 : nat -> list Q) (rows : list (Q * Z * Z)) (bins : nat)
         (row : Q * Z * Z),
    Backtest.is_linspace01 (np_linspace01 (bins + 1)%nat) (bins + 1) ->
    In row rows -> (0 < bins)%nat ->
    let bin_edges := np_linspace01 (bins + 1)%nat in
    (0 <= fst (fst row) <= 1 ->
     exists i, (i < bins)%nat /\ In row (Backtest.bin_rows bin_edges rows i)) /\
    (fst (fst row) < 0 \/ 1 < fst (fst row) ->
     forall i, (i < bins)%nat -> ~ In row (Backtest.bin_rows bin_edges rows i)).
Proof.
  intros np_linspace01 rows bins row Hl Hin Hb bin_edges. split.
  - intros [Hp0 Hp1].
    destruct Hl as (_ & H0 & H1 & _).
    specialize (H1 ltac:(lia)). replace (bins + 1 - 1)%nat with bins in H1 by lia.
    fold bin_edges in H0, H1.
    destruct (edge_search bin_edges (fst (fst row)) bins Hb) as (i & Hi & Hr).
    + rewrite H0. exact Hp0.
    + rewrite H1. exact Hp1.
    + exists i. split; [exact Hi|].
      apply bin_rows_member; [exact Hin|]. apply in_bin_iff. exact Hr.
  - intros Hout i Hi Hrow.
    rewrite bin_rows_is_filter in Hrow. apply filter_In in Hrow as [_ Hrow].
    apply in_bin_iff in Hrow. fold bin_edges in Hrow.
    destruct (edge_in_unit bin_edges bins i Hl ltac:(lia) Hb) as [L _].
    destruct (edge_in_unit bin_edges bins (i + 1) Hl ltac:(lia) Hb) as [_ U].
    lra.
Qed.

Lemma X26_witness :
  (exists i, (i < 10)%nat /\
             In (0.45, 1%Z, 1%Z)
                (Backtest.bin_rows (Sample.ten_bin_edges (10 + 1))
                                   ((3 # 2, 1%Z, 0%Z) :: Sample.calibration_rows) i)) /\
  ~ In (3 # 2, 1%Z, 0%Z)
       (Backtest.bin_rows (Sample.ten_bin_edges (10 + 1))
                          ((3 # 2, 1%Z, 0%Z) :: Sample.calibration_rows) 9).
Proof.
  split.
  - apply (proj1 (X26_calibration_bins_cover_the_unit_interval_only
                    Sample.ten_bin_edges
                    ((3 # 2, 1%Z, 0%Z) :: Sample.calibration_rows) 10
                    (0.45, 1%Z, 1%Z) (ten_bin_edges_linspace _)
                    ltac:(cbn; tauto) ltac:(lia))).
    cbn. split; lra.
  - apply (proj2 (X26_calibration_bins_cover_the_unit_interval_only
                    Sample.ten_bin_edges
                    ((3 # 2, 1%Z, 0%Z) :: Sample.calibration_rows) 10
                    (3 # 2, 1%Z, 0%Z) (ten_bin_edges_linspace _)
                    ltac:(cbn; tauto) ltac:(lia))).
    + right. cbn. lra.
    + lia.
Defined.

Lemma X25_witness :
  let c := Backtest.get_calibration_data Sample.ten_bin_edges
             (Some Sample.other_model_db) 39 "poisson" 10 in
  In (1 # 1) (Backtest.cal_accuracy c) /\ 0 <= 1 # 1 <= 1.
Proof.
  intros c.
  destruct (X25_calibration_lists_are_aligned_and_in_the_unit_interval
              Sample.ten_bin_edges Sample.other_model_db 39 "poisson" 10
              (ten_bin_edges_linspace _)) as (_ & _ & _ & H & _).
  assert (Hin : In (1 # 1) (Backtest.cal_accuracy c)).
  { vm_compute. left. reflexivity. }
  split; [exact Hin | exact (H (1 # 1) Hin)].
Defined.

(** ** The confidence of the ensemble *)

Lemma max3_bounds (h d a : Q) :
  h <= Py.max3 h d a /\ d <= Py.max3 h d a /\ a <= Py.max3 h d a /\
  (Py.max3 h d a = h \/ Py.max3 h d a = d \/ Py.max3 h d a = a).
Proof.
  unfold Py.max3, Py.max.
  destruct (Qltb_spec h d); [destruct (Qltb_spec d a) | destruct (Qltb_spec h a)];
    repeat split; try lra; auto.
Qed.

(** X27: when every prediction in the map comes without a confidence of
    its own, as the four scoring models return it, and holds three
    non-negative probabilities that sum to 1, the confidence of the
    ensemble (the mean of the largest probabilities) lies between 1/3 and
    1; it does not depend on the weights. *)
Theorem X27_ensemble_confidence_is_between_one_third_and_one :
  forall (self : MixtureOfExperts.Model)
         (predictions : Dict.t MixtureOfExperts.PredDict),
    predictions <> [] ->
    (forall pred, In pred (Dict.values predictions) ->
       exists h d a,
         MixtureOfExperts.get_confidence pred = None /\
         MixtureOfExperts.get_home_probability pred = Some h /\
         MixtureOfExperts.get_draw_probability pred = Some d /\
         MixtureOfExperts.get_away_probability pred = Some a /\
         0 <= h /\ 0 <= d /\ 0 <= a /\ h + d + a == 1) ->
    1 # 3 <= MixtureOfExperts.confidence
               (MixtureOfExperts.predict self predictions) <= 1.
Proof.
  intros self predictions Hne Hd.
  unfold MixtureOfExperts.predict.
  destruct (MixtureOfExperts.weighted_sums self predictions) as [[wh wd] wa].
  destruct (Py.normalize wh wd wa) as [[nh nd] na].
  cbn [MixtureOfExperts.confidence].
  assert (Hb : forall c, In c (MixtureOfExperts.confidences predictions) ->
                         1 # 3 <= c <= 1).
  { intros c Hc. unfold MixtureOfExperts.confidences in Hc.
    apply in_map_iff in Hc as (pred & <- & Hin).
    destruct (Hd pred Hin) as (h & d & a & -> & -> & -> & -> & H1 & H2 & H3 & H4).
    cbn [MixtureOfExperts.or_default].
    destruct (max3_bounds h d a) as (B1 & B2 & B3 & [E | [E | E]]);
      rewrite E in *; split; lra. }
  destruct (MixtureOfExperts.confidences predictions) as [|c cs] eqn:E.
  - exfalso. unfold MixtureOfExperts.confidences, Dict.values in E.
    destruct predictions; [contradiction | discriminate].
  - apply mean_bounds; [discriminate | exact Hb].
Qed.

Lemma X27_witness :
  1 # 3 <= MixtureOfExperts.confidence
             (MixtureOfExperts.predict MixtureOfExperts.init Sample.four_identical)
        <= 1.
Proof.
  apply X27_ensemble_confidence_is_between_one_third_and_one.
  - discriminate.
  - intros pred Hin. exists 0.5, 0.3, 0.2.
    cbn in Hin.
    destruct Hin as [<- | [<- | [<- | [<- | []]]]];
      cbn; repeat split; try lra; reflexivity.
Defined.

(** ** Scorelines through the combiner *)


Lemma split_parts_without (sep : ascii) (s : string) :
  Forall (fun part => Sums.without sep part = true) (PyStr.split sep s).
Proof.
  induction s as [|c s IH]; cbn [PyStr.split].
  - constructor; [reflexivity | constructor].
  - destruct (Ascii.eqb c sep) eqn:E.
    + constructor; [reflexivity | exact IH].
    + destruct (PyStr.split sep s) as [|part parts].
      * constructor; [|constructor]. cbn [Sums.without]. rewrite E. reflexivity.
      * inversion IH as [|? ? Hpart Hparts]; subst.
        constructor; [|exact Hparts].
        cbn [Sums.without]. rewrite E, Hpart. reflexivity.
Qed.

Lemma without_lstrip (c : ascii) (s : string) :
  Sums.without c s = true -> Sums.without c (PyStr.lstrip s) = true.
Proof.
  induction s as [|x s IH]; [trivial|].
  intros H. cbn [PyStr.lstrip].
  destruct (PyStr.is_space x); [|exact H].
  cbn [Sums.without] in H. apply andb_prop in H. apply IH. apply H.
Qed.

Lemma without_rev_onto (c : ascii) (s : string) :
  forall acc, Sums.without c s = true -> Sums.without c acc = true ->
              Sums.without c (PyStr.rev_onto s acc) = true.
Proof.
  induction s as [|x s IH]; intros acc Hs Hacc; cbn [PyStr.rev_onto];
    [exact Hacc|].
  cbn [Sums.without] in Hs. apply andb_prop in Hs. destruct Hs as [Hx Hs].
  apply IH; [exact Hs|]. cbn [Sums.without]. rewrite Hx, Hacc. reflexivity.
Qed.

Lemma without_strip (c : ascii) (s : string) :
  Sums.without c s = true -> Sums.without c (PyStr.strip s) = true.
Proof.
  intros H. unfold PyStr.strip.
  apply without_rev_onto; [|reflexivity].
  apply without_lstrip. apply without_rev_onto; [|reflexivity].
  apply without_lstrip. exact H.
Qed.

Lemma digit_val_nonneg (c : ascii) (d : Z) :
  PyStr.digit_val c = Some d -> (0 <= d)%Z.
Proof.
  unfold PyStr.digit_val.
  destruct ((48 <=? nat_of_ascii c)%nat && (nat_of_ascii c <=? 57)%nat);
    [|discriminate].
  intros E. injection E as <-. lia.
Qed.

Lemma int_digits_nonneg (s : string) :
  forall (acc : Z) (after_digit : bool) (z : Z),
    (0 <= acc)%Z -> PyStr.int_digits s acc after_digit = Some z -> (0 <= z)%Z.
Proof.
  induction s as [|c s IH]; intros acc b z Hacc; cbn [PyStr.int_digits].
  - destruct b; [|discriminate]. intros E. injection E as <-. exact Hacc.
  - destruct (PyStr.digit_val c) as [d|] eqn:E.
    + apply IH. pose proof (digit_val_nonneg c d E). lia.
    + destruct (Ascii.eqb c "_" && b); [apply IH; exact Hacc | discriminate].
Qed.

Lemma int_after_sign (c : ascii) (rest : string) (z : Z) :
  c <> "-"%char ->
  match String c rest with
  | String "+" r => PyStr.int_digits r 0 false
  | String "-" r => option_map Z.opp (PyStr.int_digits r 0 false)
  | body => PyStr.int_digits body 0 false
  end = Some z ->
  (0 <= z)%Z.
Proof.
  intros Hc.
  destruct c as [[] [] [] [] [] [] [] []];
    first [ exfalso; apply Hc; reflexivity
          | intros H; cbv iota beta in H;
            exact (int_digits_nonneg _ _ _ _ (Z.le_refl 0) H) ].
Qed.

Lemma int_without_dash (s : string) (z : Z) :
  Sums.without "-" s = true -> PyStr.int s = Some z -> (0 <= z)%Z.
Proof.
  intros H. apply (without_strip "-") in H. unfold PyStr.int.
  destruct (PyStr.strip s) as [|c rest].
  - cbn. discriminate.
  - apply int_after_sign. cbn [Sums.without] in H. apply andb_prop in H.
    destruct H as [H _]. intros ->. discriminate.
Qed.

Lemma collect_score_nonneg (scores : list Z * list Z)
      (pred : MixtureOfExperts.PredDict) :
  Forall (fun z => (0 <= z)%Z) (fst scores) ->
  Forall (fun z => (0 <= z)%Z) (snd scores) ->
  Forall (fun z => (0 <= z)%Z) (fst (MixtureOfExperts.collect_score scores pred)) /\
  Forall (fun z => (0 <= z)%Z) (snd (MixtureOfExperts.collect_score scores pred)).
Proof.
  destruct scores as [hs aws]. cbn [fst snd]. intros Hh Ha.
  unfold MixtureOfExperts.collect_score.
  pose proof (split_parts_without
                "-" (MixtureOfExperts.or_default
                       (MixtureOfExperts.get_predicted_score pred) "1-1"%string))
    as Hparts.
  destruct (PyStr.split "-" _) as [|part0 [|part1 [|part2 parts]]];
    cbn [fst snd]; try (split; assumption).
  inversion Hparts as [|? ? H0 Hrest]; subst.
  inversion Hrest as [|? ? H1 _]; subst.
  destruct (PyStr.int part0) as [h|] eqn:E0; [|split; assumption].
  pose proof (int_without_dash part0 h H0 E0) as Hh0.
  destruct (PyStr.int part1) as [a|] eqn:E1; cbn [fst snd].
  - pose proof (int_without_dash part1 a H1 E1) as Ha0.
    split; apply Forall_app; split; try assumption;
      constructor; try assumption; constructor.
  - split; [|assumption].
    apply Forall_app; split; [assumption | constructor; [assumption | constructor]].
Qed.

Lemma parsed_scores_nonneg (predictions : Dict.t MixtureOfExperts.PredDict) :
  Forall (fun z => (0 <= z)%Z) (fst (MixtureOfExperts.parsed_scores predictions)) /\
  Forall (fun z => (0 <= z)%Z) (snd (MixtureOfExperts.parsed_scores predictions)).
Proof.
  unfold MixtureOfExperts.parsed_scores.
  apply (fold_left_invariant
           (fun scores => Forall (fun z => (0 <= z)%Z) (fst scores) /\
                          Forall (fun z => (0 <= z)%Z) (snd scores))).
  - split; constructor.
  - intros scores pred _ [Hh Ha]. apply collect_score_nonneg; assumption.
Qed.

Lemma round_nonneg (x : Q) : 0 <= x -> (0 <= Py.round x)%Z.
Proof.
  intros H. unfold Py.round.
  assert (Hf : (0 <= Qfloor x)%Z).
  { change 0%Z with (Qfloor 0). apply Qfloor_resp_le. exact H. }
  destruct (Py.Qltb _ _); [exact Hf|].
  destruct (Py.Qltb _ _); [lia|].
  destruct (Z.even _); lia.
Qed.

Lemma mean_of_nonneg_integers (z : Z) (zs : list Z) :
  Forall (fun z => (0 <= z)%Z) (z :: zs) -> 0 <= Py.mean (map inject_Z (z :: zs)).
Proof.
  intros H.
  destruct (mean_bounds 0 (Sums.sum_over (fun x => x) (map inject_Z (z :: zs)))
                        (map inject_Z (z :: zs))) as [L _].
  - discriminate.
  - assert (Hnn : forall x, In x (map inject_Z (z :: zs)) -> 0 <= x).
    { intros x Hx. apply in_map_iff in Hx as (y & <- & Hy).
      change 0 with (inject_Z 0). rewrite <- Zle_Qle.
      exact (proj1 (Forall_forall _ _) H y Hy). }
    intros x Hx. split; [apply Hnn; exact Hx|].
    clear H. revert Hnn Hx. generalize (map inject_Z (z :: zs)) as xs.
    induction xs as [|y xs IH]; intros Hnn Hx; [destruct Hx|].
    rewrite sum_over_cons.
    pose proof (sum_over_nonneg (fun x => x) xs
                  (fun v Hv => Hnn v (or_intror Hv))) as Hs.
    pose proof (Hnn y (or_introl eq_refl)) as Hy.
    destruct Hx as [-> | Hx]; [lra|].
    specialize (IH (fun v Hv => Hnn v (or_intror Hv)) Hx). lra.
  - exact L.
Qed.

(** X28: whatever scorelines the predictions carry (absent, malformed,
    with a minus sign), the scoreline of the ensemble is two non-negative
    integers joined by a dash. *)
Theorem X28_combined_scoreline_is_well_formed :
  forall (predictions : Dict.t MixtureOfExperts.PredDict),
  exists (home away : nat),
    MixtureOfExperts._combine_scores predictions
    = PyStr.format_score (Z.of_nat home) (Z.of_nat away) /\
    PyStr.split "-" (MixtureOfExperts._combine_scores predictions)
    = [PyStr.str_of_nat home; PyStr.str_of_nat away].
Proof.
  intros predictions.
  assert (Hform : exists home away : nat,
             MixtureOfExperts._combine_scores predictions
             = PyStr.format_score (Z.of_nat home) (Z.of_nat away)).
  { unfold MixtureOfExperts._combine_scores.
    destruct (parsed_scores_nonneg predictions) as [Hh Ha].
    destruct (MixtureOfExperts.parsed_scores predictions) as [hs aws].
    cbn [fst snd] in Hh, Ha.
    destruct hs as [|h hs]; [exists 1%nat, 1%nat; reflexivity|].
    destruct aws as [|a aws]; [exists 1%nat, 1%nat; reflexivity|].
    pose proof (round_nonneg _ (mean_of_nonneg_integers h hs Hh)) as Rh.
    pose proof (round_nonneg _ (mean_of_nonneg_integers a aws Ha)) as Ra.
    exists (Z.to_nat (Py.round (Py.mean (map inject_Z (h :: hs))))),
           (Z.to_nat (Py.round (Py.mean (map inject_Z (a :: aws))))).
    rewrite !Z2Nat.id by assumption. reflexivity. }
  destruct Hform as (home & away & E). exists home, away.
  split; [exact E|].
  rewrite E, format_score_of_nat.
  apply split_score; apply all_digits_str_of_nat.
Qed.






(** ** The simulated goal times *)

Lemma simulate_match_goal_times (draws : nat -> Q) (np_log : Q -> Q)
      (self : Hawkes.Model) (base match_length c : Q) :
  0 < c -> 0 < base -> 0 <= Hawkes.alpha self ->
  (forall k, c <= - np_log (draws k)) ->
  forall (n : nat) (t intensity : Q) (goals : list Q) (s : nat)
         (goals' : list Q) (s' : nat),
    0 <= t -> 0 < intensity ->
    Forall (fun g => 0 < g < match_length) goals ->
    Hawkes.simulate_match draws np_log n self base match_length
                          t intensity goals s = Some (goals', s') ->
    Forall (fun g => 0 < g < match_length) goals' /\
    (length goals' <= length goals + n)%nat.
Proof.
  intros Hc Hb Ha Hdraw.
  induction n as [|n IH]; intros t intensity goals s goals' s' Ht Hi Hg;
    cbn [Hawkes.simulate_match].
  - destruct (Qltb_spec t match_length) as [Hlt|Hge]; cbn [negb].
    + discriminate.
    + intros E. injection E as <- <-. split; [exact Hg | lia].
  - destruct (Qltb_spec t match_length) as [Hlt|Hge]; cbn [negb].
    2:{ intros E. injection E as <- <-. split; [exact Hg | lia]. }
    unfold Hawkes.bind at 1. unfold Hawkes.uniform at 1.
    assert (Hne : Qeq_bool intensity 0 = false).
    { destruct (Qeq_bool intensity 0) eqn:E; [|reflexivity].
      apply Qeq_bool_iff in E. lra. }
    rewrite Hne.
    assert (Hdt : 0 < - np_log (draws s) / intensity).
    { apply Qlt_shift_div_l; [exact Hi|]. pose proof (Hdraw s). lra. }
    destruct (Qltb_spec (t + - np_log (draws s) / intensity) match_length)
      as [Hin|Hout].
    + unfold Hawkes.bind at 1. unfold Hawkes.uniform at 1.
      destruct (Py.Qltb (draws (S s)) (intensity / (base * 2))).
      * intros E. apply IH in E; try lra.
        -- destruct E as [E1 E2]. split; [exact E1|].
           rewrite length_app in E2. cbn [length] in E2. lia.
        -- apply Forall_app. split; [exact Hg|].
           constructor; [split; lra | constructor].
      * intros E. apply IH in E; try lra; try assumption.
        destruct E as [E1 E2]. split; [exact E1 | lia].
    + intros E. apply IH in E; try lra; try assumption.
      destruct E as [E1 E2]. split; [exact E1 | lia].
Qed.

(** X30: one simulated match.  When minus the logarithm of every draw is
    at least some c > 0, the base intensity is positive, the excitation
    is not negative and the fuel covers the match length, the loop
    returns, every goal time it returns lies strictly between the
    kick-off and the match length, and there are at most as many goals as
    iterations. *)
Theorem X30_simulated_goal_times_lie_within_the_match :
  forall (draws : nat -> Q) (np_log : Q -> Q) (n : nat) (self : Hawkes.Model)
         (base match_length c : Q) (s : nat),
    0 < c -> 0 < base -> 0 <= Hawkes.alpha self ->
    (forall k, c <= - np_log (draws k)) ->
    match_length <= inject_Z (Z.of_nat n) * (c / (base + Hawkes.alpha self * 1)) ->
    exists goals s',
      Hawkes.simulate_match draws np_log n self base match_length 0 base [] s
      = Some (goals, s') /\
      Forall (fun g => 0 < g < match_length) goals /\
      (length goals <= n)%nat.
Proof.
  intros draws np_log n self base match_length c s Hc Hb Ha Hdraw Hfuel.
  destruct (simulate_match_returns draws np_log self base match_length c
              Hc Hb Ha Hdraw n 0 base [] s) as (goals & s' & E); try lra.
  exists goals, s'. split; [exact E|].
  apply (simulate_match_goal_times draws np_log self base match_length c
           Hc Hb Ha Hdraw n 0 base [] s goals s'); try lra; [constructor | exact E].
Qed.

Lemma X30_witness :
  exists goals s',
    Hawkes.simulate_match Sample.draws Sample.tangent_log 200 Hawkes.init
                          (Hawkes.lambda0_home Hawkes.init) 90 0
                          (Hawkes.lambda0_home Hawkes.init) [] 0%nat
    = Some (goals, s') /\
    Forall (fun g => 0 < g < 90) goals /\ (length goals <= 200)%nat.
Proof.
  apply (X30_simulated_goal_times_lie_within_the_match
           Sample.draws Sample.tangent_log 200 Hawkes.init
           (Hawkes.lambda0_home Hawkes.init) 90 (1 # 2) 0%nat).
  - reflexivity.
  - reflexivity.
  - discriminate.
  - intros k. unfold Sample.draws, Sample.tangent_log.
    destruct (Nat.even k); lra.
  - vm_compute. discriminate.
Defined.
